(** * goravel: the application bootstrap ([goravel.go])

    A shallow embedding of [Goravel.New], [Goravel.ListenAndServe] and the
    constructors they call, followed by the properties of the startup and
    shutdown sequence.

    Go values are embedded as follows.
    - A pointer that may be nil is an [option]; [None] is nil.
    - An [error] result is an [option error]; [None] is the nil error.
    - The process environment read by [os.Getenv] is a [gmap string string].
    - A method with receiver [grv *Goravel] is a computation in the monad
      [Go], which threads the process state [Proc] (the receiver, the
      package-level variables, the environment, the defer stack of the
      running function and the trace of calls made so far) and ends normally,
      by [os.Exit] or by a panic.
    - Calls that leave the file (the file system, the database driver, the
      embedded store, the cron parser, the HTTP server, the Unicode tables)
      are answered by a [World]. *)

From Stdlib Require Import ZArith QArith String Ascii List Bool Lia.
From stdpp Require Import base option list strings gmap.


Local Open Scope Z_scope.

(** ** Values of the collaborating packages

    One module per imported package.  A struct has the fields that
    [goravel.go] sets or reads. *)

(** A non-nil Go [error]. *)
Inductive error : Type := Err (msg : string).

Definition is_nil {A : Type} (p : option A) : bool :=
  match p with None => true | Some _ => false end.

(** [time.Duration] counts nanoseconds. *)
Module time.
Definition Duration := Z.
Definition Second : Duration := 1000000000.
End time.

(** [log.Logger] as built by [log.New(os.Stdout, prefix, flag)]. *)
Module log.
Definition Ldate : Z := 1.
Definition Ltime : Z := 2.
Definition Lshortfile : Z := 16.
Record Logger : Type := New { prefix : string; flag : Z }.
End log.

(** [*sql.DB]: the handle remembers what it was opened with. *)
Inductive sqlDB : Type := SqlDB (dbType dsn : string).

Module badger.
(** [*badger.DB], opened on a directory. *)
Inductive DB : Type := Open (dir : string).
End badger.

Module redis.
(** What a [Dial] closure asks of [redis.Dial]. *)
Record DialCall : Type :=
  { network : string; address : string; DialPassword : string }.

(** The two closures stored in the pool.  [DialGrv] is the literal
    [func() (redis.Conn, error)] of [createRedisPool]: it captures the
    receiver and reads [grv.config.redis] when it is called. *)
Inductive DialFunc : Type := DialGrv.
Inductive TestFunc : Type := TestPing.

Record Pool : Type :=
  { MaxIdle : Z;
    MaxActive : Z;
    IdleTimeout : time.Duration;
    Dial : DialFunc;
    TestOnBorrow : TestFunc }.
End redis.

Module cache.
Record RedisCache : Type :=
  mkRedisCache { rConn : option redis.Pool; rPrefix : string }.
Record BadgerCache : Type :=
  mkBadgerCache { bConn : option badger.DB; bPrefix : string }.

(** The interface [cache.Cache] holding one of its two implementations. *)
Inductive Cache : Type :=
| OfRedis (c : RedisCache)
| OfBadger (c : BadgerCache).

Inductive Backend : Type := NetworkService | EmbeddedStore.

Definition backend (c : Cache) : Backend :=
  match c with OfRedis _ => NetworkService | OfBadger _ => EmbeddedStore end.

Definition Prefix (c : Cache) : string :=
  match c with OfRedis r => rPrefix r | OfBadger b => bPrefix b end.
End cache.

Module cron.
(** The function values handed to [AddFunc].  [BadgerGC ratio] is the
    literal [func() { myBadgerCache.Conn.RunValueLogGC(ratio) }]; it reads
    the package variable when it runs. *)
Inductive Job : Type := BadgerGC (discardRatio : Q).

Record Entry : Type := { Schedule : string; job : Job }.

(** [*cron.Cron]: its entries and whether [Start] was called. *)
Record Cron : Type := { entries : list Entry; running : bool }.

Definition New : Cron := {| entries := []; running := false |}.
End cron.

Module mailer.
Inductive Message : Type := mkMessage (body : string).
Inductive Result : Type := mkResult (Success : bool).

(** A buffered channel: its capacity and the values waiting in it. *)
Record chan (A : Type) : Type := make_chan { cap : Z; buffered : list A }.
Arguments make_chan {A} cap buffered.
Arguments cap {A} c.
Arguments buffered {A} c.

Definition make (A : Type) (n : Z) : chan A := make_chan n [].

Record Mail : Type :=
  { Domain : string;
    Templates : string;
    Host : string;
    Port : Z;
    Username : string;
    Password : string;
    Encryption : string;
    FromName : string;
    FromAddress : string;
    Jobs : option (chan Message);
    Results : option (chan Result);
    API : string;
    APIKey : string;
    APIUrl : string }.

(** The zero value of [Mail]. *)
Definition zero : Mail :=
  {| Domain := ""; Templates := ""; Host := ""; Port := 0; Username := "";
     Password := ""; Encryption := ""; FromName := ""; FromAddress := "";
     Jobs := None; Results := None; API := ""; APIKey := ""; APIUrl := "" |}.
End mailer.

Module jet.
(** [*jet.Set] over an OS file-system loader. *)
Record Set_ : Type := NewSet { loaderDir : string; developmentMode : bool }.
End jet.

Module session.
Record Session : Type :=
  { CookieLifeTime : string;
    CookiePersist : string;
    CookieName : string;
    CookieDomain : string;
    SessionType : string;
    DBPool : option sqlDB;
    RedisPool : option redis.Pool }.

(** [*scs.SessionManager] as returned by [InitSession]. *)
Inductive SessionManager : Type := InitSession (s : Session).
End session.

Module render.
Record Render : Type :=
  { Renderer : string;
    RootPath : string;
    Port : string;
    JetViews : option jet.Set_;
    Session : option session.SessionManager }.
End render.

Module chi.
(** [*chi.Mux] as returned by [grv.routes()]. *)
Inductive Mux : Type := Router.
End chi.

Module http.
Record Server : Type :=
  { Addr : string;
    ErrorLog : option log.Logger;
    Handler : option chi.Mux;
    IdleTimeout : time.Duration;
    ReadTimeout : time.Duration;
    WriteTimeout : time.Duration }.
End http.


(** ** The types of the package

    [cookieConfig], [databaseConfig], [redisConfig], [Database] and
    [initPaths] are declared in another file of the package; their fields
    are the ones the struct literals of [goravel.go] name. *)

Record cookieConfig : Type :=
  { name : string; lifetime : string; persist : string; secure : string;
    domain : string }.

Record databaseConfig : Type := { dsn : string; database : string }.

Record redisConfig : Type := { host : string; password : string; prefix : string }.

Record config : Type :=
  { port : string;
    renderer : string;
    cookie : cookieConfig;
    sessionType : string;
    database_ : databaseConfig;
    redis_ : redisConfig }.

Record Server : Type :=
  { ServerName : string; Port : string; Secure : bool; URL : string }.

Record Database : Type := { DataBaseType : string; Pool : option sqlDB }.

Record initPaths : Type := { rootPath : string; folderNames : list string }.

Definition version : string := "1.0.0".

(** The zero values a freshly allocated [Goravel] holds. *)
Definition config_zero : config :=
  {| port := ""; renderer := "";
     cookie := {| name := ""; lifetime := ""; persist := ""; secure := ""; domain := "" |};
     sessionType := "";
     database_ := {| dsn := ""; database := "" |};
     redis_ := {| host := ""; password := ""; prefix := "" |} |}.

Definition Server_zero : Server :=
  {| ServerName := ""; Port := ""; Secure := false; URL := "" |}.

Definition Database_zero : Database := {| DataBaseType := ""; Pool := None |}.

(** The struct [Goravel]; [grv.Cache g] reads as the source's [grv.Cache]. *)
Module grv.
Record Goravel : Type :=
  { AppName : string;
    Debug : bool;
    Version : string;
    ErrorLog : option log.Logger;
    InfoLog : option log.Logger;
    RootPath : string;
    Routes : option chi.Mux;
    Render : option render.Render;
    Session : option session.SessionManager;
    DB : Database;
    JetViews : option jet.Set_;
    config : config;
    EncryptionKey : string;
    Cache : option cache.Cache;
    Scheduler : option cron.Cron;
    Mail : mailer.Mail;
    Server : Server }.

Definition zero : Goravel :=
  {| AppName := ""; Debug := false; Version := ""; ErrorLog := None;
     InfoLog := None; RootPath := ""; Routes := None; Render := None;
     Session := None; DB := Database_zero; JetViews := None;
     config := config_zero; EncryptionKey := ""; Cache := None;
     Scheduler := None; Mail := mailer.zero; Server := Server_zero |}.

(** Assignments to one field. *)
Definition set_Debug v g :=
  {| AppName := AppName g; Debug := v; Version := Version g; ErrorLog := ErrorLog g;
     InfoLog := InfoLog g; RootPath := RootPath g; Routes := Routes g; Render := Render g;
     Session := Session g; DB := DB g; JetViews := JetViews g; config := config g;
     EncryptionKey := EncryptionKey g; Cache := Cache g; Scheduler := Scheduler g;
     Mail := Mail g; Server := Server g |}.
Definition set_Version v g :=
  {| AppName := AppName g; Debug := Debug g; Version := v; ErrorLog := ErrorLog g;
     InfoLog := InfoLog g; RootPath := RootPath g; Routes := Routes g; Render := Render g;
     Session := Session g; DB := DB g; JetViews := JetViews g; config := config g;
     EncryptionKey := EncryptionKey g; Cache := Cache g; Scheduler := Scheduler g;
     Mail := Mail g; Server := Server g |}.
Definition set_ErrorLog v g :=
  {| AppName := AppName g; Debug := Debug g; Version := Version g; ErrorLog := v;
     InfoLog := InfoLog g; RootPath := RootPath g; Routes := Routes g; Render := Render g;
     Session := Session g; DB := DB g; JetViews := JetViews g; config := config g;
     EncryptionKey := EncryptionKey g; Cache := Cache g; Scheduler := Scheduler g;
     Mail := Mail g; Server := Server g |}.
Definition set_InfoLog v g :=
  {| AppName := AppName g; Debug := Debug g; Version := Version g; ErrorLog := ErrorLog g;
     InfoLog := v; RootPath := RootPath g; Routes := Routes g; Render := Render g;
     Session := Session g; DB := DB g; JetViews := JetViews g; config := config g;
     EncryptionKey := EncryptionKey g; Cache := Cache g; Scheduler := Scheduler g;
     Mail := Mail g; Server := Server g |}.
Definition set_RootPath v g :=
  {| AppName := AppName g; Debug := Debug g; Version := Version g; ErrorLog := ErrorLog g;
     InfoLog := InfoLog g; RootPath := v; Routes := Routes g; Render := Render g;
     Session := Session g; DB := DB g; JetViews := JetViews g; config := config g;
     EncryptionKey := EncryptionKey g; Cache := Cache g; Scheduler := Scheduler g;
     Mail := Mail g; Server := Server g |}.
Definition set_Routes v g :=
  {| AppName := AppName g; Debug := Debug g; Version := Version g; ErrorLog := ErrorLog g;
     InfoLog := InfoLog g; RootPath := RootPath g; Routes := v; Render := Render g;
     Session := Session g; DB := DB g; JetViews := JetViews g; config := config g;
     EncryptionKey := EncryptionKey g; Cache := Cache g; Scheduler := Scheduler g;
     Mail := Mail g; Server := Server g |}.
Definition set_Render v g :=
  {| AppName := AppName g; Debug := Debug g; Version := Version g; ErrorLog := ErrorLog g;
     InfoLog := InfoLog g; RootPath := RootPath g; Routes := Routes g; Render := v;
     Session := Session g; DB := DB g; JetViews := JetViews g; config := config g;
     EncryptionKey := EncryptionKey g; Cache := Cache g; Scheduler := Scheduler g;
     Mail := Mail g; Server := Server g |}.
Definition set_Session v g :=
  {| AppName := AppName g; Debug := Debug g; Version := Version g; ErrorLog := ErrorLog g;
     InfoLog := InfoLog g; RootPath := RootPath g; Routes := Routes g; Render := Render g;
     Session := v; DB := DB g; JetViews := JetViews g; config := config g;
     EncryptionKey := EncryptionKey g; Cache := Cache g; Scheduler := Scheduler g;
     Mail := Mail g; Server := Server g |}.
Definition set_DB v g :=
  {| AppName := AppName g; Debug := Debug g; Version := Version g; ErrorLog := ErrorLog g;
     InfoLog := InfoLog g; RootPath := RootPath g; Routes := Routes g; Render := Render g;
     Session := Session g; DB := v; JetViews := JetViews g; config := config g;
     EncryptionKey := EncryptionKey g; Cache := Cache g; Scheduler := Scheduler g;
     Mail := Mail g; Server := Server g |}.
Definition set_JetViews v g :=
  {| AppName := AppName g; Debug := Debug g; Version := Version g; ErrorLog := ErrorLog g;
     InfoLog := InfoLog g; RootPath := RootPath g; Routes := Routes g; Render := Render g;
     Session := Session g; DB := DB g; JetViews := v; config := config g;
     EncryptionKey := EncryptionKey g; Cache := Cache g; Scheduler := Scheduler g;
     Mail := Mail g; Server := Server g |}.
Definition set_config v g :=
  {| AppName := AppName g; Debug := Debug g; Version := Version g; ErrorLog := ErrorLog g;
     InfoLog := InfoLog g; RootPath := RootPath g; Routes := Routes g; Render := Render g;
     Session := Session g; DB := DB g; JetViews := JetViews g; config := v;
     EncryptionKey := EncryptionKey g; Cache := Cache g; Scheduler := Scheduler g;
     Mail := Mail g; Server := Server g |}.
Definition set_EncryptionKey v g :=
  {| AppName := AppName g; Debug := Debug g; Version := Version g; ErrorLog := ErrorLog g;
     InfoLog := InfoLog g; RootPath := RootPath g; Routes := Routes g; Render := Render g;
     Session := Session g; DB := DB g; JetViews := JetViews g; config := config g;
     EncryptionKey := v; Cache := Cache g; Scheduler := Scheduler g;
     Mail := Mail g; Server := Server g |}.
Definition set_Cache v g :=
  {| AppName := AppName g; Debug := Debug g; Version := Version g; ErrorLog := ErrorLog g;
     InfoLog := InfoLog g; RootPath := RootPath g; Routes := Routes g; Render := Render g;
     Session := Session g; DB := DB g; JetViews := JetViews g; config := config g;
     EncryptionKey := EncryptionKey g; Cache := v; Scheduler := Scheduler g;
     Mail := Mail g; Server := Server g |}.
Definition set_Scheduler v g :=
  {| AppName := AppName g; Debug := Debug g; Version := Version g; ErrorLog := ErrorLog g;
     InfoLog := InfoLog g; RootPath := RootPath g; Routes := Routes g; Render := Render g;
     Session := Session g; DB := DB g; JetViews := JetViews g; config := config g;
     EncryptionKey := EncryptionKey g; Cache := Cache g; Scheduler := v;
     Mail := Mail g; Server := Server g |}.
Definition set_Mail v g :=
  {| AppName := AppName g; Debug := Debug g; Version := Version g; ErrorLog := ErrorLog g;
     InfoLog := InfoLog g; RootPath := RootPath g; Routes := Routes g; Render := Render g;
     Session := Session g; DB := DB g; JetViews := JetViews g; config := config g;
     EncryptionKey := EncryptionKey g; Cache := Cache g; Scheduler := Scheduler g;
     Mail := v; Server := Server g |}.
Definition set_Server v g :=
  {| AppName := AppName g; Debug := Debug g; Version := Version g; ErrorLog := ErrorLog g;
     InfoLog := InfoLog g; RootPath := RootPath g; Routes := Routes g; Render := Render g;
     Session := Session g; DB := DB g; JetViews := JetViews g; config := config g;
     EncryptionKey := EncryptionKey g; Cache := Cache g; Scheduler := Scheduler g;
     Mail := Mail g; Server := v |}.
End grv.

(** The package-level variables. *)
Record Globals : Type :=
  { myRedisCache : option cache.RedisCache;
    myBadgerCache : option cache.BadgerCache;
    redisPool : option redis.Pool;
    badgerConn : option badger.DB }.

Definition Globals_zero : Globals :=
  {| myRedisCache := None; myBadgerCache := None; redisPool := None; badgerConn := None |}.

Definition set_myRedisCache v p :=
  {| myRedisCache := v; myBadgerCache := myBadgerCache p;
     redisPool := redisPool p; badgerConn := badgerConn p |}.
Definition set_myBadgerCache v p :=
  {| myRedisCache := myRedisCache p; myBadgerCache := v;
     redisPool := redisPool p; badgerConn := badgerConn p |}.
Definition set_redisPool v p :=
  {| myRedisCache := myRedisCache p; myBadgerCache := myBadgerCache p;
     redisPool := v; badgerConn := badgerConn p |}.
Definition set_badgerConn v p :=
  {| myRedisCache := myRedisCache p; myBadgerCache := myBadgerCache p;
     redisPool := redisPool p; badgerConn := v |}.

(** ** The process *)

(** Resources that have a [Close] method. *)
Inductive Handle : Type :=
| HFile (path : string)
| HSql (db : sqlDB)
| HRedisPool (p : redis.Pool)
| HBadger (db : badger.DB).

(** The calls a run makes, in the order it makes them. *)
Inductive Call : Type :=
| CallCreateDir (path : string)
| CallStat (path : string)
| CallCreate (path : string)
| CallLoadEnv (path : string)
| CallOpenDB (dbType dsn : string)
| CallCronNew
| CallCronAddFunc (spec : string) (j : cron.Job)
| CallCronStart
| CallNewRedisPool
| CallNewRedisCache
| CallBadgerOpen (dir : string)
| CallNewBadgerCache
| CallLogNew (prefix : string)
| CallLogOutput (l : log.Logger) (msg : string)
| CallMakeChan (capacity : Z)
| CallRoutes
| CallInitSession
| CallJetNewSet (dir : string)
| CallGoListenForMail
| CallServe (srv : http.Server)
| CallClose (h : Handle)
| CallExit (code : Z).

Record Proc : Type :=
  { this : grv.Goravel;
    pkg : Globals;
    environ : gmap string string;
    defers : list Handle;
    trace : list Call }.

(** How a Go function can end. *)
Inductive Outcome (A : Type) : Type :=
| Normal (a : A)
| Exit (code : Z)
| Panic (msg : string).
Arguments Normal {A} a.
Arguments Exit {A} code.
Arguments Panic {A} msg.

Definition Go (A : Type) : Type := Proc -> Outcome A * Proc.

#[global] Instance Go_ret : MRet Go := fun A a s => (Normal a, s).

#[global] Instance Go_bind : MBind Go := fun A B f m s =>
  match m s with
  | (Normal a, s') => f a s'
  | (Exit code, s') => (Exit code, s')
  | (Panic msg, s') => (Panic msg, s')
  end.

Definition emit (c : Call) : Go unit := fun s =>
  (Normal tt,
   {| this := this s; pkg := pkg s; environ := environ s; defers := defers s;
      trace := trace s ++ [c] |}).

Definition get_grv : Go grv.Goravel := fun s => (Normal (this s), s).

Definition modify_grv (f : grv.Goravel -> grv.Goravel) : Go unit := fun s =>
  (Normal tt,
   {| this := f (this s); pkg := pkg s; environ := environ s; defers := defers s;
      trace := trace s |}).

Definition get_pkg : Go Globals := fun s => (Normal (pkg s), s).

Definition modify_pkg (f : Globals -> Globals) : Go unit := fun s =>
  (Normal tt,
   {| this := this s; pkg := f (pkg s); environ := environ s; defers := defers s;
      trace := trace s |}).

Definition set_environ (e : gmap string string) : Go unit := fun s =>
  (Normal tt,
   {| this := this s; pkg := pkg s; environ := e; defers := defers s;
      trace := trace s |}).

Definition set_defers (d : list Handle) (s : Proc) : Proc :=
  {| this := this s; pkg := pkg s; environ := environ s; defers := d;
     trace := trace s |}.

(** [os.Getenv]: the value of the variable, or the empty string. *)
Definition Getenv (e : gmap string string) (key : string) : string :=
  default "" (e !! key).

Definition os_Getenv (key : string) : Go string := fun s =>
  (Normal (Getenv (environ s) key), s).

(** [BuildDSN] reads nothing but the environment; [BuildDSN_of e] is the
    string it returns when the environment is [e]. *)
Definition BuildDSN_of (e : gmap string string) : string :=
  let dbType := Getenv e "DATABASE_TYPE" in
  if String.eqb dbType "postgres" || String.eqb dbType "postgresql" then
    let dsn :=
      "host=" +:+ Getenv e "DATABASE_HOST" +:+ " port=" +:+ Getenv e "DATABASE_PORT"
      +:+ " user=" +:+ Getenv e "DATABASE_USER" +:+ " dbname=" +:+ Getenv e "DATABASE_NAME"
      +:+ " sslmode=" +:+ Getenv e "DATABASE_SSL_MODE"
      +:+ " timezone=UTC connect_timeout=5" in
    if negb (String.eqb (Getenv e "DATABASE_PASS") "") then
      dsn +:+ " password=" +:+ Getenv e "DATABASE_PASS"
    else dsn
  else "".

(** [os.Exit]: the process ends at once; no deferred call runs. *)
Definition os_Exit {A : Type} (code : Z) : Go A := fun s =>
  match emit (CallExit code) s with (_, s') => (Exit code, s') end.

Definition panic {A : Type} (msg : string) : Go A := fun s => (Panic msg, s).

Definition nil_deref : string :=
  "runtime error: invalid memory address or nil pointer dereference".

(** [defer h.Close()]: the receiver is evaluated now, the call made later. *)
Definition defer_Close (h : Handle) : Go unit := fun s =>
  (Normal tt, set_defers (h :: defers s) s).

(** Run the deferred calls of the returning function, last one first. *)
Fixpoint run_defers (d : list Handle) (s : Proc) : Proc :=
  match d with
  | [] => s
  | h :: rest =>
      match emit (CallClose h) s with (_, s') => run_defers rest s' end
  end.

(** A function body with [defer] statements.  Its deferred calls run when it
    returns and when it panics, and do not run when the process exits. *)
Definition func {A : Type} (body : Go A) : Go A := fun s =>
  match body (set_defers [] s) with
  | (Exit code, s') => (Exit code, s')
  | (r, s') => (r, set_defers (defers s) (run_defers (defers s') s'))
  end.

(** Methods of a [*log.Logger]; a nil receiver panics. *)
Definition Logger_Println (l : option log.Logger) (msg : string) : Go unit :=
  match l with
  | None => panic nil_deref
  | Some lg => emit (CallLogOutput lg msg)
  end.

Definition Logger_Printf (l : option log.Logger) (msg : string) : Go unit :=
  match l with
  | None => panic nil_deref
  | Some lg => emit (CallLogOutput lg msg)
  end.

(** [Fatal] is [Print] followed by [os.Exit(1)]. *)
Definition Logger_Fatal {A : Type} (l : option log.Logger) (msg : string) : Go A :=
  match l with
  | None => panic nil_deref
  | Some lg => _ ← emit (CallLogOutput lg msg); os_Exit 1
  end.

Definition Error (e : error) : string := match e with Err m => m end.

Definition tab : string := String (ascii_of_nat 9) EmptyString.

(** ** The standard library functions the file calls *)

Module strconv.
(** [ParseBool] accepts 1, t, T, TRUE, true, True, 0, f, F, FALSE, false,
    False; any other value is an error and the result is false. *)
Definition ParseBool (str : string) : bool * option error :=
  if (String.eqb str "1" || String.eqb str "t" || String.eqb str "T"
      || String.eqb str "TRUE" || String.eqb str "true" || String.eqb str "True")%bool
  then (true, None)
  else if (String.eqb str "0" || String.eqb str "f" || String.eqb str "F"
      || String.eqb str "FALSE" || String.eqb str "false" || String.eqb str "False")%bool
  then (false, None)
  else (false, Some (Err "strconv.ParseBool: invalid syntax")).

Definition digit (c : ascii) : option Z :=
  let n := Z.of_N (N_of_ascii c) in
  if (48 <=? n) && (n <=? 57) then Some (n - 48) else None.

(** The value of a run of decimal digits, most significant first. *)
Fixpoint digits (acc : Z) (s : string) : option Z :=
  match s with
  | EmptyString => Some acc
  | String c rest =>
      match digit c with
      | Some d => digits (acc * 10 + d) rest
      | None => None
      end
  end.

Definition maxInt : Z := 2 ^ 63 - 1.
Definition minInt : Z := - 2 ^ 63.

Definition in_range (n : Z) : Z * option error :=
  if n >? maxInt then (maxInt, Some (Err "strconv.Atoi: value out of range"))
  else if n <? minInt then (minInt, Some (Err "strconv.Atoi: value out of range"))
  else (n, None).

Definition syntax_error : Z * option error :=
  (0, Some (Err "strconv.Atoi: invalid syntax")).

(** [Atoi] on a 64-bit platform: an optional sign and at least one decimal
    digit.  A syntax error yields 0; a value that does not fit yields the
    nearest bound, with an error. *)
Definition Atoi (s : string) : Z * option error :=
  match s with
  | EmptyString => syntax_error
  | String c rest =>
      if Ascii.eqb c "-" then
        match rest with
        | EmptyString => syntax_error
        | _ => match digits 0 rest with
               | Some n => in_range (- n)
               | None => syntax_error
               end
        end
      else if Ascii.eqb c "+" then
        match rest with
        | EmptyString => syntax_error
        | _ => match digits 0 rest with
               | Some n => in_range n
               | None => syntax_error
               end
        end
      else match digits 0 s with
           | Some n => in_range n
           | None => syntax_error
           end
  end.
End strconv.

Module utf8.
Definition RuneError : Z := 65533.
Definition RuneSelf : Z := 128.

Definition byte (c : ascii) : Z := Z.of_N (N_of_ascii c).

Definition chr (b : Z) : ascii := ascii_of_N (Z.to_N b).

(** Continuation bytes lie in [locb, hicb]. *)
Definition locb : Z := 128.
Definition hicb : Z := 191.

Definition within (lo hi b : Z) : bool := (lo <=? b) && (b <=? hi).

(** The table [first] with [acceptRanges]: for a leading byte, the length of
    the sequence and the range its second byte must lie in.  [None] stands
    for the ASCII and the invalid entries. *)
Definition first (s0 : Z) : option (nat * Z * Z) :=
  if within 194 223 s0 then Some (2%nat, locb, hicb)
  else if s0 =? 224 then Some (3%nat, 160, hicb)
  else if within 225 236 s0 then Some (3%nat, locb, hicb)
  else if s0 =? 237 then Some (3%nat, locb, 159)
  else if within 238 239 s0 then Some (3%nat, locb, hicb)
  else if s0 =? 240 then Some (4%nat, 144, hicb)
  else if within 241 243 s0 then Some (4%nat, locb, hicb)
  else if s0 =? 244 then Some (4%nat, locb, 143)
  else None.

Definition mask2 : Z := 31.
Definition mask3 : Z := 15.
Definition mask4 : Z := 7.
Definition maskx : Z := 63.

(** [DecodeRuneInString] on a non-empty string: the rune and what follows
    it.  A byte that starts no valid sequence decodes to [RuneError] and is
    one byte wide. *)
Definition DecodeRune (c0 : ascii) (rest : string) : Z * string :=
  let s0 := byte c0 in
  if s0 <? RuneSelf then (s0, rest)
  else
    match first s0 with
    | None => (RuneError, rest)
    | Some (sz, lo, hi) =>
        match rest with
        | EmptyString => (RuneError, rest)
        | String c1 rest1 =>
            let s1 := byte c1 in
            if negb (within lo hi s1) then (RuneError, rest)
            else if (sz <=? 2)%nat then
              (Z.lor (Z.shiftl (Z.land s0 mask2) 6) (Z.land s1 maskx), rest1)
            else
              match rest1 with
              | EmptyString => (RuneError, rest)
              | String c2 rest2 =>
                  let s2 := byte c2 in
                  if negb (within locb hicb s2) then (RuneError, rest)
                  else if (sz <=? 3)%nat then
                    (Z.lor (Z.lor (Z.shiftl (Z.land s0 mask3) 12)
                                  (Z.shiftl (Z.land s1 maskx) 6))
                           (Z.land s2 maskx), rest2)
                  else
                    match rest2 with
                    | EmptyString => (RuneError, rest)
                    | String c3 rest3 =>
                        let s3 := byte c3 in
                        if negb (within locb hicb s3) then (RuneError, rest)
                        else
                          (Z.lor (Z.lor (Z.lor (Z.shiftl (Z.land s0 mask4) 18)
                                               (Z.shiftl (Z.land s1 maskx) 12))
                                        (Z.shiftl (Z.land s2 maskx) 6))
                                 (Z.land s3 maskx), rest3)
                    end
              end
        end
    end.

(** The runes a [for _, c := range s] loop visits.  Every step consumes at
    least one byte, so the length of the string is fuel enough. *)
Fixpoint runes_from (fuel : nat) (s : string) : list Z :=
  match fuel, s with
  | S n, String c0 rest =>
      let (r, s') := DecodeRune c0 rest in r :: runes_from n s'
  | _, _ => []
  end.

Definition runes (s : string) : list Z := runes_from (String.length s) s.

Definition surrogate (r : Z) : bool := within 55296 57343 r.

(** [AppendRune]: the UTF-8 encoding of a rune; a rune that is out of range
    or a surrogate is written as [RuneError]. *)
Definition EncodeRune (r : Z) : string :=
  let three (r : Z) :=
    String (chr (Z.lor 224 (Z.shiftr r 12)))
      (String (chr (Z.lor 128 (Z.land (Z.shiftr r 6) maskx)))
         (String (chr (Z.lor 128 (Z.land r maskx))) EmptyString)) in
  if (r <? 0) || (1114111 <? r) || surrogate r then three RuneError
  else if r <? 128 then String (chr r) EmptyString
  else if r <? 2048 then
    String (chr (Z.lor 192 (Z.shiftr r 6)))
      (String (chr (Z.lor 128 (Z.land r maskx))) EmptyString)
  else if r <? 65536 then three r
  else
    String (chr (Z.lor 240 (Z.shiftr r 18)))
      (String (chr (Z.lor 128 (Z.land (Z.shiftr r 12) maskx)))
         (String (chr (Z.lor 128 (Z.land (Z.shiftr r 6) maskx)))
            (String (chr (Z.lor 128 (Z.land r maskx))) EmptyString))).
End utf8.

Module strings.
(** Does the string hold a byte outside ASCII? *)
Fixpoint isASCII (s : string) : bool :=
  match s with
  | EmptyString => true
  | String c rest => (utf8.byte c <? utf8.RuneSelf) && isASCII rest
  end.

Definition lower_byte (c : ascii) : ascii :=
  let b := utf8.byte c in
  if utf8.within 65 90 b then utf8.chr (b + 32) else c.

Fixpoint lower_ascii (s : string) : string :=
  match s with
  | EmptyString => EmptyString
  | String c rest => String (lower_byte c) (lower_ascii rest)
  end.

(** [Map]: every rune of [s] replaced by its image, negative images dropped. *)
Definition Map (mapping : Z -> Z) (s : string) : string :=
  fold_right (fun c out =>
                let r := mapping c in
                if 0 <=? r then utf8.EncodeRune r +:+ out else out)
             EmptyString (utf8.runes s).

(** [ToLower]: an ASCII string is lowered byte by byte, any other string rune
    by rune through [unicode.ToLower]. *)
Definition ToLower (unicode_ToLower : Z -> Z) (s : string) : string :=
  if isASCII s then lower_ascii s else Map unicode_ToLower s.
End strings.

(** ** The world outside the file *)

(** The answers of the calls that leave the file.  [CreateDirIfNotExist] and
    [OpenDB] are methods of [Goravel] declared in other files of the
    package; the others belong to the operating system and to the imported
    libraries. *)
Record World : Type :=
  { CreateDirIfNotExist : string -> option error;
    stat_IsNotExist : string -> bool;
    os_Create : string -> option error;
    godotenv_Load : string -> gmap string string -> gmap string string * option error;
    OpenDB : string -> string -> option sqlDB * option error;
    badger_Open : string -> option badger.DB * option error;
    cron_Parse : string -> option error;
    http_ListenAndServe : http.Server -> error;
    unicode_ToLower : Z -> Z }.

Section Goravel.

Variable W : World.

(** *** Helpers of [New] *)

Fixpoint Init_range (root : string) (names : list string) : Go (option error) :=
  match names with
  | [] => mret None
  | path :: rest =>
      _ ← emit (CallCreateDir (root +:+ "/" +:+ path));
      match CreateDirIfNotExist W (root +:+ "/" +:+ path) with
      | Some err => mret (Some err)
      | None => Init_range root rest
      end
  end.

Definition Init (p : initPaths) : Go (option error) :=
  let root := rootPath p in
  Init_range root (folderNames p).

Definition CreateFileIfNotExist (path : string) : Go (option error) :=
  func (
    _ ← emit (CallStat path);
    if stat_IsNotExist W path then
      _ ← emit (CallCreate path);
      match os_Create W path with
      | Some err => mret (Some err)
      | None => _ ← defer_Close (HFile path); mret None
      end
    else mret None).

Definition checkDotEnv (path : string) : Go (option error) :=
  err ← CreateFileIfNotExist (path +:+ "/.env");
  match err with
  | Some e => mret (Some e)
  | None => mret None
  end.

Definition godotenv_Load_ (path : string) : Go (option error) :=
  fun s =>
    let (e, err) := godotenv_Load W path (environ s) in
    (_ ← emit (CallLoadEnv path); _ ← set_environ e; mret err) s.

Definition BuildDSN : Go string := fun s =>
  (Normal (BuildDSN_of (environ s)), s).

Definition OpenDB_ (dbType dsn : string) : Go (option sqlDB * option error) :=
  _ ← emit (CallOpenDB dbType dsn);
  mret (OpenDB W dbType dsn).

Definition startLoggers : Go (option log.Logger * option log.Logger) :=
  _ ← emit (CallLogNew ("INFO" +:+ tab));
  let infoLog := log.New ("INFO" +:+ tab) (Z.lor log.Ldate log.Ltime) in
  _ ← emit (CallLogNew ("ERROR" +:+ tab));
  let errorLog :=
    log.New ("ERROR" +:+ tab) (Z.lor (Z.lor log.Ldate log.Ltime) log.Lshortfile) in
  mret (Some infoLog, Some errorLog).

Definition createRenderer : Go unit :=
  g ← get_grv;
  let myRenderer :=
    {| render.Renderer := renderer (grv.config g);
       render.RootPath := grv.RootPath g;
       render.Port := port (grv.config g);
       render.JetViews := grv.JetViews g;
       render.Session := grv.Session g |} in
  modify_grv (grv.set_Render (Some myRenderer)).

Definition createMailer : Go mailer.Mail :=
  smtpPort ← os_Getenv "SMTP_PORT";
  let port := fst (strconv.Atoi smtpPort) in
  g ← get_grv;
  mailDomain ← os_Getenv "MAIL_DOMAIN";
  smtpHost ← os_Getenv "SMTP_HOST";
  smtpUsername ← os_Getenv "SMTP_USERNAME";
  smtpPassword ← os_Getenv "SMTP_PASSWORD";
  smtpEncryption ← os_Getenv "SMTP_ENCRYPTION";
  fromName ← os_Getenv "FROM_NAME";
  fromAddress ← os_Getenv "FROM_ADDRESS";
  _ ← emit (CallMakeChan 20);
  let jobs := mailer.make mailer.Message 20 in
  _ ← emit (CallMakeChan 20);
  let results := mailer.make mailer.Result 20 in
  api ← os_Getenv "MAILER_API";
  apiKey ← os_Getenv "MAILER_KEY";
  apiUrl ← os_Getenv "MAILER_URL";
  let m :=
    {| mailer.Domain := mailDomain;
       mailer.Templates := grv.RootPath g +:+ "/mail";
       mailer.Host := smtpHost;
       mailer.Port := port;
       mailer.Username := smtpUsername;
       mailer.Password := smtpPassword;
       mailer.Encryption := smtpEncryption;
       mailer.FromName := fromName;
       mailer.FromAddress := fromAddress;
       mailer.Jobs := Some jobs;
       mailer.Results := Some results;
       mailer.API := api;
       mailer.APIKey := apiKey;
       mailer.APIUrl := apiUrl |} in
  mret m.

(** [createRedisPool] and the two [createClient...] functions return the
    address of a fresh struct, which is never nil; the embedding returns the
    struct and the caller wraps it in [Some]. *)
Definition createRedisPool : Go redis.Pool :=
  _ ← emit CallNewRedisPool;
  mret {| redis.MaxIdle := 50;
          redis.MaxActive := 10000;
          redis.IdleTimeout := 240 * time.Second;
          redis.Dial := redis.DialGrv;
          redis.TestOnBorrow := redis.TestPing |}.

Definition createBadgerConn : Go (option badger.DB) :=
  g ← get_grv;
  _ ← emit (CallBadgerOpen (grv.RootPath g +:+ "/tmp/badger"));
  let (db, err) := badger_Open W (grv.RootPath g +:+ "/tmp/badger") in
  match err with
  | Some _ => mret None
  | None => mret db
  end.

Definition createClientRedisCache : Go cache.RedisCache :=
  conn ← createRedisPool;
  g ← get_grv;
  let cacheClient :=
    {| cache.rConn := Some conn; cache.rPrefix := prefix (redis_ (grv.config g)) |} in
  _ ← emit CallNewRedisCache;
  mret cacheClient.

Definition createClientBadgerCache : Go cache.BadgerCache :=
  conn ← createBadgerConn;
  g ← get_grv;
  let cacheClient :=
    {| cache.bConn := conn; cache.bPrefix := prefix (redis_ (grv.config g)) |} in
  _ ← emit CallNewBadgerCache;
  mret cacheClient.

(** [grv.routes()], declared in another file of the package. *)
Definition routes : Go (option chi.Mux) :=
  _ ← emit CallRoutes;
  mret (Some chi.Router).

Definition InitSession (sess : session.Session) : Go (option session.SessionManager) :=
  _ ← emit CallInitSession;
  mret (Some (session.InitSession sess)).

Definition jet_NewSet (dir : string) (development : bool) : Go (option jet.Set_) :=
  _ ← emit (CallJetNewSet dir);
  mret (Some (jet.NewSet dir development)).

(** [grv.Scheduler.AddFunc]: the entry is added when the schedule parses. *)
Definition Scheduler_AddFunc (spec : string) (cmd : cron.Job) : Go (option error) :=
  g ← get_grv;
  match grv.Scheduler g with
  | None => panic nil_deref
  | Some c =>
      _ ← emit (CallCronAddFunc spec cmd);
      match cron_Parse W spec with
      | Some err => mret (Some err)
      | None =>
          let entry := {| cron.Schedule := spec; cron.job := cmd |} in
          _ ← modify_grv (grv.set_Scheduler
                 (Some {| cron.entries := cron.entries c ++ [entry];
                          cron.running := cron.running c |}));
          mret None
      end
  end.

(** The folder names of the [initPaths] literal in [New]. *)
Definition New_folderNames : list string :=
  ["handlers"; "migrations"; "views"; "mail"; "data"; "public"; "tmp"; "logs";
   "middleware"].

(** *** [New]

    The body of [New] is cut where its own comments cut it; [New] below runs
    the pieces in the order of the source. *)

(** Lines 71-91: the folders, the [.env] file and its loading. *)
Definition New_env (rootPath_ : string) : Go (option error) :=
  let pathConfig :=
    {| rootPath := rootPath_; folderNames := New_folderNames |} in
  err ← Init pathConfig;
  match err with Some e => mret (Some e) | None =>
  err ← checkDotEnv rootPath_;
  match err with Some e => mret (Some e) | None =>
  (* read .env *)
  err ← godotenv_Load_ (rootPath_ +:+ "/.env");
  match err with Some e => mret (Some e) | None => mret None
  end end end.

(** Lines 93-105: connect to db. *)
Definition New_db : Go unit :=
  dbType ← os_Getenv "DATABASE_TYPE";
  if negb (String.eqb dbType "") then
    dbType ← os_Getenv "DATABASE_TYPE";
    dsn ← BuildDSN;
    '(db, err) ← OpenDB_ dbType dsn;
    match err with
    | Some e =>
        g ← get_grv;
        _ ← Logger_Println (grv.ErrorLog g) (Error e);
        os_Exit 1
    | None =>
        dbType ← os_Getenv "DATABASE_TYPE";
        modify_grv (grv.set_DB {| DataBaseType := dbType; Pool := db |})
    end
  else mret tt.

(** Lines 107-127: the scheduler and the cache. *)
Definition New_cache : Go (option error) :=
  _ ← emit CallCronNew;
  let scheduler := cron.New in
  _ ← modify_grv (grv.set_Scheduler (Some scheduler));
  (* create cache *)
  cacheType ← os_Getenv "CACHE";
  sessType ← os_Getenv "SESSION_TYPE";
  _ ← (if String.eqb cacheType "redis" || String.eqb sessType "redis" then
         c ← createClientRedisCache;
         _ ← modify_pkg (set_myRedisCache (Some c));
         _ ← modify_grv (grv.set_Cache (Some (cache.OfRedis c)));
         modify_pkg (set_redisPool (cache.rConn c))
       else mret tt);
  cacheType ← os_Getenv "CACHE";
  if String.eqb cacheType "badger" then
    c ← createClientBadgerCache;
    _ ← modify_pkg (set_myBadgerCache (Some c));
    _ ← modify_grv (grv.set_Cache (Some (cache.OfBadger c)));
    _ ← modify_pkg (set_badgerConn (cache.bConn c));
    err ← Scheduler_AddFunc "@daily" (cron.BadgerGC (7 # 10));
    match err with Some e => mret (Some e) | None => mret None end
  else mret None.

(** Lines 129-175: the loggers, the mailer, the routes, [grv.config] and
    [grv.Server]. *)
Definition New_app (rootPath_ : string) : Go unit :=
  (* create logger *)
  '(infoLog, errorLog) ← startLoggers;
  _ ← modify_grv (grv.set_InfoLog infoLog);
  _ ← modify_grv (grv.set_ErrorLog errorLog);
  debug ← os_Getenv "DEBUG";
  _ ← modify_grv (grv.set_Debug (fst (strconv.ParseBool debug)));
  _ ← modify_grv (grv.set_Version version);
  _ ← modify_grv (grv.set_RootPath rootPath_);
  (* create mail *)
  m ← createMailer;
  _ ← modify_grv (grv.set_Mail m);
  r ← routes;
  _ ← modify_grv (grv.set_Routes r);
  envPort ← os_Getenv "PORT";
  envRenderer ← os_Getenv "RENDERER";
  cookieName ← os_Getenv "COOKIE_NAME";
  cookieLifetime ← os_Getenv "COOKIE_LIFETIME";
  cookiePersists ← os_Getenv "COOKIE_PERSISTS";
  cookieSecure ← os_Getenv "COOKIE_SECURE";
  cookieDomain ← os_Getenv "COOKIE_DOMAIN";
  envSessionType ← os_Getenv "SESSION_TYPE";
  envDatabaseType ← os_Getenv "DATABASE_TYPE";
  dsn ← BuildDSN;
  redisHost ← os_Getenv "REDIS_HOST";
  redisPassword ← os_Getenv "REDIS_PASSWORD";
  redisPrefix ← os_Getenv "REDIS_PREFIX";
  _ ← modify_grv (grv.set_config
         {| port := envPort;
            renderer := envRenderer;
            cookie := {| name := cookieName;
                         lifetime := cookieLifetime;
                         persist := cookiePersists;
                         secure := cookieSecure;
                         domain := cookieDomain |};
            sessionType := envSessionType;
            database_ := {| database := envDatabaseType; dsn := dsn |};
            redis_ := {| host := redisHost;
                         password := redisPassword;
                         prefix := redisPrefix |} |});
  envSecure ← os_Getenv "SECURE";
  let secure :=
    if String.eqb (strings.ToLower (unicode_ToLower W) envSecure) "false"
    then false else true in
  serverName ← os_Getenv "SEVER_NAME";
  envPort ← os_Getenv "PORT";
  appURL ← os_Getenv "APP_URL";
  modify_grv (grv.set_Server
    {| ServerName := serverName;
       Port := envPort;
       Secure := secure;
       URL := appURL |}).

(** Lines 177-199: the session and the encryption key. *)
Definition New_session : Go unit :=
  (* create a Session *)
  g ← get_grv;
  let sess :=
    {| session.CookieLifeTime := lifetime (cookie (grv.config g));
       session.CookiePersist := persist (cookie (grv.config g));
       session.CookieName := name (cookie (grv.config g));
       session.SessionType := sessionType (grv.config g);
       session.CookieDomain := domain (cookie (grv.config g));
       session.DBPool := None;
       session.RedisPool := None |} in
  let st := sessionType (grv.config g) in
  sess ← (if String.eqb st "redis" then
            p ← get_pkg;
            match myRedisCache p with
            | None => panic nil_deref
            | Some c =>
                mret {| session.CookieLifeTime := session.CookieLifeTime sess;
                        session.CookiePersist := session.CookiePersist sess;
                        session.CookieName := session.CookieName sess;
                        session.SessionType := session.SessionType sess;
                        session.CookieDomain := session.CookieDomain sess;
                        session.DBPool := session.DBPool sess;
                        session.RedisPool := cache.rConn c |}
            end
          else if String.eqb st "mysql" || String.eqb st "postgres"
                  || String.eqb st "mariadb" || String.eqb st "postgresql" then
            mret {| session.CookieLifeTime := session.CookieLifeTime sess;
                    session.CookiePersist := session.CookiePersist sess;
                    session.CookieName := session.CookieName sess;
                    session.SessionType := session.SessionType sess;
                    session.CookieDomain := session.CookieDomain sess;
                    session.DBPool := Pool (grv.DB g);
                    session.RedisPool := session.RedisPool sess |}
          else mret sess);
  sm ← InitSession sess;
  _ ← modify_grv (grv.set_Session sm);
  key ← os_Getenv "KEY";
  modify_grv (grv.set_EncryptionKey key).

(** Lines 201-216: the template set and the renderer. *)
Definition New_views (rootPath_ : string) : Go unit :=
  g ← get_grv;
  _ ← (if grv.Debug g then
         views ← jet_NewSet (rootPath_ +:+ "/views") true;
         modify_grv (grv.set_JetViews views)
       else
         views ← jet_NewSet (rootPath_ +:+ "/views") false;
         modify_grv (grv.set_JetViews views));
  createRenderer.

(** [go grv.Mail.ListenForMail()]: the mail worker starts. *)
Definition go_ListenForMail : Go unit := emit CallGoListenForMail.

Definition New (rootPath_ : string) : Go (option error) :=
  err ← New_env rootPath_;
  match err with Some e => mret (Some e) | None =>
  _ ← New_db;
  err ← New_cache;
  match err with Some e => mret (Some e) | None =>
  _ ← New_app rootPath_;
  _ ← New_session;
  _ ← New_views rootPath_;
  _ ← go_ListenForMail;
  mret None
  end end.

(** *** [ListenAndServe] *)

Definition ListenAndServe : Go unit :=
  func (
    envPort ← os_Getenv "PORT";
    g ← get_grv;
    let srv :=
      {| http.Addr := ":" +:+ envPort;
         http.ErrorLog := grv.ErrorLog g;
         http.Handler := grv.Routes g;
         http.IdleTimeout := 30 * time.Second;
         http.ReadTimeout := 30 * time.Second;
         http.WriteTimeout := 600 * time.Second |} in
    (* close DB when app close *)
    _ ← match Pool (grv.DB g) with
        | Some db => defer_Close (HSql db)
        | None => mret tt
        end;
    p ← get_pkg;
    _ ← match redisPool p with
        | Some pool => defer_Close (HRedisPool pool)
        | None => mret tt
        end;
    _ ← match badgerConn p with
        | Some db => defer_Close (HBadger db)
        | None => mret tt
        end;
    envPort ← os_Getenv "PORT";
    _ ← Logger_Printf (grv.InfoLog g) ("Listening on port " +:+ envPort);
    _ ← emit (CallServe srv);
    let err := http_ListenAndServe W srv in
    Logger_Fatal (grv.ErrorLog g) (Error err)).

End Goravel.

(** *** The closures built by the file, when they are called *)

(** The outcome of the job registered by [New], run against the package
    variables of that moment. *)
Inductive JobRun : Type :=
| RunValueLogGC (db : badger.DB) (discardRatio : Q)
| JobPanics (msg : string).

Definition run_Job (j : cron.Job) (p : Globals) : JobRun :=
  match j with
  | cron.BadgerGC ratio =>
      match myBadgerCache p with
      | None => JobPanics nil_deref
      | Some c =>
          match cache.bConn c with
          | None => JobPanics nil_deref
          | Some db => RunValueLogGC db ratio
          end
      end
  end.

(** What the [Dial] closure of the pool passes to [redis.Dial], run against
    the receiver of that moment. *)
Definition run_Dial (d : redis.DialFunc) (g : grv.Goravel) : redis.DialCall :=
  match d with
  | redis.DialGrv =>
      {| redis.network := "tcp";
         redis.address := host (redis_ (grv.config g));
         redis.DialPassword := password (redis_ (grv.config g)) |}
  end.

(** ** Definitions used in the statements *)

(** The calls that start the scheduler or the mail worker. *)
Definition starts (c : Call) : bool :=
  match c with
  | CallCronStart | CallGoListenForMail => true
  | _ => false
  end.

(** A frame relation holds between a state and every later state of a run;
    it survives the calls that start nothing.  [keeps R m] says that
    running [m] keeps the run inside [R]. *)
Class Frame (R : Proc -> Proc -> Prop) : Prop :=
  { frame_refl : forall s, R s s;
    frame_trans : forall s1 s2 s3, R s1 s2 -> R s2 s3 -> R s1 s3;
    frame_defers : forall d s, R s (set_defers d s);
    frame_emit : forall c s, starts c = false -> R s (snd (emit c s)) }.

Definition keeps {A : Type} (R : Proc -> Proc -> Prop) (m : Go A) : Prop :=
  forall s, R s (snd (m s)).

(** The frame relations used in the proofs. *)

(** Nothing but [godotenv.Load] writes the environment. *)
Definition same_environ (s s' : Proc) : Prop := environ s' = environ s.

(** The package variables are left alone. *)
Definition same_pkg (s s' : Proc) : Prop := pkg s' = pkg s.

(** A part [f] of the receiver is left alone. *)
Definition same_grv {X : Type} (f : grv.Goravel -> X) (s s' : Proc) : Prop :=
  f (this s') = f (this s).

(** The trace grows, and by calls that start nothing. *)
Definition quietly (s s' : Proc) : Prop :=
  exists cs, trace s' = trace s ++ cs /\ Forall (fun c => starts c = false) cs.

(** What each block of [New] returns, read off the answers of the world. *)
Section Outcomes.

Variable W : World.

(** The error [Init] returns: that of the first folder that fails. *)
Fixpoint Init_error (root : string) (names : list string) : option error :=
  match names with
  | [] => None
  | path :: rest =>
      match CreateDirIfNotExist W (root +:+ "/" +:+ path) with
      | Some err => Some err
      | None => Init_error root rest
      end
  end.

(** The error [checkDotEnv] returns. *)
Definition checkDotEnv_error (path : string) : option error :=
  if stat_IsNotExist W (path +:+ "/.env") then os_Create W (path +:+ "/.env")
  else None.

(** The environment [New] works with: the one [godotenv.Load] leaves. *)
Definition loaded (r : string) (e : gmap string string) : gmap string string :=
  fst (godotenv_Load W (r +:+ "/.env") e).

Definition Load_error (r : string) (e : gmap string string) : option error :=
  snd (godotenv_Load W (r +:+ "/.env") e).

Definition New_env_error (r : string) (e : gmap string string) : option error :=
  match Init_error r New_folderNames with
  | Some err => Some err
  | None =>
      match checkDotEnv_error r with
      | Some err => Some err
      | None => Load_error r e
      end
  end.

(** The error that makes [New] give up on the database. *)
Definition New_db_error (e : gmap string string) : option error :=
  if negb (String.eqb (Getenv e "DATABASE_TYPE") "") then
    snd (OpenDB W (Getenv e "DATABASE_TYPE") (BuildDSN_of e))
  else None.

(** The cache block.  [wants_redis] and [wants_badger] are its two tests. *)
Definition wants_redis (e : gmap string string) : bool :=
  String.eqb (Getenv e "CACHE") "redis" || String.eqb (Getenv e "SESSION_TYPE") "redis".

Definition wants_badger (e : gmap string string) : bool :=
  String.eqb (Getenv e "CACHE") "badger".

(** The pool literal of [createRedisPool]. *)
Definition createRedisPool_literal : redis.Pool :=
  {| redis.MaxIdle := 50;
     redis.MaxActive := 10000;
     redis.IdleTimeout := 240 * time.Second;
     redis.Dial := redis.DialGrv;
     redis.TestOnBorrow := redis.TestPing |}.

(** The handle [createBadgerConn] returns when [grv.RootPath] is [root]. *)
Definition createBadgerConn_result (root : string) : option badger.DB :=
  match badger_Open W (root +:+ "/tmp/badger") with
  | (_, Some _) => None
  | (db, None) => db
  end.

Definition daily_gc : cron.Entry :=
  {| cron.Schedule := "@daily"; cron.job := cron.BadgerGC (7 # 10) |}.

Definition New_cache_error (e : gmap string string) : option error :=
  if wants_badger e then cron_Parse W "@daily" else None.

(** How [New] ends when the database cannot be opened: the error is logged
    and the process exits, unless no logger is there to log it. *)
Definition New_db_abort {A : Type} (g : grv.Goravel) : Outcome A :=
  match grv.ErrorLog g with
  | Some _ => Exit 1
  | None => Panic nil_deref
  end.

(** The outcome of [New], from the answers of the world. *)
Definition New_outcome (r : string) (s : Proc) : Outcome (option error) :=
  match New_env_error r (environ s) with
  | Some err => Normal (Some err)
  | None =>
      match New_db_error (loaded r (environ s)) with
      | Some _ => New_db_abort (this s)
      | None =>
          match New_cache_error (loaded r (environ s)) with
          | Some err => Normal (Some err)
          | None => Normal None
          end
      end
  end.

(** The calls of the cache block, for environment [e] and receiver [g]. *)
Definition New_cache_calls (e : gmap string string) (g : grv.Goravel) : list Call :=
  [CallCronNew]
    ++ (if wants_redis e then [CallNewRedisPool; CallNewRedisCache] else [])
    ++ (if wants_badger e
        then [CallBadgerOpen (grv.RootPath g +:+ "/tmp/badger");
              CallNewBadgerCache;
              CallCronAddFunc "@daily" (cron.BadgerGC (7 # 10))]
        else []).

End Outcomes.

(** ** A concrete deployment

    An application rooted at [/app].  Its [.env] file selects the embedded
    store as cache and the network cache for sessions, names a PostgreSQL
    database, sets the cache prefix to [app] and gives an SMTP port that is
    not a number.  The folders exist, the database answers, and the embedded
    store cannot be opened. *)

Definition demo_env : gmap string string :=
  list_to_map
    [("CACHE", "badger"); ("SESSION_TYPE", "redis"); ("DATABASE_TYPE", "postgres");
     ("DATABASE_HOST", "db"); ("PORT", "4000"); ("REDIS_HOST", "cache:6379");
     ("REDIS_PREFIX", "app"); ("SMTP_PORT", "abc"); ("SECURE", "False")].

(** [unicode.ToLower] restricted to the letters A to Z. *)
Definition demo_ToLower (r : Z) : Z :=
  if (65 <=? r) && (r <=? 90) then r + 32 else r.

Definition demo_world : World :=
  {| CreateDirIfNotExist := fun _ => None;
     stat_IsNotExist := fun _ => false;
     os_Create := fun _ => None;
     godotenv_Load := fun _ e => (demo_env ∪ e, None);
     OpenDB := fun dbType dsn => (Some (SqlDB dbType dsn), None);
     badger_Open := fun _ => (None, Some (Err "Cannot acquire directory lock"));
     cron_Parse := fun _ => None;
     http_ListenAndServe := fun _ => Err "http: Server closed";
     unicode_ToLower := demo_ToLower |}.

(** The same deployment with a database that refuses connections. *)
Definition demo_world_db_down : World :=
  {| CreateDirIfNotExist := CreateDirIfNotExist demo_world;
     stat_IsNotExist := stat_IsNotExist demo_world;
     os_Create := os_Create demo_world;
     godotenv_Load := godotenv_Load demo_world;
     OpenDB := fun _ _ => (None, Some (Err "connection refused"));
     badger_Open := badger_Open demo_world;
     cron_Parse := cron_Parse demo_world;
     http_ListenAndServe := http_ListenAndServe demo_world;
     unicode_ToLower := unicode_ToLower demo_world |}.

(** A process that has just allocated its [Goravel]. *)
Definition fresh : Proc :=
  {| this := grv.zero; pkg := Globals_zero; environ := ∅; defers := []; trace := [] |}.

Definition demo_started : Proc := snd (New demo_world "/app" fresh).

(** The server value [ListenAndServe] builds. *)
Definition ListenAndServe_srv (s : Proc) : http.Server :=
  {| http.Addr := ":" +:+ Getenv (environ s) "PORT";
     http.ErrorLog := grv.ErrorLog (this s);
     http.Handler := grv.Routes (this s);
     http.IdleTimeout := 30 * time.Second;
     http.ReadTimeout := 30 * time.Second;
     http.WriteTimeout := 600 * time.Second |}.

(** The handles [ListenAndServe] defers the closing of, last deferred first. *)
Definition ListenAndServe_deferred (s : Proc) : list Handle :=
  match badgerConn (pkg s) with Some db => [HBadger db] | None => [] end
    ++ match redisPool (pkg s) with Some p => [HRedisPool p] | None => [] end
    ++ match Pool (grv.DB (this s)) with Some db => [HSql db] | None => [] end.

Definition pool_bounds (p : redis.Pool) : Z * Z * time.Duration :=
  (redis.MaxIdle p, redis.MaxActive p, redis.IdleTimeout p).

(** The strings that read [false] when case is ignored. *)
Definition either (lo up c : ascii) : bool := Ascii.eqb c lo || Ascii.eqb c up.

Definition spells_false (s : string) : bool :=
  match s with
  | String c1 (String c2 (String c3 (String c4 (String c5 EmptyString)))) =>
      either "f" "F" c1 && either "a" "A" c2 && either "l" "L" c3
      && either "s" "S" c4 && either "e" "E" c5
  | _ => false
  end.

(** The letters f, a, l, s, e as runes. *)
Definition false_letters : list Z := [102; 97; 108; 115; 101].

(** What the proofs need of the Unicode tables: no rune outside ASCII is
    dropped by [unicode.ToLower] or lowered to a letter of [false]. *)
Definition lowers_outside_false (lower : Z -> Z) : Prop :=
  forall r, 128 <= r -> 0 <= lower r /\ ~ In (lower r) false_letters.

(** Every byte of the string is a letter of [false]. *)
Fixpoint all_letters (s : string) : Prop :=
  match s with
  | EmptyString => True
  | String c rest => In (utf8.byte c) false_letters /\ all_letters rest
  end.

(** The part of a decoded rune that the first two bytes determine. *)
Definition head_bits (sz : nat) (s0 s1 : Z) : Z :=
  match sz with
  | 2%nat => Z.lor (Z.shiftl (Z.land s0 utf8.mask2) 6) (Z.land s1 utf8.maskx)
  | 3%nat => Z.lor (Z.shiftl (Z.land s0 utf8.mask3) 12) (Z.shiftl (Z.land s1 utf8.maskx) 6)
  | _ => Z.lor (Z.shiftl (Z.land s0 utf8.mask4) 18) (Z.shiftl (Z.land s1 utf8.maskx) 12)
  end.

Definition head_bits_high (s0 s1 : Z) : bool :=
  match utf8.first s0 with
  | None => true
  | Some (sz, lo, hi) =>
      if utf8.within lo hi s1 then 128 <=? head_bits sz s0 s1 else true
  end.

(** The settings whose failure [New] checks for: one of the application
    folders cannot be created, the [.env] file is missing and cannot be
    created, the [.env] file cannot be loaded, a database is named and
    cannot be opened, or the embedded store is selected and its daily job
    is refused by the scheduler. *)
Definition startup_failure (W : World) (r : string) (e0 : gmap string string) : Prop :=
  (exists path, In path New_folderNames /\
                CreateDirIfNotExist W (r +:+ "/" +:+ path) <> None) \/
  (stat_IsNotExist W (r +:+ "/.env") = true /\ os_Create W (r +:+ "/.env") <> None) \/
  snd (godotenv_Load W (r +:+ "/.env") e0) <> None \/
  (Getenv (loaded W r e0) "DATABASE_TYPE" <> "" /\
   snd (OpenDB W (Getenv (loaded W r e0) "DATABASE_TYPE") (BuildDSN_of (loaded W r e0)))
   <> None) \/
  (Getenv (loaded W r e0) "CACHE" = "badger" /\ cron_Parse W "@daily" <> None).



(** A process whose [Goravel] was given an error logger before [New] is
    called; [ErrorLog] is an exported field. *)
Definition fresh_with_ErrorLog : Proc :=
  {| this := grv.set_ErrorLog (Some (log.New ("ERROR" +:+ tab) 19)) grv.zero;
     pkg := Globals_zero; environ := ∅; defers := []; trace := [] |}.

(** ** Definitions used in the further properties *)

(** The state after the calls [cs] were made and nothing else changed. *)
Definition with_calls (cs : list Call) (s : Proc) : Proc :=
  {| this := this s; pkg := pkg s; environ := environ s; defers := defers s;
     trace := trace s ++ cs |}.

(** One [CreateDirIfNotExist] call per folder name. *)
Definition dir_calls (root : string) (names : list string) : list Call :=
  map (fun path => CallCreateDir (root +:+ "/" +:+ path)) names.

(** The calls of [checkDotEnv] under the root [path]. *)
Definition checkDotEnv_calls (W : World) (path : string) : list Call :=
  if stat_IsNotExist W (path +:+ "/.env") then
    match os_Create W (path +:+ "/.env") with
    | Some _ => [CallStat (path +:+ "/.env"); CallCreate (path +:+ "/.env")]
    | None => [CallStat (path +:+ "/.env"); CallCreate (path +:+ "/.env");
               CallClose (HFile (path +:+ "/.env"))]
    end
  else [CallStat (path +:+ "/.env")].

(** The calls of the database block when the environment is [e]. *)
Definition New_db_calls (e : gmap string string) : list Call :=
  if negb (String.eqb (Getenv e "DATABASE_TYPE") "") then
    [CallOpenDB (Getenv e "DATABASE_TYPE") (BuildDSN_of e)]
  else [].

(** The calls of the block that builds the loggers, the mailer and the
    routes. *)
Definition New_app_calls : list Call :=
  [CallLogNew ("INFO" +:+ tab); CallLogNew ("ERROR" +:+ tab);
   CallMakeChan 20; CallMakeChan 20; CallRoutes].

(** The calls that touch only folders, the [.env] file and its loading. *)
Definition is_setup_call (c : Call) : bool :=
  match c with
  | CallCreateDir _ | CallStat _ | CallCreate _ | CallLoadEnv _ => true
  | CallClose (HFile _) => true
  | _ => false
  end.

(** The session types of the second case of the switch in [New]. *)
Definition sql_session (st : string) : bool :=
  String.eqb st "mysql" || String.eqb st "postgres"
  || String.eqb st "mariadb" || String.eqb st "postgresql".

(** The concrete deployment with the [views] folder on a read-only volume. *)
Definition demo_world_views_readonly : World :=
  {| CreateDirIfNotExist :=
       fun path => if String.eqb path "/app/views"
                   then Some (Err "read-only file system") else None;
     stat_IsNotExist := stat_IsNotExist demo_world;
     os_Create := os_Create demo_world;
     godotenv_Load := godotenv_Load demo_world;
     OpenDB := OpenDB demo_world;
     badger_Open := badger_Open demo_world;
     cron_Parse := cron_Parse demo_world;
     http_ListenAndServe := http_ListenAndServe demo_world;
     unicode_ToLower := unicode_ToLower demo_world |}.

(** A deployment whose [.env] sets SESSION_TYPE and nothing else. *)
Definition demo_world_session_only : World :=
  {| CreateDirIfNotExist := CreateDirIfNotExist demo_world;
     stat_IsNotExist := stat_IsNotExist demo_world;
     os_Create := os_Create demo_world;
     godotenv_Load := fun _ e => (<[ "SESSION_TYPE" := "redis" ]> e, None);
     OpenDB := OpenDB demo_world;
     badger_Open := badger_Open demo_world;
     cron_Parse := cron_Parse demo_world;
     http_ListenAndServe := http_ListenAndServe demo_world;
     unicode_ToLower := unicode_ToLower demo_world |}.

(** The calls of [Init], up to and including the first folder that fails. *)
Fixpoint Init_calls (W : World) (root : string) (names : list string) : list Call :=
  match names with
  | [] => []
  | path :: rest =>
      CallCreateDir (root +:+ "/" +:+ path)
        :: match CreateDirIfNotExist W (root +:+ "/" +:+ path) with
           | Some _ => []
           | None => Init_calls W root rest
           end
  end.

(** The calls of the first block of [New], which ends at the first failure. *)
Definition New_env_calls (W : World) (r : string) : list Call :=
  Init_calls W r New_folderNames
    ++ match Init_error W r New_folderNames with
       | Some _ => []
       | None =>
           checkDotEnv_calls W r
             ++ match checkDotEnv_error W r with
                | Some _ => []
                | None => [CallLoadEnv (r +:+ "/.env")]
                end
       end.

(** The values [New] assigns to [grv.Mail], [grv.config] and [grv.Server]
    when its argument is [r] and the environment is [e]: the struct literals
    of [createMailer] and [New] with every [os.Getenv] read from [e]. *)
Definition New_Mail (r : string) (e : gmap string string) : mailer.Mail :=
  {| mailer.Domain := Getenv e "MAIL_DOMAIN";
     mailer.Templates := r +:+ "/mail";
     mailer.Host := Getenv e "SMTP_HOST";
     mailer.Port := fst (strconv.Atoi (Getenv e "SMTP_PORT"));
     mailer.Username := Getenv e "SMTP_USERNAME";
     mailer.Password := Getenv e "SMTP_PASSWORD";
     mailer.Encryption := Getenv e "SMTP_ENCRYPTION";
     mailer.FromName := Getenv e "FROM_NAME";
     mailer.FromAddress := Getenv e "FROM_ADDRESS";
     mailer.Jobs := Some (mailer.make mailer.Message 20);
     mailer.Results := Some (mailer.make mailer.Result 20);
     mailer.API := Getenv e "MAILER_API";
     mailer.APIKey := Getenv e "MAILER_KEY";
     mailer.APIUrl := Getenv e "MAILER_URL" |}.

Definition New_config (e : gmap string string) : config :=
  {| port := Getenv e "PORT";
     renderer := Getenv e "RENDERER";
     cookie := {| name := Getenv e "COOKIE_NAME";
                  lifetime := Getenv e "COOKIE_LIFETIME";
                  persist := Getenv e "COOKIE_PERSISTS";
                  secure := Getenv e "COOKIE_SECURE";
                  domain := Getenv e "COOKIE_DOMAIN" |};
     sessionType := Getenv e "SESSION_TYPE";
     database_ := {| database := Getenv e "DATABASE_TYPE"; dsn := BuildDSN_of e |};
     redis_ := {| host := Getenv e "REDIS_HOST";
                  password := Getenv e "REDIS_PASSWORD";
                  prefix := Getenv e "REDIS_PREFIX" |} |}.

Definition New_Server (W : World) (e : gmap string string) : Server :=
  {| ServerName := Getenv e "SEVER_NAME";
     Port := Getenv e "PORT";
     Secure := (if String.eqb (strings.ToLower (unicode_ToLower W) (Getenv e "SECURE"))
                              "false"
                then false else true);
     URL := Getenv e "APP_URL" |}.

(** * Properties *)

(** ** The library functions on examples *)

Example ToLower_FaLsE : strings.ToLower (fun r => r) "FaLsE" = "false".
Proof. reflexivity. Qed.

Example Atoi_examples :
  strconv.Atoi "2525" = (2525, None) /\ fst (strconv.Atoi "-12") = -12 /\
  fst (strconv.Atoi "abc") = 0 /\ fst (strconv.Atoi "") = 0 /\
  fst (strconv.Atoi "99999999999999999999") = 9223372036854775807.
Proof. repeat split; reflexivity. Qed.

Example runes_examples :
  utf8.runes (String (utf8.chr 195) (String (utf8.chr 169) "a")) = [233; 97] /\
  utf8.runes (String (utf8.chr 255) "a") = [utf8.RuneError; 97] /\
  utf8.EncodeRune 233 = String (utf8.chr 195) (String (utf8.chr 169) "").
Proof. repeat split; reflexivity. Qed.

(** ** Reasoning about [Go] computations *)

Lemma bind_Normal {A B : Type} (m : Go A) (f : A -> Go B) (s s' : Proc) (b : B) :
  (m ≫= f) s = (Normal b, s') ->
  exists a s1, m s = (Normal a, s1) /\ f a s1 = (Normal b, s').
Proof.
  unfold mbind, Go_bind. destruct (m s) as [[a | code | msg] s1]; intros H.
  - exists a, s1. split; [reflexivity | exact H].
  - discriminate H.
  - discriminate H.
Qed.

Lemma bind_unfold {A B : Type} (m : Go A) (f : A -> Go B) (s : Proc) :
  (m ≫= f) s =
  match m s with
  | (Normal a, s') => f a s'
  | (Exit code, s') => (Exit code, s')
  | (Panic msg, s') => (Panic msg, s')
  end.
Proof. reflexivity. Qed.

Section Keeps.

Context (R : Proc -> Proc -> Prop) `{!Frame R}.

Lemma keeps_ret {A : Type} (a : A) : keeps R (mret a).
Proof. intros s. apply frame_refl. Qed.

Lemma keeps_bind {A B : Type} (m : Go A) (f : A -> Go B) :
  keeps R m -> (forall a, keeps R (f a)) -> keeps R (m ≫= f).
Proof.
  intros Hm Hf s. unfold mbind, Go_bind.
  specialize (Hm s). destruct (m s) as [[a | code | msg] s1]; simpl in *.
  - eapply frame_trans; [exact Hm | apply Hf].
  - exact Hm.
  - exact Hm.
Qed.

Lemma keeps_panic {A : Type} (msg : string) : keeps R (panic (A := A) msg).
Proof. intros s. apply frame_refl. Qed.

Lemma keeps_Getenv (key : string) : keeps R (os_Getenv key).
Proof. intros s. apply frame_refl. Qed.

Lemma keeps_get_grv : keeps R get_grv.
Proof. intros s. apply frame_refl. Qed.

Lemma keeps_get_pkg : keeps R get_pkg.
Proof. intros s. apply frame_refl. Qed.

Lemma keeps_defer_Close (h : Handle) : keeps R (defer_Close h).
Proof. intros s. apply frame_defers. Qed.

Lemma keeps_emit (c : Call) : starts c = false -> keeps R (emit c).
Proof. intros H s. apply frame_emit. exact H. Qed.

Lemma keeps_Exit {A : Type} (code : Z) : keeps R (os_Exit (A := A) code).
Proof. intros s. apply (frame_emit (CallExit code)). reflexivity. Qed.

Lemma keeps_BuildDSN : keeps R BuildDSN.
Proof. intros s. apply frame_refl. Qed.

Lemma run_defers_frame (d : list Handle) (s : Proc) : R s (run_defers d s).
Proof.
  revert s. induction d as [| h d IH]; intros s; simpl.
  - apply frame_refl.
  - eapply frame_trans; [apply (frame_emit (CallClose h)); reflexivity | apply IH].
Qed.

Lemma keeps_func {A : Type} (body : Go A) : keeps R body -> keeps R (func body).
Proof.
  intros Hb s. unfold func.
  pose proof (Hb (set_defers [] s)) as H.
  assert (R s (snd (body (set_defers [] s)))) as H'.
  { eapply frame_trans; [apply frame_defers | exact H]. }
  destruct (body (set_defers [] s)) as [[a | code | msg] s1]; simpl in *.
  - eapply frame_trans; [exact H' |].
    eapply frame_trans; [apply run_defers_frame | apply frame_defers].
  - exact H'.
  - eapply frame_trans; [exact H' |].
    eapply frame_trans; [apply run_defers_frame | apply frame_defers].
Qed.

End Keeps.

#[global] Instance same_environ_Frame : Frame same_environ.
Proof.
  split; unfold same_environ; simpl; try reflexivity.
  intros s1 s2 s3 H1 H2. congruence.
Qed.

#[global] Instance same_pkg_Frame : Frame same_pkg.
Proof.
  split; unfold same_pkg; simpl; try reflexivity.
  intros s1 s2 s3 H1 H2. congruence.
Qed.

#[global] Instance same_grv_Frame {X : Type} (f : grv.Goravel -> X) : Frame (same_grv f).
Proof.
  split; unfold same_grv; simpl; try reflexivity.
  intros s1 s2 s3 H1 H2. congruence.
Qed.

Lemma quietly_emit (c : Call) (s : Proc) :
  starts c = false -> quietly s (snd (emit c s)).
Proof.
  intros H. exists [c]. split; [reflexivity |].
  constructor; [exact H | constructor].
Qed.

#[global] Instance quietly_Frame : Frame quietly.
Proof.
  split.
  - intros s. exists []. split; [symmetry; apply app_nil_r | constructor].
  - intros s1 s2 s3 (c1 & E1 & F1) (c2 & E2 & F2).
    exists (c1 ++ c2). split.
    + rewrite E2, E1. symmetry. apply app_assoc.
    + apply Forall_app. split; assumption.
  - intros d s. exists []. split; [symmetry; apply app_nil_r | constructor].
  - intros c s H. apply quietly_emit. exact H.
Qed.

(** Writes to the receiver, to the package variables and to the environment
    are kept by a relation that does not look at what is written. *)
Lemma quietly_same_trace (s s' : Proc) : trace s' = trace s -> quietly s s'.
Proof.
  intros H. exists []. split; [rewrite H; symmetry; apply app_nil_r | constructor].
Qed.

Create HintDb go_unfold.

#[global] Hint Unfold Init CreateFileIfNotExist checkDotEnv OpenDB_ startLoggers
  createRenderer createMailer createRedisPool createBadgerConn
  createClientRedisCache createClientBadgerCache routes InitSession jet_NewSet
  Scheduler_AddFunc Logger_Println Logger_Printf Logger_Fatal go_ListenForMail
  New_env New_db New_cache New_app New_session New_views : go_unfold.

(** One step of a [keeps] proof; [atom] closes the writes. *)
Ltac frame_side := lazymatch goal with |- Frame _ => apply _ | |- _ => idtac end.

Ltac keeps_step atom :=
  lazymatch goal with
  | |- Frame _ => apply _
  | |- keeps _ (mbind _ _) => apply keeps_bind; frame_side; [ | intros ?; cbv beta ]
  | |- keeps _ (mret _) => apply keeps_ret; frame_side
  | |- keeps _ (panic _) => apply keeps_panic; frame_side
  | |- keeps _ (os_Getenv _) => apply keeps_Getenv; frame_side
  | |- keeps _ get_grv => apply keeps_get_grv; frame_side
  | |- keeps _ get_pkg => apply keeps_get_pkg; frame_side
  | |- keeps _ BuildDSN => apply keeps_BuildDSN; frame_side
  | |- keeps _ (defer_Close _) => apply keeps_defer_Close; frame_side
  | |- keeps _ (emit _) => apply keeps_emit; frame_side; reflexivity
  | |- keeps _ (os_Exit _) => apply keeps_Exit; frame_side
  | |- keeps _ (func _) => apply keeps_func; frame_side
  | |- keeps _ (match ?x with _ => _ end) => destruct x
  | |- keeps _ (modify_grv _) => atom
  | |- keeps _ (modify_pkg _) => atom
  | |- keeps _ (set_environ _) => atom
  | |- _ => progress autounfold with go_unfold
  end.

Ltac keeps_go atom := repeat keeps_step atom.

Ltac atom_same := solve [intros ?; reflexivity].
Ltac atom_quietly := solve [intros ?; apply quietly_same_trace; reflexivity].

Section Frames.

Variable W : World.

Lemma keeps_Init_range (R : Proc -> Proc -> Prop) `{!Frame R}
    (root : string) (names : list string) :
  keeps R (Init_range W root names).
Proof.
  induction names as [| path rest IH]; simpl.
  - apply keeps_ret; frame_side.
  - apply keeps_bind; frame_side; [apply keeps_emit; frame_side; reflexivity | intros _].
    destruct (CreateDirIfNotExist W _); [apply keeps_ret; frame_side | exact IH].
Qed.

Lemma keeps_Load (R : Proc -> Proc -> Prop) `{!Frame R} (path : string) :
  (forall e, keeps R (set_environ e)) -> keeps R (godotenv_Load_ W path).
Proof.
  intros He s. unfold godotenv_Load_.
  destruct (godotenv_Load W path (environ s)) as [e err].
  revert s. change (keeps R (_ ← emit (CallLoadEnv path); _ ← set_environ e; mret err)).
  keeps_go ltac:(apply He).
Qed.

(** The first block writes nothing but the environment. *)
Lemma keeps_New_env (R : Proc -> Proc -> Prop) `{!Frame R} (r : string) :
  (forall e, keeps R (set_environ e)) -> keeps R (New_env W r).
Proof.
  intros He. unfold New_env, Init.
  apply keeps_bind; frame_side; [apply keeps_Init_range; frame_side | intros err].
  destruct err; [apply keeps_ret; frame_side |].
  apply keeps_bind; frame_side; [keeps_go idtac | intros err].
  destruct err; [apply keeps_ret; frame_side |].
  apply keeps_bind; frame_side; [apply keeps_Load; frame_side; exact He | intros err].
  destruct err; apply keeps_ret; frame_side.
Qed.

(** The environment is written once, by [godotenv.Load]. *)
Lemma New_db_environ : keeps same_environ (New_db W).
Proof. keeps_go atom_same. Qed.

Lemma New_cache_environ : keeps same_environ (New_cache W).
Proof. keeps_go atom_same. Qed.

Lemma New_app_environ (r : string) : keeps same_environ (New_app W r).
Proof. keeps_go atom_same. Qed.

Lemma New_session_environ : keeps same_environ New_session.
Proof. keeps_go atom_same. Qed.

Lemma New_views_environ (r : string) : keeps same_environ (New_views r).
Proof. keeps_go atom_same. Qed.

(** The package variables are written by the cache block only. *)
Lemma New_app_pkg (r : string) : keeps same_pkg (New_app W r).
Proof. keeps_go atom_same. Qed.

Lemma New_session_pkg : keeps same_pkg New_session.
Proof. keeps_go atom_same. Qed.

Lemma New_views_pkg (r : string) : keeps same_pkg (New_views r).
Proof. keeps_go atom_same. Qed.

(** No block of [New] starts the scheduler or the mail worker. *)
Lemma New_env_quietly (r : string) : keeps quietly (New_env W r).
Proof. apply keeps_New_env; [apply _ | intros e; atom_quietly]. Qed.

Lemma New_db_quietly : keeps quietly (New_db W).
Proof. keeps_go atom_quietly. Qed.

Lemma New_cache_quietly : keeps quietly (New_cache W).
Proof. keeps_go atom_quietly. Qed.

Lemma New_app_quietly (r : string) : keeps quietly (New_app W r).
Proof. keeps_go atom_quietly. Qed.

Lemma New_session_quietly : keeps quietly New_session.
Proof. keeps_go atom_quietly. Qed.

Lemma New_views_quietly (r : string) : keeps quietly (New_views r).
Proof. keeps_go atom_quietly. Qed.

End Frames.

(** Run the straight-line part of a computation. *)
Ltac go_run :=
  cbv [mbind Go_bind mret Go_ret emit modify_grv modify_pkg set_environ os_Getenv
       get_grv get_pkg os_Exit panic BuildDSN defer_Close];
  cbn.

(** ** What each block of [New] returns *)

Section Blocks.

Variable W : World.

Lemma Init_range_fst (root : string) (names : list string) (s : Proc) :
  fst (Init_range W root names s) = Normal (Init_error W root names).
Proof.
  revert s. induction names as [| path rest IH]; intros s; simpl.
  - reflexivity.
  - unfold mbind, Go_bind. simpl.
    destruct (CreateDirIfNotExist W _); [reflexivity | apply IH].
Qed.

Lemma Init_error_None (root : string) (names : list string) :
  Init_error W root names = None <->
  forall path, In path names -> CreateDirIfNotExist W (root +:+ "/" +:+ path) = None.
Proof.
  induction names as [| p rest IH]; simpl.
  - split; [intros _ path [] | reflexivity].
  - destruct (CreateDirIfNotExist W (root +:+ "/" +:+ p)) eqn:E.
    + split; [discriminate |]. intros H. rewrite <- E. apply H. left. reflexivity.
    + rewrite IH. split.
      * intros H path [<- | Hin]; [exact E | apply H, Hin].
      * intros H path Hin. apply H. right. exact Hin.
Qed.

Lemma checkDotEnv_fst (path : string) (s : Proc) :
  fst (checkDotEnv W path s) = Normal (checkDotEnv_error W path).
Proof.
  unfold checkDotEnv, checkDotEnv_error, CreateFileIfNotExist, func, mbind, Go_bind.
  simpl. destruct (stat_IsNotExist W _); simpl; [| reflexivity].
  destruct (os_Create W _); reflexivity.
Qed.

Lemma New_env_run (r : string) (s : Proc) :
  fst (New_env W r s) = Normal (New_env_error W r (environ s)) /\
  (New_env_error W r (environ s) = None ->
   environ (snd (New_env W r s)) = loaded W r (environ s)).
Proof.
  unfold New_env, New_env_error, Init. cbn [rootPath folderNames].
  rewrite bind_unfold.
  pose proof (Init_range_fst r New_folderNames s) as H1.
  pose proof (keeps_Init_range W same_environ r New_folderNames s) as E1.
  destruct (Init_range W r New_folderNames s) as [o1 s1]. cbn [fst snd] in H1, E1.
  subst o1.
  destruct (Init_error W r New_folderNames) as [e1 |]; [split; [reflexivity | discriminate] |].
  rewrite bind_unfold.
  pose proof (checkDotEnv_fst r s1) as H2.
  assert (keeps same_environ (checkDotEnv W r)) as K2 by keeps_go idtac.
  pose proof (K2 s1) as E2.
  destruct (checkDotEnv W r s1) as [o2 s2]. cbn [fst snd] in H2, E2. subst o2.
  destruct (checkDotEnv_error W r) as [e2 |]; [split; [reflexivity | discriminate] |].
  rewrite bind_unfold. unfold godotenv_Load_, Load_error, loaded.
  red in E1, E2. rewrite E2, E1.
  destruct (godotenv_Load W (r +:+ "/.env") (environ s)) as [e err]. cbn.
  destruct err; split; try reflexivity; discriminate.
Qed.

Lemma New_db_fst (s : Proc) :
  fst (New_db W s) =
  match New_db_error W (environ s) with
  | None => Normal tt
  | Some _ =>
      match grv.ErrorLog (this s) with
      | Some _ => Exit 1
      | None => Panic nil_deref
      end
  end.
Proof.
  unfold New_db, New_db_error, mbind, Go_bind, OpenDB_. simpl.
  destruct (negb _); [| reflexivity]. simpl.
  destruct (OpenDB W _ _) as [db err]. simpl.
  destruct err; [| reflexivity]. simpl.
  destruct (grv.ErrorLog (this s)); reflexivity.
Qed.

Lemma createRedisPool_run (s : Proc) :
  fst (createRedisPool s) = Normal createRedisPool_literal.
Proof. reflexivity. Qed.

Lemma createBadgerConn_run (s : Proc) :
  fst (createBadgerConn W s) = Normal (createBadgerConn_result W (grv.RootPath (this s))).
Proof.
  unfold createBadgerConn, createBadgerConn_result.
  rewrite bind_unfold. cbn. rewrite bind_unfold. cbn.
  destruct (badger_Open W _) as [db [err |]]; reflexivity.
Qed.

Lemma New_cache_run (s : Proc) :
  let e := environ s in
  let g := this s in
  let rc := {| cache.rConn := Some createRedisPool_literal;
               cache.rPrefix := prefix (redis_ (grv.config g)) |} in
  let bc := {| cache.bConn := createBadgerConn_result W (grv.RootPath g);
               cache.bPrefix := prefix (redis_ (grv.config g)) |} in
  let s' := snd (New_cache W s) in
  fst (New_cache W s) = Normal (New_cache_error W e) /\
  grv.Cache (this s') =
    (if wants_badger e then Some (cache.OfBadger bc)
     else if wants_redis e then Some (cache.OfRedis rc)
     else grv.Cache g) /\
  grv.Scheduler (this s') =
    Some {| cron.entries :=
              (if wants_badger e
               then match cron_Parse W "@daily" with
                    | None => [daily_gc]
                    | Some _ => []
                    end
               else []);
            cron.running := false |} /\
  myRedisCache (pkg s') = (if wants_redis e then Some rc else myRedisCache (pkg s)) /\
  redisPool (pkg s') =
    (if wants_redis e then Some createRedisPool_literal else redisPool (pkg s)) /\
  myBadgerCache (pkg s') = (if wants_badger e then Some bc else myBadgerCache (pkg s)) /\
  badgerConn (pkg s') =
    (if wants_badger e then createBadgerConn_result W (grv.RootPath g)
     else badgerConn (pkg s)) /\
  trace s' =
    trace s ++ [CallCronNew]
      ++ (if wants_redis e then [CallNewRedisPool; CallNewRedisCache] else [])
      ++ (if wants_badger e
          then [CallBadgerOpen (grv.RootPath g +:+ "/tmp/badger");
                CallNewBadgerCache;
                CallCronAddFunc "@daily" (cron.BadgerGC (7 # 10))]
          else []).
Proof.
  cbv zeta.
  unfold New_cache, New_cache_error, wants_redis, wants_badger,
    createClientRedisCache, createClientBadgerCache, createRedisPool,
    createBadgerConn, createBadgerConn_result, Scheduler_AddFunc.
  destruct (String.eqb (Getenv (environ s) "CACHE") "redis"
            || String.eqb (Getenv (environ s) "SESSION_TYPE") "redis") eqn:Hr;
  destruct (String.eqb (Getenv (environ s) "CACHE") "badger") eqn:Hb;
  go_run; rewrite ?Hr, ?Hb; go_run; rewrite ?Hb; go_run.
  all: try (destruct (badger_Open W (grv.RootPath (this s) +:+ "/tmp/badger"))
              as [db [err |]]; go_run;
            destruct (cron_Parse W "@daily"); go_run).
  all: rewrite <- ?app_assoc; repeat split; reflexivity.
Qed.

(** The block that builds the loggers, the mailer and the configuration is
    straight-line code. *)
Lemma New_app_run (r : string) (s : Proc) :
  let e := environ s in
  let g' := this (snd (New_app W r s)) in
  fst (New_app W r s) = Normal tt /\
  mailer.Jobs (grv.Mail g') = Some (mailer.make mailer.Message 20) /\
  mailer.Results (grv.Mail g') = Some (mailer.make mailer.Result 20) /\
  mailer.Port (grv.Mail g') = fst (strconv.Atoi (Getenv e "SMTP_PORT")) /\
  Secure (grv.Server g') =
    (if String.eqb (strings.ToLower (unicode_ToLower W) (Getenv e "SECURE")) "false"
     then false else true) /\
  redis_ (grv.config g') =
    {| host := Getenv e "REDIS_HOST";
       password := Getenv e "REDIS_PASSWORD";
       prefix := Getenv e "REDIS_PREFIX" |} /\
  sessionType (grv.config g') = Getenv e "SESSION_TYPE" /\
  is_nil (grv.InfoLog g') = false /\
  is_nil (grv.ErrorLog g') = false.
Proof.
  cbv zeta. repeat apply conj; reflexivity.
Qed.

Lemma New_session_fst (s : Proc) :
  (sessionType (grv.config (this s)) = "redis" -> myRedisCache (pkg s) <> None) ->
  fst (New_session s) = Normal tt.
Proof.
  intros H. unfold New_session, InitSession. go_run.
  destruct (String.eqb (sessionType (grv.config (this s))) "redis") eqn:E.
  - apply String.eqb_eq in E. specialize (H E).
    destruct (myRedisCache (pkg s)); [reflexivity | contradiction].
  - destruct (_ || _); reflexivity.
Qed.

Lemma New_views_fst (r : string) (s : Proc) : fst (New_views r s) = Normal tt.
Proof.
  unfold New_views, jet_NewSet, createRenderer. go_run.
  destruct (grv.Debug (this s)); reflexivity.
Qed.

(** What the later blocks leave alone in the receiver. *)
Lemma New_env_Cache (r : string) : keeps (same_grv grv.Cache) (New_env W r).
Proof. apply keeps_New_env; [apply _ | intros e; atom_same]. Qed.

Lemma New_db_Cache : keeps (same_grv grv.Cache) (New_db W).
Proof. keeps_go atom_same. Qed.

Lemma New_app_Cache (r : string) : keeps (same_grv grv.Cache) (New_app W r).
Proof. keeps_go atom_same. Qed.

Lemma New_session_Cache : keeps (same_grv grv.Cache) New_session.
Proof. keeps_go atom_same. Qed.

Lemma New_views_Cache (r : string) : keeps (same_grv grv.Cache) (New_views r).
Proof. keeps_go atom_same. Qed.

Lemma New_app_Scheduler (r : string) : keeps (same_grv grv.Scheduler) (New_app W r).
Proof. keeps_go atom_same. Qed.

Lemma New_session_Scheduler : keeps (same_grv grv.Scheduler) New_session.
Proof. keeps_go atom_same. Qed.

Lemma New_views_Scheduler (r : string) : keeps (same_grv grv.Scheduler) (New_views r).
Proof. keeps_go atom_same. Qed.

Lemma New_session_Mail : keeps (same_grv grv.Mail) New_session.
Proof. keeps_go atom_same. Qed.

Lemma New_views_Mail (r : string) : keeps (same_grv grv.Mail) (New_views r).
Proof. keeps_go atom_same. Qed.

Lemma New_session_Server : keeps (same_grv grv.Server) New_session.
Proof. keeps_go atom_same. Qed.

Lemma New_views_Server (r : string) : keeps (same_grv grv.Server) (New_views r).
Proof. keeps_go atom_same. Qed.

Lemma New_env_config (r : string) : keeps (same_grv grv.config) (New_env W r).
Proof. apply keeps_New_env; [apply _ | intros e; atom_same]. Qed.

Lemma New_db_config : keeps (same_grv grv.config) (New_db W).
Proof. keeps_go atom_same. Qed.

Lemma New_session_config : keeps (same_grv grv.config) New_session.
Proof. keeps_go atom_same. Qed.

Lemma New_views_config (r : string) : keeps (same_grv grv.config) (New_views r).
Proof. keeps_go atom_same. Qed.

Lemma New_env_RootPath (r : string) : keeps (same_grv grv.RootPath) (New_env W r).
Proof. apply keeps_New_env; [apply _ | intros e; atom_same]. Qed.

Lemma New_db_RootPath : keeps (same_grv grv.RootPath) (New_db W).
Proof. keeps_go atom_same. Qed.

Lemma New_env_ErrorLog (r : string) : keeps (same_grv grv.ErrorLog) (New_env W r).
Proof. apply keeps_New_env; [apply _ | intros e; atom_same]. Qed.

Lemma New_session_loggers :
  keeps (same_grv (fun g => (grv.InfoLog g, grv.ErrorLog g))) New_session.
Proof. keeps_go atom_same. Qed.

Lemma New_views_loggers (r : string) :
  keeps (same_grv (fun g => (grv.InfoLog g, grv.ErrorLog g))) (New_views r).
Proof. keeps_go atom_same. Qed.

Lemma New_env_pkg (r : string) : keeps same_pkg (New_env W r).
Proof. apply keeps_New_env; [apply _ | intros e; atom_same]. Qed.

Lemma New_db_pkg : keeps same_pkg (New_db W).
Proof. keeps_go atom_same. Qed.

(** ** What [New] returns *)

Lemma wants_redis_session (e : gmap string string) :
  Getenv e "SESSION_TYPE" = "redis" -> wants_redis e = true.
Proof.
  intros H. unfold wants_redis. rewrite H. simpl. apply orb_true_r.
Qed.

Lemma New_fst (r : string) (s : Proc) : fst (New W r s) = New_outcome W r s.
Proof.
  unfold New, New_outcome. rewrite bind_unfold.
  destruct (New_env_run r s) as [F1 V1].
  pose proof (New_env_ErrorLog r s) as L1.
  destruct (New_env W r s) as [o1 s1]. cbn [fst snd] in F1, V1, L1. subst o1.
  destruct (New_env_error W r (environ s)) as [e1 |]; [reflexivity |].
  specialize (V1 eq_refl). rewrite <- V1.
  rewrite bind_unfold.
  pose proof (New_db_fst s1) as F2.
  pose proof (New_db_environ W s1) as V2.
  destruct (New_db W s1) as [o2 s2]. cbn [fst snd] in F2, V2. subst o2.
  unfold New_db_abort. red in L1. rewrite <- L1.
  destruct (New_db_error W (environ s1)) as [e2 |].
  { destruct (grv.ErrorLog (this s1)); reflexivity. }
  rewrite bind_unfold.
  destruct (New_cache_run s2) as (F3 & _ & _ & P3 & _).
  pose proof (New_cache_environ W s2) as V3.
  destruct (New_cache W s2) as [o3 s3]. cbn [fst snd] in F3, V3, P3. subst o3.
  red in V2, V3. rewrite V2.
  destruct (New_cache_error W (environ s1)) as [e3 |]; [reflexivity |].
  rewrite bind_unfold.
  destruct (New_app_run r s3) as (F4 & _ & _ & _ & _ & _ & T4 & _).
  pose proof (New_app_pkg W r s3) as P4.
  destruct (New_app W r s3) as [o4 s4]. cbn [fst snd] in F4, T4, P4. subst o4.
  rewrite bind_unfold.
  assert (fst (New_session s4) = Normal tt) as F5.
  { apply New_session_fst. intros Hs. red in P4. rewrite P4, P3.
    rewrite (wants_redis_session (environ s2)); [discriminate |].
    rewrite <- V3, <- T4. exact Hs. }
  destruct (New_session s4) as [o5 s5]. cbn [fst] in F5. subst o5.
  rewrite bind_unfold.
  pose proof (New_views_fst r s5) as F6.
  destruct (New_views r s5) as [o6 s6]. cbn [fst] in F6. subst o6.
  reflexivity.
Qed.

(** The blocks a successful [New] went through. *)
Lemma New_inv (r : string) (s s' : Proc) :
  New W r s = (Normal None, s') ->
  exists s1 s2 s3 s4 s5 s6,
    New_env W r s = (Normal None, s1) /\
    New_db W s1 = (Normal tt, s2) /\
    New_cache W s2 = (Normal None, s3) /\
    New_app W r s3 = (Normal tt, s4) /\
    New_session s4 = (Normal tt, s5) /\
    New_views r s5 = (Normal tt, s6) /\
    s' = snd (emit CallGoListenForMail s6).
Proof.
  unfold New. intros H.
  apply bind_Normal in H as ([e1 |] & s1 & H1 & H); [discriminate H |].
  apply bind_Normal in H as ([] & s2 & H2 & H).
  apply bind_Normal in H as ([e3 |] & s3 & H3 & H); [discriminate H |].
  apply bind_Normal in H as ([] & s4 & H4 & H).
  apply bind_Normal in H as ([] & s5 & H5 & H).
  apply bind_Normal in H as ([] & s6 & H6 & H).
  exists s1, s2, s3, s4, s5, s6. repeat split; try assumption.
  unfold go_ListenForMail in H. cbv [mbind Go_bind mret Go_ret] in H.
  destruct (emit CallGoListenForMail s6) as [[[] | |] s7]; inversion H. reflexivity.
Qed.

(** Instantiate a frame lemma [L] at the run [H : m s = (o, s')]. *)
Ltac frame_at L s0 H X :=
  pose proof (L s0) as X; rewrite H in X; cbn [snd] in X; red in X.

(** What a successful [New] leaves behind. *)
Lemma New_success (r : string) (s s' : Proc) :
  New W r s = (Normal None, s') ->
  let e := loaded W r (environ s) in
  let g := this s in
  let rc := {| cache.rConn := Some createRedisPool_literal;
               cache.rPrefix := prefix (redis_ (grv.config g)) |} in
  let bc := {| cache.bConn := createBadgerConn_result W (grv.RootPath g);
               cache.bPrefix := prefix (redis_ (grv.config g)) |} in
  (environ s' = e /\ New_cache_error W e = None) /\
  (grv.Cache (this s') =
     (if wants_badger e then Some (cache.OfBadger bc)
      else if wants_redis e then Some (cache.OfRedis rc)
      else grv.Cache g) /\
   grv.Scheduler (this s') =
     Some {| cron.entries := (if wants_badger e then [daily_gc] else []);
             cron.running := false |}) /\
  (myRedisCache (pkg s') = (if wants_redis e then Some rc else myRedisCache (pkg s)) /\
   redisPool (pkg s') =
     (if wants_redis e then Some createRedisPool_literal else redisPool (pkg s)) /\
   myBadgerCache (pkg s') = (if wants_badger e then Some bc else myBadgerCache (pkg s)) /\
   badgerConn (pkg s') =
     (if wants_badger e then createBadgerConn_result W (grv.RootPath g)
      else badgerConn (pkg s))) /\
  (mailer.Jobs (grv.Mail (this s')) = Some (mailer.make mailer.Message 20) /\
   mailer.Results (grv.Mail (this s')) = Some (mailer.make mailer.Result 20) /\
   mailer.Port (grv.Mail (this s')) = fst (strconv.Atoi (Getenv e "SMTP_PORT"))) /\
  (Secure (grv.Server (this s')) =
     (if String.eqb (strings.ToLower (unicode_ToLower W) (Getenv e "SECURE")) "false"
      then false else true) /\
   redis_ (grv.config (this s')) =
     {| host := Getenv e "REDIS_HOST";
        password := Getenv e "REDIS_PASSWORD";
        prefix := Getenv e "REDIS_PREFIX" |} /\
   is_nil (grv.InfoLog (this s')) = false /\
   is_nil (grv.ErrorLog (this s')) = false) /\
  exists pre post,
    trace s' = trace s ++ pre ++ New_cache_calls e g ++ post ++ [CallGoListenForMail] /\
    Forall (fun c => starts c = false) pre /\
    Forall (fun c => starts c = false) post.
Proof.
  intros H. cbv zeta.
  apply New_inv in H as (s1 & s2 & s3 & s4 & s5 & s6 & H1 & H2 & H3 & H4 & H5 & H6 & ->).
  (* the environment *)
  destruct (New_env_run r s) as [F1 V1]. rewrite H1 in F1, V1. cbn [fst snd] in F1, V1.
  injection F1 as F1. specialize (V1 (eq_sym F1)).
  frame_at (New_db_environ W) s1 H2 V2.
  frame_at (New_cache_environ W) s2 H3 V3.
  frame_at (New_app_environ W r) s3 H4 V4.
  frame_at New_session_environ s4 H5 V5.
  frame_at (New_views_environ r) s5 H6 V6.
  assert (environ s2 = loaded W r (environ s)) as E2 by congruence.
  assert (environ s3 = loaded W r (environ s)) as E3 by congruence.
  (* the receiver and the package variables before the cache block *)
  frame_at (New_env_Cache r) s H1 C1. frame_at New_db_Cache s1 H2 C2.
  frame_at (New_env_config r) s H1 G1. frame_at New_db_config s1 H2 G2.
  frame_at (New_env_RootPath r) s H1 R1. frame_at New_db_RootPath s1 H2 R2.
  frame_at (New_env_pkg r) s H1 P1. frame_at New_db_pkg s1 H2 P2.
  frame_at (New_env_quietly W r) s H1 Q1. frame_at (New_db_quietly W) s1 H2 Q2.
  (* the cache block *)
  destruct (New_cache_run s2) as (F3 & K3 & S3 & A3 & B3 & D3 & J3 & T3).
  rewrite H3 in F3, K3, S3, A3, B3, D3, J3, T3.
  cbn [fst snd] in F3, K3, S3, A3, B3, D3, J3, T3.
  injection F3 as F3. rewrite E2 in *.
  assert (cron_Parse W "@daily" = None \/ wants_badger (loaded W r (environ s)) = false) as HP.
  { unfold New_cache_error in F3.
    destruct (wants_badger (loaded W r (environ s))); [left; congruence | right; reflexivity]. }
  (* the later blocks *)
  destruct (New_app_run r s3) as (_ & M1 & M2 & M3 & M4 & M5 & _ & M6 & M7).
  rewrite H4 in M1, M2, M3, M4, M5, M6, M7. cbn [snd] in M1, M2, M3, M4, M5, M6, M7.
  rewrite E3 in *.
  frame_at (New_app_Cache r) s3 H4 C4. frame_at New_session_Cache s4 H5 C5.
  frame_at (New_views_Cache r) s5 H6 C6.
  frame_at (New_app_Scheduler r) s3 H4 S4. frame_at New_session_Scheduler s4 H5 S5.
  frame_at (New_views_Scheduler r) s5 H6 S6.
  frame_at (New_app_pkg W r) s3 H4 P4. frame_at New_session_pkg s4 H5 P5.
  frame_at (New_views_pkg r) s5 H6 P6.
  frame_at New_session_Mail s4 H5 L5. frame_at (New_views_Mail r) s5 H6 L6.
  frame_at New_session_Server s4 H5 U5. frame_at (New_views_Server r) s5 H6 U6.
  frame_at New_session_config s4 H5 G5. frame_at (New_views_config r) s5 H6 G6.
  frame_at New_session_loggers s4 H5 O5. frame_at (New_views_loggers r) s5 H6 O6.
  frame_at (New_app_quietly W r) s3 H4 Q4. frame_at New_session_quietly s4 H5 Q5.
  frame_at (New_views_quietly r) s5 H6 Q6.
  rewrite ?G2, ?G1, ?R2, ?R1 in K3. rewrite ?G2, ?G1 in A3.
  rewrite ?G2, ?G1, ?R2, ?R1 in D3. rewrite ?R2, ?R1 in J3. rewrite ?R2, ?R1 in T3.
  cbn [emit snd this pkg environ trace].
  split; [| split; [| split; [| split; [| split]]]].
  - split; [congruence | congruence].
  - rewrite C6, C5, C4, K3, C2, C1. split; [reflexivity |].
    rewrite S6, S5, S4, S3. destruct HP as [-> | ->]; reflexivity.
  - rewrite P6, P5, P4, A3, B3, D3, J3, P2, P1. repeat split; reflexivity.
  - rewrite L6, L5. repeat split; assumption.
  - rewrite U6, U5, G6, G5.
    injection O5 as O5a O5b. injection O6 as O6a O6b.
    rewrite O6a, O6b, O5a, O5b. repeat split; assumption.
  - destruct Q1 as (c1 & T1 & N1). destruct Q2 as (c2 & T2 & N2).
    destruct Q4 as (c4 & T4 & N4). destruct Q5 as (c5 & T5 & N5).
    destruct Q6 as (c6 & T6 & N6).
    exists (c1 ++ c2), (c4 ++ c5 ++ c6). split; [| split].
    + rewrite T6, T5, T4, T3, T2, T1. unfold New_cache_calls.
      rewrite <- !app_assoc. reflexivity.
    + apply Forall_app. split; assumption.
    + apply Forall_app. split; [assumption |]. apply Forall_app. split; assumption.
Qed.

End Blocks.

Example demo_New_returns_nil : New demo_world "/app" fresh = (Normal None, demo_started).
Proof. vm_compute. reflexivity. Qed.

Example demo_environ : environ demo_started = demo_env.
Proof. vm_compute. reflexivity. Qed.

(** ** Shutdown: [ListenAndServe] *)

(** With both loggers in place, as [New] leaves them, [ListenAndServe] ends
    in [Fatal]: the process exits with the deferred calls still pending. *)
Lemma ListenAndServe_run (W : World) (s : Proc) (infoLog errorLog : log.Logger) :
  grv.InfoLog (this s) = Some infoLog ->
  grv.ErrorLog (this s) = Some errorLog ->
  let s' := snd (ListenAndServe W s) in
  fst (ListenAndServe W s) = Exit 1 /\
  trace s' =
    trace s ++
      [CallLogOutput infoLog ("Listening on port " +:+ Getenv (environ s) "PORT");
       CallServe (ListenAndServe_srv s);
       CallLogOutput errorLog (Error (http_ListenAndServe W (ListenAndServe_srv s)));
       CallExit 1] /\
  defers s' = ListenAndServe_deferred s.
Proof.
  intros Hi He. cbv zeta.
  unfold ListenAndServe, func, ListenAndServe_deferred, ListenAndServe_srv,
    Logger_Printf, Logger_Fatal.
  go_run. rewrite Hi, He.
  destruct (Pool (grv.DB (this s))); go_run;
    destruct (redisPool (pkg s)); go_run;
    destruct (badgerConn (pkg s)); go_run;
    rewrite <- ?app_assoc; repeat split; reflexivity.
Qed.

(** With no logger for [Printf], [ListenAndServe] panics before serving, and
    the deferred calls do run. *)
Lemma ListenAndServe_panic (W : World) (s : Proc) :
  grv.InfoLog (this s) = None ->
  let s' := snd (ListenAndServe W s) in
  fst (ListenAndServe W s) = Panic nil_deref /\
  trace s' = trace s ++ map CallClose (ListenAndServe_deferred s).
Proof.
  intros Hi. cbv zeta.
  unfold ListenAndServe, func, ListenAndServe_deferred, Logger_Printf.
  go_run. rewrite Hi.
  destruct (Pool (grv.DB (this s))); go_run;
    destruct (redisPool (pkg s)); go_run;
    destruct (badgerConn (pkg s)); go_run;
    rewrite <- ?app_assoc, ?app_nil_r; repeat split; reflexivity.
Qed.

(** ** The specification, sentence by sentence *)

(** C1 (the code departs from the specification).  When [ListenAndServe] terminates
    with its loggers in place, the process exits with status 1 and none of
    the pool handles it guarded with a deferred [Close] has been closed: the
    handles are still on the defer stack and the calls made are the two log
    lines, the serving and the exit. *)
Theorem ListenAndServe_exits_without_closing
    (W : World) (s : Proc) (infoLog errorLog : log.Logger) :
  grv.InfoLog (this s) = Some infoLog ->
  grv.ErrorLog (this s) = Some errorLog ->
  exists calls,
    fst (ListenAndServe W s) = Exit 1 /\
    trace (snd (ListenAndServe W s)) = trace s ++ calls /\
    In (CallExit 1) calls /\
    forall h, In h (ListenAndServe_deferred s) ->
              In h (defers (snd (ListenAndServe W s))) /\ ~ In (CallClose h) calls.
Proof.
  intros Hi He.
  destruct (ListenAndServe_run W s infoLog errorLog Hi He) as (F & T & D).
  eexists. split; [exact F |]. split; [exact T |]. split.
  - simpl. tauto.
  - intros h Hh. split; [rewrite D; exact Hh |].
    simpl. intros [H | [H | [H | [H | []]]]]; discriminate H.
Qed.

Lemma ListenAndServe_exits_without_closing_witness :
  exists calls,
    fst (ListenAndServe demo_world demo_started) = Exit 1 /\
    trace (snd (ListenAndServe demo_world demo_started)) = trace demo_started ++ calls /\
    In (CallExit 1) calls /\
    forall h, In h (ListenAndServe_deferred demo_started) ->
              In h (defers (snd (ListenAndServe demo_world demo_started))) /\
              ~ In (CallClose h) calls.
Proof.
  apply (ListenAndServe_exits_without_closing demo_world demo_started
           (log.New ("INFO" +:+ tab) 3) (log.New ("ERROR" +:+ tab) 19)).
  - vm_compute. reflexivity.
  - vm_compute. reflexivity.
Defined.

(** At the concrete deployment the relational pool and the network cache
    pool are both guarded, and both are left open. *)
Example demo_pools_left_open :
  ListenAndServe_deferred demo_started =
    [HRedisPool createRedisPool_literal;
     HSql (SqlDB "postgres" (BuildDSN_of demo_env))] /\
  fst (ListenAndServe demo_world demo_started) = Exit 1 /\
  List.filter (fun c => match c with CallClose _ => true | _ => false end)
              (trace (snd (ListenAndServe demo_world demo_started))) = [].
Proof. vm_compute. repeat split; reflexivity. Qed.

Lemma wants_badger_true (e : gmap string string) :
  wants_badger e = true <-> Getenv e "CACHE" = "badger".
Proof. apply String.eqb_eq. Qed.

Lemma wants_badger_false (e : gmap string string) :
  wants_badger e = false <-> Getenv e "CACHE" <> "badger".
Proof. apply String.eqb_neq. Qed.

Lemma wants_redis_true (e : gmap string string) :
  wants_redis e = true <->
  Getenv e "CACHE" = "redis" \/ Getenv e "SESSION_TYPE" = "redis".
Proof.
  unfold wants_redis. rewrite orb_true_iff, !String.eqb_eq. reflexivity.
Qed.

(** C2 (as amended).  The pool bounds are fixed in the program: whenever
    startup builds the network cache pool, whatever the configuration, the
    pool has maxIdle 50, maxActive 10000 and idleTimeout 240 seconds. *)
Theorem New_pool_bounds_fixed (W : World) (r : string) (s s' : Proc) :
  New W r s = (Normal None, s') ->
  Getenv (environ s') "CACHE" = "redis" \/ Getenv (environ s') "SESSION_TYPE" = "redis" ->
  exists p c,
    redisPool (pkg s') = Some p /\
    myRedisCache (pkg s') = Some c /\ cache.rConn c = Some p /\
    redis.MaxIdle p = 50 /\
    redis.MaxActive p = 10000 /\
    redis.IdleTimeout p = 240 * time.Second.
Proof.
  intros H Hsel.
  destruct (New_success W r s s' H) as ((E & _) & _ & (A & B & _) & _).
  rewrite E in Hsel. apply wants_redis_true in Hsel. rewrite Hsel in A, B.
  eexists. eexists. split; [exact B |]. split; [exact A |].
  repeat split; reflexivity.
Qed.

Lemma New_pool_bounds_fixed_witness :
  exists p c,
    redisPool (pkg demo_started) = Some p /\
    myRedisCache (pkg demo_started) = Some c /\ cache.rConn c = Some p /\
    redis.MaxIdle p = 50 /\
    redis.MaxActive p = 10000 /\
    redis.IdleTimeout p = 240 * time.Second.
Proof.
  apply (New_pool_bounds_fixed demo_world "/app" fresh demo_started).
  - vm_compute. reflexivity.
  - right. vm_compute. reflexivity.
Defined.

(** What the configuration does decide of the pool: the address and the
    password its [Dial] closure hands to [redis.Dial] once startup is over. *)
Lemma New_pool_dials_configured_host (W : World) (r : string) (s s' : Proc) :
  New W r s = (Normal None, s') ->
  run_Dial redis.DialGrv (this s') =
    {| redis.network := "tcp";
       redis.address := Getenv (environ s') "REDIS_HOST";
       redis.DialPassword := Getenv (environ s') "REDIS_PASSWORD" |}.
Proof.
  intros H.
  destruct (New_success W r s s' H) as ((E & _) & _ & _ & _ & (_ & G & _) & _).
  unfold run_Dial. rewrite G, E. reflexivity.
Qed.

(** C2 (the specification as written fails).  No two successful startups build
    network cache pools with different bounds: the configuration has no say
    in them. *)
Lemma pool_bounds_not_configurable :
  ~ (exists (W1 W2 : World) (r1 r2 : string) (s1 s1' s2 s2' : Proc) (p1 p2 : redis.Pool),
       New W1 r1 s1 = (Normal None, s1') /\
       New W2 r2 s2 = (Normal None, s2') /\
       wants_redis (environ s1') = true /\
       wants_redis (environ s2') = true /\
       redisPool (pkg s1') = Some p1 /\
       redisPool (pkg s2') = Some p2 /\
       pool_bounds p1 <> pool_bounds p2).
Proof.
  intros (W1 & W2 & r1 & r2 & s1 & s1' & s2 & s2' & p1 & p2
          & H1 & H2 & R1 & R2 & P1 & P2 & D).
  destruct (New_success W1 r1 s1 s1' H1) as ((E1 & _) & _ & (_ & B1 & _) & _).
  destruct (New_success W2 r2 s2 s2' H2) as ((E2 & _) & _ & (_ & B2 & _) & _).
  rewrite E1 in R1. rewrite E2 in R2. rewrite R1 in B1. rewrite R2 in B2.
  apply D. congruence.
Qed.

(** C4.  After a successful startup the scheduler holds exactly one entry
    when the embedded store is the selected cache, and none otherwise.  The
    entry is scheduled [@daily]; run against the package variables startup
    left, it calls [RunValueLogGC] on the handle of the installed
    embedded-store facade with discard ratio 0.7. *)
Theorem New_registers_daily_gc (W : World) (r : string) (s s' : Proc) :
  New W r s = (Normal None, s') ->
  exists c,
    grv.Scheduler (this s') = Some c /\
    (Getenv (environ s') "CACHE" = "badger" ->
     cron.entries c =
       [{| cron.Schedule := "@daily"; cron.job := cron.BadgerGC (7 # 10) |}] /\
     exists bc,
       grv.Cache (this s') = Some (cache.OfBadger bc) /\
       run_Job (cron.BadgerGC (7 # 10)) (pkg s') =
         match cache.bConn bc with
         | Some db => RunValueLogGC db (7 # 10)
         | None => JobPanics nil_deref
         end) /\
    (Getenv (environ s') "CACHE" <> "badger" -> cron.entries c = []).
Proof.
  intros H.
  destruct (New_success W r s s' H) as ((E & _) & (K & S) & (_ & _ & D & _) & _).
  rewrite <- E in K, S, D.
  eexists. split; [exact S |]. split.
  - intros Hb. apply wants_badger_true in Hb. rewrite Hb in K, D |- *.
    split; [reflexivity |]. eexists. split; [exact K |].
    unfold run_Job. rewrite D. reflexivity.
  - intros Hb. apply wants_badger_false in Hb. rewrite Hb. reflexivity.
Qed.

Lemma New_registers_daily_gc_witness :
  exists c,
    grv.Scheduler (this demo_started) = Some c /\
    (Getenv (environ demo_started) "CACHE" = "badger" ->
     cron.entries c =
       [{| cron.Schedule := "@daily"; cron.job := cron.BadgerGC (7 # 10) |}] /\
     exists bc,
       grv.Cache (this demo_started) = Some (cache.OfBadger bc) /\
       run_Job (cron.BadgerGC (7 # 10)) (pkg demo_started) =
         match cache.bConn bc with
         | Some db => RunValueLogGC db (7 # 10)
         | None => JobPanics nil_deref
         end) /\
    (Getenv (environ demo_started) "CACHE" <> "badger" -> cron.entries c = []).
Proof.
  apply (New_registers_daily_gc demo_world "/app" fresh demo_started).
  vm_compute. reflexivity.
Defined.

(** C5.  After a successful startup, whatever the configuration, the mailer
    holds a jobs channel of capacity 20 and a results channel of capacity
    20, both empty. *)
Theorem New_mail_queue_capacities (W : World) (r : string) (s s' : Proc) :
  New W r s = (Normal None, s') ->
  exists jobs results,
    mailer.Jobs (grv.Mail (this s')) = Some jobs /\
    mailer.Results (grv.Mail (this s')) = Some results /\
    mailer.cap jobs = 20 /\ mailer.buffered jobs = [] /\
    mailer.cap results = 20 /\ mailer.buffered results = [].
Proof.
  intros H.
  destruct (New_success W r s s' H) as (_ & _ & _ & (J & R & _) & _).
  eexists. eexists. split; [exact J |]. split; [exact R |].
  repeat split; reflexivity.
Qed.

Lemma New_mail_queue_capacities_witness :
  exists jobs results,
    mailer.Jobs (grv.Mail (this demo_started)) = Some jobs /\
    mailer.Results (grv.Mail (this demo_started)) = Some results /\
    mailer.cap jobs = 20 /\ mailer.buffered jobs = [] /\
    mailer.cap results = 20 /\ mailer.buffered results = [].
Proof.
  apply (New_mail_queue_capacities demo_world "/app" fresh demo_started).
  vm_compute. reflexivity.
Defined.

(** C6.  After a successful startup the facade is the pooled network-cache
    backend when the cache setting names it and the embedded-store backend
    when the cache setting names that one.  Only the configuration decides:
    two successful startups that read the same cache and session settings,
    from receivers holding the same kind of facade, end with the same kind
    of facade, whatever the world, the root path and the rest of the state. *)
Theorem New_cache_selected_by_configuration (W : World) (r : string) (s s' : Proc) :
  New W r s = (Normal None, s') ->
  (Getenv (environ s') "CACHE" = "redis" ->
   exists c pool,
     grv.Cache (this s') = Some (cache.OfRedis c) /\ cache.rConn c = Some pool) /\
  (Getenv (environ s') "CACHE" = "badger" ->
   exists c, grv.Cache (this s') = Some (cache.OfBadger c)) /\
  (forall (W2 : World) (r2 : string) (s2 s2' : Proc),
     New W2 r2 s2 = (Normal None, s2') ->
     Getenv (environ s2') "CACHE" = Getenv (environ s') "CACHE" ->
     Getenv (environ s2') "SESSION_TYPE" = Getenv (environ s') "SESSION_TYPE" ->
     cache.backend <$> grv.Cache (this s2) = cache.backend <$> grv.Cache (this s) ->
     cache.backend <$> grv.Cache (this s2') = cache.backend <$> grv.Cache (this s')).
Proof.
  intros H.
  destruct (New_success W r s s' H) as ((E & _) & (K & _) & _).
  rewrite <- E in K.
  split; [| split].
  - intros Hc.
    assert (wants_badger (environ s') = false) as Hb.
    { apply wants_badger_false. rewrite Hc. discriminate. }
    assert (wants_redis (environ s') = true) as Hr.
    { apply wants_redis_true. left. exact Hc. }
    rewrite Hb, Hr in K. eexists. eexists. split; [exact K | reflexivity].
  - intros Hc. apply wants_badger_true in Hc. rewrite Hc in K.
    eexists. exact K.
  - intros W2 r2 s2 s2' H2 Hc Hs Hp.
    destruct (New_success W2 r2 s2 s2' H2) as ((E2 & _) & (K2 & _) & _).
    rewrite <- E2 in K2. rewrite K, K2.
    unfold wants_badger, wants_redis. rewrite Hc, Hs.
    destruct (String.eqb (Getenv (environ s') "CACHE") "badger"); [reflexivity |].
    destruct (String.eqb (Getenv (environ s') "CACHE") "redis"
              || String.eqb (Getenv (environ s') "SESSION_TYPE") "redis");
      [reflexivity | exact Hp].
Qed.

Lemma New_cache_selected_by_configuration_witness :
  (Getenv (environ demo_started) "CACHE" = "redis" ->
   exists c pool,
     grv.Cache (this demo_started) = Some (cache.OfRedis c) /\
     cache.rConn c = Some pool) /\
  (Getenv (environ demo_started) "CACHE" = "badger" ->
   exists c, grv.Cache (this demo_started) = Some (cache.OfBadger c)) /\
  (forall (W2 : World) (r2 : string) (s2 s2' : Proc),
     New W2 r2 s2 = (Normal None, s2') ->
     Getenv (environ s2') "CACHE" = Getenv (environ demo_started) "CACHE" ->
     Getenv (environ s2') "SESSION_TYPE" = Getenv (environ demo_started) "SESSION_TYPE" ->
     cache.backend <$> grv.Cache (this s2) = cache.backend <$> grv.Cache (this fresh) ->
     cache.backend <$> grv.Cache (this s2') =
       cache.backend <$> grv.Cache (this demo_started)).
Proof.
  apply (New_cache_selected_by_configuration demo_world "/app" fresh demo_started).
  vm_compute. reflexivity.
Defined.



(** The prefix both facades are built with is the one [grv.config] held
    when [New] was entered: the facades are built before [New] fills
    [grv.config] from the environment. *)
Lemma New_cache_prefix_stale (W : World) (r : string) (s s' : Proc) :
  New W r s = (Normal None, s') ->
  (wants_redis (environ s') = true ->
   cache.rPrefix <$> myRedisCache (pkg s') = Some (prefix (redis_ (grv.config (this s))))) /\
  (wants_badger (environ s') = true ->
   cache.bPrefix <$> myBadgerCache (pkg s') = Some (prefix (redis_ (grv.config (this s))))) /\
  prefix (redis_ (grv.config (this s'))) = Getenv (environ s') "REDIS_PREFIX".
Proof.
  intros H.
  destruct (New_success W r s s' H) as ((E & _) & _ & (A & _ & D & _) & _ & (_ & G & _) & _).
  rewrite <- E in A, D, G. split; [| split].
  - intros Hr. rewrite A, Hr. reflexivity.
  - intros Hb. rewrite D, Hb. reflexivity.
  - rewrite G. reflexivity.
Qed.

(** C8 (the code departs from the specification).  At the concrete deployment the
    configured prefix is [app], and [New] stores it in [grv.config]; yet the
    installed facade and both cache clients carry the empty prefix. *)
Theorem demo_cache_prefix_not_configured :
  Getenv (environ demo_started) "REDIS_PREFIX" = "app" /\
  prefix (redis_ (grv.config (this demo_started))) = "app" /\
  cache.Prefix <$> grv.Cache (this demo_started) = Some "" /\
  cache.rPrefix <$> myRedisCache (pkg demo_started) = Some "" /\
  cache.bPrefix <$> myBadgerCache (pkg demo_started) = Some "".
Proof. vm_compute. repeat split; reflexivity. Qed.

(** C9.  When the embedded store cannot be opened, [createBadgerConn]
    returns nil.  If the embedded store is the selected cache and nothing
    else fails, [New] then returns nil: the facade it installed and the
    package variable hold a nil handle, the scheduler holds the daily job,
    and that job, when run, dereferences the nil handle. *)
Theorem New_survives_failed_badger_open (W : World) (r : string) (s : Proc) :
  snd (badger_Open W (grv.RootPath (this s) +:+ "/tmp/badger")) <> None ->
  fst (createBadgerConn W s) = Normal None /\
  (Getenv (loaded W r (environ s)) "CACHE" = "badger" ->
   New_env_error W r (environ s) = None ->
   New_db_error W (loaded W r (environ s)) = None ->
   cron_Parse W "@daily" = None ->
   exists s' bc c,
     New W r s = (Normal None, s') /\
     grv.Cache (this s') = Some (cache.OfBadger bc) /\
     myBadgerCache (pkg s') = Some bc /\
     cache.bConn bc = None /\
     badgerConn (pkg s') = None /\
     grv.Scheduler (this s') = Some c /\
     cron.entries c =
       [{| cron.Schedule := "@daily"; cron.job := cron.BadgerGC (7 # 10) |}] /\
     run_Job (cron.BadgerGC (7 # 10)) (pkg s') = JobPanics nil_deref).
Proof.
  intros Hopen.
  assert (createBadgerConn_result W (grv.RootPath (this s)) = None) as Hnil.
  { unfold createBadgerConn_result.
    destruct (badger_Open W _) as [db [err |]]; [reflexivity |].
    contradiction Hopen. reflexivity. }
  split.
  - rewrite createBadgerConn_run, Hnil. reflexivity.
  - intros Hb He Hd Hp. apply wants_badger_true in Hb.
    pose proof (New_fst W r s) as F. unfold New_outcome in F.
    rewrite He, Hd in F. unfold New_cache_error in F. rewrite Hb, Hp in F.
    destruct (New W r s) as [o s'] eqn:Hrun. cbn [fst] in F. subst o.
    destruct (New_success W r s s' Hrun) as (_ & (K & S) & (_ & _ & D & J) & _).
    rewrite Hb, Hnil in K, D, J. rewrite Hb in S.
    eexists. eexists. eexists.
    split; [reflexivity |]. split; [exact K |]. split; [exact D |].
    split; [reflexivity |]. split; [exact J |]. split; [exact S |].
    split; [reflexivity |].
    unfold run_Job. rewrite D. reflexivity.
Qed.

Lemma New_survives_failed_badger_open_witness :
  fst (createBadgerConn demo_world fresh) = Normal None /\
  exists s' bc c,
    New demo_world "/app" fresh = (Normal None, s') /\
    grv.Cache (this s') = Some (cache.OfBadger bc) /\
    myBadgerCache (pkg s') = Some bc /\
    cache.bConn bc = None /\
    badgerConn (pkg s') = None /\
    grv.Scheduler (this s') = Some c /\
    cron.entries c =
      [{| cron.Schedule := "@daily"; cron.job := cron.BadgerGC (7 # 10) |}] /\
    run_Job (cron.BadgerGC (7 # 10)) (pkg s') = JobPanics nil_deref.
Proof.
  assert (snd (badger_Open demo_world (grv.RootPath (this fresh) +:+ "/tmp/badger"))
          <> None) as Hopen by (vm_compute; discriminate).
  destruct (New_survives_failed_badger_open demo_world "/app" fresh Hopen) as [Hc Hn].
  split; [exact Hc |]. apply Hn.
  - vm_compute. reflexivity.
  - vm_compute. reflexivity.
  - vm_compute. reflexivity.
  - vm_compute. reflexivity.
Defined.

(** ** [strings.ToLower] and the word [false] *)

Lemma byte_range (c : ascii) : 0 <= utf8.byte c < 256.
Proof.
  unfold utf8.byte. pose proof (N_ascii_bounded c). lia.
Qed.

Lemma byte_chr (b : Z) : 0 <= b < 256 -> utf8.byte (utf8.chr b) = b.
Proof.
  intros H. unfold utf8.byte, utf8.chr.
  rewrite N_ascii_embedding by lia. lia.
Qed.

Lemma lor_lower (a b : Z) : 0 <= b -> a <= Z.lor a b.
Proof.
  intros Hb. pose proof (Z.sub_lor_l_same_l b a) as H.
  assert (0 <= Z.land b (Z.lnot a)) by (apply Z.land_nonneg; left; exact Hb).
  lia.
Qed.

(** A property checked on every number below [n] holds below [n]. *)
Lemma below_forallb (P : Z -> bool) (n : nat) (x : Z) :
  forallb P (seqZ 0 (Z.of_nat n)) = true -> 0 <= x < Z.of_nat n -> P x = true.
Proof.
  intros H Hx. rewrite forallb_forall in H. apply H.
  apply list_elem_of_In, elem_of_seqZ. lia.
Qed.

Lemma head_bits_high_all (s0 s1 : Z) :
  0 <= s0 < 256 -> 0 <= s1 < 256 -> head_bits_high s0 s1 = true.
Proof.
  intros H0 H1.
  assert (forallb (fun a => forallb (head_bits_high a) (seqZ 0 (Z.of_nat 256)))
                  (seqZ 0 (Z.of_nat 256)) = true) as H by (vm_compute; reflexivity).
  apply (below_forallb _ 256 s0) in H; [| exact H0].
  apply (below_forallb _ 256 s1) in H; [| exact H1].
  exact H.
Qed.

Lemma mask_nonneg (x m : Z) : 0 <= m -> 0 <= Z.land x m.
Proof. intros H. apply Z.land_nonneg. right. exact H. Qed.

(** A byte outside ASCII starts a rune outside ASCII. *)
Lemma DecodeRune_high (c0 : ascii) (rest : string) :
  128 <= utf8.byte c0 -> 128 <= fst (utf8.DecodeRune c0 rest).
Proof.
  intros H. unfold utf8.DecodeRune. cbv zeta.
  destruct (Z.ltb_spec (utf8.byte c0) utf8.RuneSelf) as [Hlt | _];
    [unfold utf8.RuneSelf in Hlt; lia |].
  destruct (utf8.first (utf8.byte c0)) as [[[sz lo] hi] |] eqn:F;
    [| unfold utf8.RuneError; simpl; lia].
  destruct rest as [| c1 rest1]; [unfold utf8.RuneError; simpl; lia |].
  pose proof (head_bits_high_all (utf8.byte c0) (utf8.byte c1)
                (byte_range c0) (byte_range c1)) as HB.
  unfold head_bits_high in HB. rewrite F in HB.
  destruct (utf8.within lo hi (utf8.byte c1)); [| unfold utf8.RuneError; simpl; lia].
  apply Z.leb_le in HB. cbn [negb].
  assert (sz = 2%nat \/ sz = 3%nat \/ sz = 4%nat) as Hsz.
  { unfold utf8.first in F.
    repeat match type of F with
           | (if ?b then _ else _) = _ => destruct b
           end; inversion F; tauto. }
  destruct Hsz as [-> | [-> | ->]]; cbn [Nat.leb head_bits] in *.
  - exact HB.
  - destruct rest1 as [| c2 rest2]; [unfold utf8.RuneError; simpl; lia |].
    destruct (negb _); [unfold utf8.RuneError; simpl; lia |]. cbn [fst].
    etransitivity; [exact HB |]. apply lor_lower, mask_nonneg. unfold utf8.maskx. lia.
  - destruct rest1 as [| c2 rest2]; [unfold utf8.RuneError; simpl; lia |].
    destruct (negb _); [unfold utf8.RuneError; simpl; lia |].
    destruct rest2 as [| c3 rest3]; [unfold utf8.RuneError; simpl; lia |].
    destruct (negb _); [unfold utf8.RuneError; simpl; lia |]. cbn [fst].
    etransitivity; [exact HB |].
    etransitivity; [| apply lor_lower, mask_nonneg; unfold utf8.maskx; lia].
    apply lor_lower, Z.shiftl_nonneg, mask_nonneg. unfold utf8.maskx. lia.
Qed.

Lemma DecodeRune_low (c0 : ascii) (rest : string) :
  utf8.byte c0 < 128 -> utf8.DecodeRune c0 rest = (utf8.byte c0, rest).
Proof.
  intros H. unfold utf8.DecodeRune. cbv zeta.
  destruct (Z.ltb_spec (utf8.byte c0) utf8.RuneSelf) as [_ | Hge];
    [reflexivity | unfold utf8.RuneSelf in Hge; lia].
Qed.

(** A string that is not ASCII holds a rune that is not ASCII. *)
Lemma runes_from_high (fuel : nat) (s : string) :
  (String.length s <= fuel)%nat -> strings.isASCII s = false ->
  exists r, In r (utf8.runes_from fuel s) /\ 128 <= r.
Proof.
  revert s. induction fuel as [| n IH]; intros s Hlen Hs.
  - destruct s; [discriminate Hs | simpl in Hlen; lia].
  - destruct s as [| c0 rest]; [discriminate Hs |].
    simpl in Hlen. cbn [utf8.runes_from].
    destruct (Z.ltb_spec (utf8.byte c0) 128) as [Hlow | Hhigh].
    + rewrite (DecodeRune_low c0 rest Hlow).
      cbn [strings.isASCII] in Hs. unfold utf8.RuneSelf in Hs.
      apply Z.ltb_lt in Hlow. rewrite Hlow in Hs. cbn [andb] in Hs.
      destruct (IH rest) as (r & Hin & Hr); [lia | exact Hs |].
      exists r. split; [right; exact Hin | exact Hr].
    + pose proof (DecodeRune_high c0 rest Hhigh) as Hd.
      destruct (utf8.DecodeRune c0 rest) as [r s']. cbn [fst] in Hd.
      exists r. split; [left; reflexivity | exact Hd].
Qed.

Lemma all_letters_app (a b : string) :
  all_letters (a +:+ b) <-> all_letters a /\ all_letters b.
Proof.
  induction a as [| c a IH]; simpl.
  - tauto.
  - rewrite IH. tauto.
Qed.

Lemma letters_low (b : Z) : In b false_letters -> b < 128.
Proof. unfold false_letters. simpl. lia. Qed.

(** The leading byte of a sequence of two or more bytes. *)
Lemma lead_byte_high (tag x : Z) (n : nat) :
  forallb (fun y => (128 <=? Z.lor tag y) && (Z.lor tag y <? 256))
          (seqZ 0 (Z.of_nat n)) = true ->
  0 <= x < Z.of_nat n ->
  128 <= utf8.byte (utf8.chr (Z.lor tag x)).
Proof.
  intros H Hx. apply (below_forallb _ n x) in H; [| exact Hx].
  apply andb_true_iff in H as [H1 H2].
  apply Z.leb_le in H1. apply Z.ltb_lt in H2.
  rewrite byte_chr; lia.
Qed.

Lemma shiftr_range (r k bound : Z) :
  0 <= k -> 0 <= r < bound * 2 ^ k -> 0 <= Z.shiftr r k < bound.
Proof.
  intros Hk Hr. rewrite Z.shiftr_div_pow2 by exact Hk.
  assert (0 < 2 ^ k) by (apply Z.pow_pos_nonneg; lia).
  split.
  - apply Z.div_pos; lia.
  - apply Z.div_lt_upper_bound; lia.
Qed.

(** The encoding of a rune that is no letter of [false] is not made of
    such letters. *)
Lemma EncodeRune_letters (r : Z) :
  0 <= r -> ~ In r false_letters -> ~ all_letters (utf8.EncodeRune r).
Proof.
  intros Hr Hnot. unfold utf8.EncodeRune. cbv zeta.
  destruct ((r <? 0) || (1114111 <? r) || utf8.surrogate r) eqn:Hbad.
  { intros [H _]. vm_compute in H. intuition discriminate. }
  apply orb_false_iff in Hbad as [Hbad _].
  apply orb_false_iff in Hbad as [_ Hmax]. apply Z.ltb_ge in Hmax.
  destruct (Z.ltb_spec r 128) as [H1 | H1].
  { intros [H _]. rewrite byte_chr in H by lia. contradiction. }
  destruct (Z.ltb_spec r 2048) as [H2 | H2].
  { intros [H _]. apply letters_low in H.
    pose proof (lead_byte_high 192 (Z.shiftr r 6) 32 eq_refl) as L.
    pose proof (shiftr_range r 6 32). lia. }
  destruct (Z.ltb_spec r 65536) as [H3 | H3].
  { intros [H _]. apply letters_low in H.
    pose proof (lead_byte_high 224 (Z.shiftr r 12) 16 eq_refl) as L.
    pose proof (shiftr_range r 12 16). lia. }
  intros [H _]. apply letters_low in H.
  pose proof (lead_byte_high 240 (Z.shiftr r 18) 8 eq_refl) as L.
  pose proof (shiftr_range r 18 8). lia.
Qed.

(** [Map] over runes of which one is outside ASCII does not give [false]. *)
Lemma Map_runes_letters (lower : Z -> Z) (l : list Z) :
  lowers_outside_false lower ->
  (exists r, In r l /\ 128 <= r) ->
  ~ all_letters
      (fold_right (fun c out =>
                     let r := lower c in
                     if 0 <=? r then utf8.EncodeRune r +:+ out else out)
                  EmptyString l).
Proof.
  intros Hlow (r & Hin & Hr).
  induction l as [| c l IH]; [destruct Hin |].
  cbn [fold_right]. cbv zeta.
  destruct Hin as [-> | Hin].
  - destruct (Hlow r Hr) as [Hpos Hnot].
    apply Z.leb_le in Hpos. rewrite Hpos.
    rewrite all_letters_app. intros [H _].
    apply Z.leb_le in Hpos. exact (EncodeRune_letters _ Hpos Hnot H).
  - specialize (IH Hin).
    destruct (0 <=? lower c); [| exact IH].
    rewrite all_letters_app. intros [_ H]. exact (IH H).
Qed.

Lemma Map_high (lower : Z -> Z) (s : string) :
  lowers_outside_false lower -> strings.isASCII s = false ->
  strings.Map lower s <> "false".
Proof.
  intros Hlow Hs Heq.
  apply (Map_runes_letters lower (utf8.runes s) Hlow).
  - apply runes_from_high; [reflexivity | exact Hs].
  - change (all_letters (strings.Map lower s)). rewrite Heq. vm_compute. tauto.
Qed.

Lemma lower_byte_letters (c : ascii) :
  Ascii.eqb (strings.lower_byte c) "f" = either "f" "F" c /\
  Ascii.eqb (strings.lower_byte c) "a" = either "a" "A" c /\
  Ascii.eqb (strings.lower_byte c) "l" = either "l" "L" c /\
  Ascii.eqb (strings.lower_byte c) "s" = either "s" "S" c /\
  Ascii.eqb (strings.lower_byte c) "e" = either "e" "E" c.
Proof.
  destruct c as [[] [] [] [] [] [] [] []]; vm_compute; repeat split; reflexivity.
Qed.

Lemma lower_ascii_false (s : string) :
  String.eqb (strings.lower_ascii s) "false" = spells_false s.
Proof.
  destruct s as [| c1 [| c2 [| c3 [| c4 [| c5 [| c6 rest]]]]]];
    cbn [strings.lower_ascii spells_false String.eqb]; try reflexivity.
  all: destruct (lower_byte_letters c1) as (-> & _).
  all: try destruct (lower_byte_letters c2) as (_ & -> & _).
  all: try destruct (lower_byte_letters c3) as (_ & _ & -> & _).
  all: try destruct (lower_byte_letters c4) as (_ & _ & _ & -> & _).
  all: try destruct (lower_byte_letters c5) as (_ & _ & _ & _ & ->).
  all: repeat match goal with
              | |- context [either ?a ?b ?c] => destruct (either a b c)
              end; reflexivity.
Qed.

Lemma either_ascii (lo up c : ascii) :
  (utf8.byte lo <? 128) = true -> (utf8.byte up <? 128) = true ->
  either lo up c = true -> (utf8.byte c <? utf8.RuneSelf) = true.
Proof.
  intros Hl Hu H. unfold either in H.
  apply orb_true_iff in H as [H | H]; apply Ascii.eqb_eq in H; subst c; assumption.
Qed.

Lemma spells_false_isASCII (s : string) :
  spells_false s = true -> strings.isASCII s = true.
Proof.
  destruct s as [| c1 [| c2 [| c3 [| c4 [| c5 [| c6 rest]]]]]];
    cbn [spells_false]; try discriminate.
  intros H. repeat (apply andb_true_iff in H as [H ?]).
  cbn [strings.isASCII].
  repeat (apply andb_true_iff; split); try reflexivity;
    eapply either_ascii; try eassumption; reflexivity.
Qed.

(** [ToLower] gives [false] exactly on the strings that spell it. *)
Lemma ToLower_false (lower : Z -> Z) (s : string) :
  lowers_outside_false lower ->
  String.eqb (strings.ToLower lower s) "false" = spells_false s.
Proof.
  intros Hlow. unfold strings.ToLower.
  destruct (strings.isASCII s) eqn:Hs.
  - apply lower_ascii_false.
  - destruct (spells_false s) eqn:Hf.
    + apply spells_false_isASCII in Hf. congruence.
    + apply String.eqb_neq. apply Map_high; assumption.
Qed.

(** C10.  After a successful startup the [Secure] flag of the server is
    false when the SECURE setting spells [false] in any mix of upper and
    lower case, and true for every other value; an unset and an empty
    setting give a secure server. *)
Theorem New_Secure_unless_false (W : World) (r : string) (s s' : Proc) :
  lowers_outside_false (unicode_ToLower W) ->
  New W r s = (Normal None, s') ->
  Secure (grv.Server (this s')) = negb (spells_false (Getenv (environ s') "SECURE")) /\
  (environ s' !! "SECURE" = None \/ environ s' !! "SECURE" = Some "" ->
   Secure (grv.Server (this s')) = true).
Proof.
  intros Hlow H.
  destruct (New_success W r s s' H) as ((E & _) & _ & _ & _ & (S & _) & _).
  rewrite <- E in S. rewrite ToLower_false in S by exact Hlow.
  assert (Secure (grv.Server (this s')) =
          negb (spells_false (Getenv (environ s') "SECURE"))) as Hs.
  { rewrite S. destruct (spells_false _); reflexivity. }
  split; [exact Hs |].
  intros Hunset. rewrite Hs. unfold Getenv.
  destruct Hunset as [-> | ->]; reflexivity.
Qed.

Lemma New_Secure_unless_false_witness :
  Secure (grv.Server (this demo_started)) =
    negb (spells_false (Getenv (environ demo_started) "SECURE")) /\
  (environ demo_started !! "SECURE" = None \/ environ demo_started !! "SECURE" = Some "" ->
   Secure (grv.Server (this demo_started)) = true).
Proof.
  apply (New_Secure_unless_false demo_world "/app" fresh demo_started).
  - intros r Hr. change (unicode_ToLower demo_world r) with (demo_ToLower r).
    unfold demo_ToLower, false_letters.
    destruct (Z.leb_spec 65 r); destruct (Z.leb_spec r 90); cbn [andb];
      (split; [lia |]); simpl; lia.
  - vm_compute. reflexivity.
Defined.

Example demo_not_Secure :
  Getenv (environ demo_started) "SECURE" = "False" /\
  Secure (grv.Server (this demo_started)) = false.
Proof. vm_compute. split; reflexivity. Qed.

(** ** Startup failures *)

Lemma startup_failure_outcome (W : World) (r : string) (s : Proc) :
  startup_failure W r (environ s) -> New_outcome W r s <> Normal None.
Proof.
  intros Hfail Hout. unfold New_outcome in Hout.
  destruct (New_env_error W r (environ s)) as [e1 |] eqn:E1; [discriminate Hout |].
  destruct (New_db_error W (loaded W r (environ s))) as [e2 |] eqn:E2.
  { unfold New_db_abort in Hout. destruct (grv.ErrorLog (this s)); discriminate Hout. }
  destruct (New_cache_error W (loaded W r (environ s))) as [e3 |] eqn:E3;
    [discriminate Hout |].
  unfold New_env_error in E1.
  destruct (Init_error W r New_folderNames) as [x |] eqn:I1; [discriminate E1 |].
  destruct (checkDotEnv_error W r) as [x |] eqn:I2; [discriminate E1 |].
  destruct Hfail as [(path & Hin & Hp) | [(Hst & Hc) | [Hl | [(Ht & Ho) | (Hb & Hp)]]]].
  - apply Hp. exact (proj1 (Init_error_None W r New_folderNames) I1 path Hin).
  - unfold checkDotEnv_error in I2. rewrite Hst in I2. contradiction.
  - exact (Hl E1).
  - unfold New_db_error in E2.
    apply String.eqb_neq in Ht. rewrite Ht in E2. cbn [negb] in E2. contradiction.
  - unfold New_cache_error in E3.
    apply wants_badger_true in Hb. rewrite Hb in E3. contradiction.
Qed.

(** A run of [New] that does not return nil has started nothing. *)
Lemma New_failure_quietly (W : World) (r : string) (s : Proc) :
  fst (New W r s) <> Normal None -> quietly s (snd (New W r s)).
Proof.
  unfold New. intros Hne.
  rewrite bind_unfold in Hne |- *.
  pose proof (New_env_quietly W r s) as Q1.
  destruct (New_env W r s) as [[[e1 |] | code | msg] s1]; cbn [snd] in *; try exact Q1.
  rewrite bind_unfold in Hne |- *.
  pose proof (New_db_quietly W s1) as Q2.
  assert (quietly s (snd (New_db W s1))) as Q2' by (eapply frame_trans; eassumption).
  clear Q1 Q2.
  destruct (New_db W s1) as [[[] | code | msg] s2]; cbn [snd] in *; try exact Q2'.
  rewrite bind_unfold in Hne |- *.
  pose proof (New_cache_quietly W s2) as Q3.
  assert (quietly s (snd (New_cache W s2))) as Q3' by (eapply frame_trans; eassumption).
  clear Q2' Q3.
  destruct (New_cache W s2) as [[[e3 |] | code | msg] s3]; cbn [snd] in *; try exact Q3'.
  rewrite bind_unfold in Hne |- *.
  pose proof (New_app_quietly W r s3) as Q4.
  assert (quietly s (snd (New_app W r s3))) as Q4' by (eapply frame_trans; eassumption).
  clear Q3' Q4.
  destruct (New_app W r s3) as [[[] | code | msg] s4]; cbn [snd] in *; try exact Q4'.
  rewrite bind_unfold in Hne |- *.
  pose proof (New_session_quietly s4) as Q5.
  assert (quietly s (snd (New_session s4))) as Q5' by (eapply frame_trans; eassumption).
  clear Q4' Q5.
  destruct (New_session s4) as [[[] | code | msg] s5]; cbn [snd] in *; try exact Q5'.
  rewrite bind_unfold in Hne |- *.
  pose proof (New_views_quietly r s5) as Q6.
  assert (quietly s (snd (New_views r s5))) as Q6' by (eapply frame_trans; eassumption).
  clear Q5' Q6.
  destruct (New_views r s5) as [[[] | code | msg] s6]; cbn [snd] in *; try exact Q6'.
  contradiction Hne. reflexivity.
Qed.

(** With the database down, a freshly allocated [Goravel] has no logger yet
    to print the error with, and [New] panics; with a logger in place the
    error is printed and the process exits with status 1. *)
Example demo_db_down_fresh :
  fst (New demo_world_db_down "/app" fresh) = Panic nil_deref.
Proof. vm_compute. reflexivity. Qed.

Example demo_db_down_logged :
  let s := {| this := grv.set_ErrorLog (Some (log.New "ERROR" 19)) grv.zero;
              pkg := Globals_zero; environ := ∅; defers := []; trace := [] |} in
  fst (New demo_world_db_down "/app" s) = Exit 1 /\
  last (trace (snd (New demo_world_db_down "/app" s))) = Some (CallExit 1).
Proof. vm_compute. split; reflexivity. Qed.

(** C3 (the specification as written fails).  At the concrete deployment the SMTP
    port does not parse and the embedded store cannot be opened; [New]
    returns nil all the same, with port 0 and a nil store handle, and
    starts the mail worker. *)
Lemma New_tolerates_invalid_settings :
  snd (strconv.Atoi (Getenv demo_env "SMTP_PORT")) <> None /\
  snd (badger_Open demo_world "/tmp/badger") <> None /\
  fst (New demo_world "/app" fresh) = Normal None /\
  mailer.Port (grv.Mail (this demo_started)) = 0 /\
  badgerConn (pkg demo_started) = None /\
  last (trace demo_started) = Some CallGoListenForMail.
Proof.
  vm_compute. repeat split; try reflexivity; discriminate.
Qed.

(** * Further properties of the file *)

(** ** [Init], [CreateFileIfNotExist] and [checkDotEnv] *)

Lemma with_calls_nil (s : Proc) : with_calls [] s = s.
Proof. destruct s. unfold with_calls. simpl. rewrite app_nil_r. reflexivity. Qed.

Lemma with_calls_app (cs1 cs2 : list Call) (s : Proc) :
  with_calls cs2 (with_calls cs1 s) = with_calls (cs1 ++ cs2) s.
Proof. unfold with_calls. simpl. rewrite app_assoc. reflexivity. Qed.

(** X1.  [Init] stops at the first folder that cannot be created: it returns
    that folder's error, has asked for the folders before it and for that
    one, in order, and for none after it; nothing else changes. *)
Theorem Init_stops_at_first_failure
    (W : World) (root : string) (before after : list string) (bad : string)
    (err : error) (s : Proc) :
  (forall path, In path before ->
                CreateDirIfNotExist W (root +:+ "/" +:+ path) = None) ->
  CreateDirIfNotExist W (root +:+ "/" +:+ bad) = Some err ->
  Init W {| rootPath := root; folderNames := before ++ bad :: after |} s =
    (Normal (Some err), with_calls (dir_calls root (before ++ [bad])) s).
Proof.
  intros Hok Hbad. unfold Init. cbn [rootPath folderNames].
  revert s. induction before as [| p before IH]; intros s.
  - cbn [app Init_range]. rewrite bind_unfold. cbn [emit]. rewrite Hbad. reflexivity.
  - cbn [app Init_range]. rewrite bind_unfold. cbn [emit].
    rewrite (Hok p) by (left; reflexivity).
    rewrite IH by (intros path Hin; apply Hok; right; exact Hin).
    f_equal. unfold with_calls, dir_calls. cbn. rewrite <- app_assoc. reflexivity.
Qed.

Lemma Init_stops_at_first_failure_witness :
  Init demo_world_views_readonly
       {| rootPath := "/app"; folderNames := ["handlers"; "migrations"] ++ "views" :: ["mail"] |}
       fresh
  = (Normal (Some (Err "read-only file system")),
     with_calls (dir_calls "/app" (["handlers"; "migrations"] ++ ["views"])) fresh).
Proof.
  apply Init_stops_at_first_failure.
  - intros path [<- | [<- | []]]; vm_compute; reflexivity.
  - vm_compute. reflexivity.
Defined.

(** X2.  When every folder can be created, [Init] returns nil after asking
    for each folder once, in the order of the list; an empty list makes no
    call. *)
Theorem Init_creates_every_folder
    (W : World) (root : string) (names : list string) (s : Proc) :
  (forall path, In path names ->
                CreateDirIfNotExist W (root +:+ "/" +:+ path) = None) ->
  Init W {| rootPath := root; folderNames := names |} s =
    (Normal None, with_calls (dir_calls root names) s).
Proof.
  intros Hok. unfold Init. cbn [rootPath folderNames].
  revert s. induction names as [| p names IH]; intros s.
  - cbn. rewrite with_calls_nil. reflexivity.
  - cbn [Init_range]. rewrite bind_unfold. cbn [emit].
    rewrite (Hok p) by (left; reflexivity).
    rewrite IH by (intros path Hin; apply Hok; right; exact Hin).
    f_equal. unfold with_calls, dir_calls. cbn. rewrite <- app_assoc. reflexivity.
Qed.

Lemma Init_creates_every_folder_witness :
  Init demo_world {| rootPath := "/app"; folderNames := New_folderNames |} fresh =
    (Normal None, with_calls (dir_calls "/app" New_folderNames) fresh).
Proof.
  apply Init_creates_every_folder.
  intros path _. reflexivity.
Defined.

Lemma CreateFileIfNotExist_run (W : World) (path : string) (s : Proc) :
  CreateFileIfNotExist W path s =
    if stat_IsNotExist W path then
      match os_Create W path with
      | Some err => (Normal (Some err), with_calls [CallStat path; CallCreate path] s)
      | None =>
          (Normal None,
           with_calls [CallStat path; CallCreate path; CallClose (HFile path)] s)
      end
    else (Normal None, with_calls [CallStat path] s).
Proof.
  unfold CreateFileIfNotExist, func. go_run.
  destruct (stat_IsNotExist W path); go_run.
  - destruct (os_Create W path); go_run;
      unfold with_calls, set_defers; cbn; rewrite <- ?app_assoc; reflexivity.
  - unfold with_calls, set_defers. cbn. reflexivity.
Qed.

(** X3.  [CreateFileIfNotExist] creates the file exactly when the look-up
    says it is missing, so a file that is there is never created again, and
    returns the error of the creation, nil when there was none to do.  The
    file is closed exactly when it was created without error, that is the
    only handle the function closes, and the closing happens before it
    returns: the deferred calls of the caller are as they were, and so are
    the receiver, the package variables and the environment. *)
Theorem CreateFileIfNotExist_closes_what_it_creates
    (W : World) (path : string) (s : Proc) :
  exists calls,
    snd (CreateFileIfNotExist W path s) = with_calls calls s /\
    defers (snd (CreateFileIfNotExist W path s)) = defers s /\
    fst (CreateFileIfNotExist W path s) =
      Normal (if stat_IsNotExist W path then os_Create W path else None) /\
    (In (CallCreate path) calls <-> stat_IsNotExist W path = true) /\
    (In (CallClose (HFile path)) calls <->
     stat_IsNotExist W path = true /\ os_Create W path = None) /\
    (forall h, In (CallClose h) calls -> h = HFile path).
Proof.
  rewrite CreateFileIfNotExist_run.
  destruct (stat_IsNotExist W path); [destruct (os_Create W path) |];
    eexists; (split; [reflexivity |]); (split; [reflexivity |]);
    (split; [reflexivity |]); cbn; repeat split;
    try intuition (discriminate || congruence).
Qed.

Lemma checkDotEnv_run (W : World) (r : string) (s : Proc) :
  checkDotEnv W r s =
    (Normal (checkDotEnv_error W r), with_calls (checkDotEnv_calls W r) s).
Proof.
  unfold checkDotEnv. rewrite bind_unfold.
  rewrite CreateFileIfNotExist_run.
  unfold checkDotEnv_error, checkDotEnv_calls.
  destruct (stat_IsNotExist W (r +:+ "/.env")); [| reflexivity].
  destruct (os_Create W (r +:+ "/.env")); reflexivity.
Qed.

(** ** [BuildDSN] *)

(** X4.  [BuildDSN] returns the empty string for every database type other
    than [postgres] and [postgresql], and never for those two. *)
Theorem BuildDSN_empty_unless_postgres (e : gmap string string) :
  BuildDSN_of e = "" <->
  Getenv e "DATABASE_TYPE" <> "postgres" /\ Getenv e "DATABASE_TYPE" <> "postgresql".
Proof.
  unfold BuildDSN_of.
  destruct (String.eqb_spec (Getenv e "DATABASE_TYPE") "postgres") as [H1 | H1];
  destruct (String.eqb_spec (Getenv e "DATABASE_TYPE") "postgresql") as [H2 | H2];
    cbn [orb].
  4: { split; [intros _; split; assumption | reflexivity]. }
  all: split; [| intros [A B]; contradiction].
  all: destruct (negb _); cbn; discriminate.
Qed.

Lemma Getenv_insert_eq (e : gmap string string) (k v : string) :
  Getenv (<[k := v]> e) k = v.
Proof. unfold Getenv. rewrite lookup_insert_eq. reflexivity. Qed.

Lemma Getenv_insert_ne (e : gmap string string) (k k' v : string) :
  k <> k' -> Getenv (<[k := v]> e) k' = Getenv e k'.
Proof. intros H. unfold Getenv. rewrite lookup_insert_ne by exact H. reflexivity. Qed.

Lemma Getenv_delete_eq (e : gmap string string) (k : string) :
  Getenv (delete k e) k = "".
Proof. unfold Getenv. rewrite lookup_delete_eq. reflexivity. Qed.

Lemma Getenv_delete_ne (e : gmap string string) (k k' : string) :
  k <> k' -> Getenv (delete k e) k' = Getenv e k'.
Proof. intros H. unfold Getenv. rewrite lookup_delete_ne by exact H. reflexivity. Qed.

(** X5.  For a PostgreSQL database a non-empty DATABASE_PASS is appended to
    the DSN as its last field, [ password=...]; an empty DATABASE_PASS gives
    the same DSN as no DATABASE_PASS at all. *)
Theorem BuildDSN_password_last (e : gmap string string) (pass : string) :
  Getenv e "DATABASE_TYPE" = "postgres" \/ Getenv e "DATABASE_TYPE" = "postgresql" ->
  (pass <> "" ->
   BuildDSN_of (<["DATABASE_PASS" := pass]> e) =
     BuildDSN_of (delete "DATABASE_PASS" e) +:+ " password=" +:+ pass) /\
  BuildDSN_of (<["DATABASE_PASS" := ""]> e) = BuildDSN_of (delete "DATABASE_PASS" e).
Proof.
  intros Ht.
  assert (String.eqb (Getenv e "DATABASE_TYPE") "postgres"
          || String.eqb (Getenv e "DATABASE_TYPE") "postgresql" = true) as Hb.
  { apply orb_true_iff. rewrite !String.eqb_eq. exact Ht. }
  unfold BuildDSN_of.
  rewrite !Getenv_insert_eq, !Getenv_delete_eq.
  rewrite !Getenv_insert_ne, !Getenv_delete_ne by discriminate.
  rewrite Hb. cbn [String.eqb negb]. split; [| reflexivity].
  intros Hp. apply String.eqb_neq in Hp. rewrite Hp. reflexivity.
Qed.

Lemma BuildDSN_password_last_witness :
  (("s3cret" : string) <> "" ->
   BuildDSN_of (<["DATABASE_PASS" := "s3cret"]> demo_env) =
     BuildDSN_of (delete "DATABASE_PASS" demo_env) +:+ " password=" +:+ "s3cret") /\
  BuildDSN_of (<["DATABASE_PASS" := ""]> demo_env) =
    BuildDSN_of (delete "DATABASE_PASS" demo_env).
Proof.
  apply BuildDSN_password_last. left. vm_compute. reflexivity.
Defined.

(** ** The blocks of [New], call by call *)

Lemma Init_range_run (W : World) (root : string) (names : list string) (s : Proc) :
  Init_range W root names s =
    (Normal (Init_error W root names), with_calls (Init_calls W root names) s).
Proof.
  revert s. induction names as [| p names IH]; intros s.
  - cbn. rewrite with_calls_nil. reflexivity.
  - cbn [Init_range Init_error Init_calls]. rewrite bind_unfold. cbn [emit].
    destruct (CreateDirIfNotExist W (root +:+ "/" +:+ p)).
    + reflexivity.
    + rewrite IH. f_equal. unfold with_calls. cbn. rewrite <- app_assoc. reflexivity.
Qed.

Lemma Init_calls_ok (W : World) (root : string) (names : list string) :
  Init_error W root names = None -> Init_calls W root names = dir_calls root names.
Proof.
  induction names as [| p names IH]; [reflexivity |].
  cbn [Init_error Init_calls dir_calls map].
  destruct (CreateDirIfNotExist W (root +:+ "/" +:+ p)); [discriminate |].
  intros H. rewrite (IH H). reflexivity.
Qed.

Lemma Init_calls_setup (W : World) (root : string) (names : list string) :
  Forall (fun c => is_setup_call c = true) (Init_calls W root names).
Proof.
  induction names as [| p names IH]; [constructor |].
  cbn [Init_calls]. constructor; [reflexivity |].
  destruct (CreateDirIfNotExist W (root +:+ "/" +:+ p)); [constructor | exact IH].
Qed.

(** The first block changes nothing but the trace and, once it reaches
    [godotenv.Load], the environment. *)
Lemma New_env_run_full (W : World) (r : string) (s : Proc) :
  let s' := snd (New_env W r s) in
  fst (New_env W r s) = Normal (New_env_error W r (environ s)) /\
  this s' = this s /\ pkg s' = pkg s /\ defers s' = defers s /\
  trace s' = trace s ++ New_env_calls W r.
Proof.
  cbv zeta. unfold New_env, New_env_error, New_env_calls, Init.
  cbn [rootPath folderNames].
  rewrite bind_unfold, Init_range_run.
  destruct (Init_error W r New_folderNames) as [e1 |].
  { unfold with_calls. go_run. rewrite app_nil_r. repeat split; reflexivity. }
  rewrite bind_unfold, checkDotEnv_run.
  destruct (checkDotEnv_error W r) as [e2 |].
  { unfold with_calls. go_run. rewrite app_nil_r, <- app_assoc.
    repeat split; reflexivity. }
  rewrite bind_unfold. unfold godotenv_Load_, Load_error, with_calls.
  cbn [environ].
  destruct (godotenv_Load W (r +:+ "/.env") (environ s)) as [e err]. go_run.
  destruct err; go_run; rewrite <- !app_assoc; repeat split; reflexivity.
Qed.

Lemma New_env_calls_ok (W : World) (r : string) (e : gmap string string) :
  New_env_error W r e = None ->
  New_env_calls W r =
    dir_calls r New_folderNames ++ checkDotEnv_calls W r ++ [CallLoadEnv (r +:+ "/.env")].
Proof.
  unfold New_env_error, New_env_calls. intros H.
  destruct (Init_error W r New_folderNames) eqn:I; [discriminate |].
  rewrite (Init_calls_ok W r New_folderNames I).
  destruct (checkDotEnv_error W r); [discriminate | reflexivity].
Qed.

Lemma New_env_calls_setup (W : World) (r : string) :
  Forall (fun c => is_setup_call c = true) (New_env_calls W r).
Proof.
  unfold New_env_calls. apply Forall_app. split; [apply Init_calls_setup |].
  destruct (Init_error W r New_folderNames); [constructor |].
  apply Forall_app. split.
  - unfold checkDotEnv_calls.
    destruct (stat_IsNotExist W _); [destruct (os_Create W _) |]; repeat constructor.
  - destruct (checkDotEnv_error W r); repeat constructor.
Qed.

(** The database block. *)
Lemma New_db_run (W : World) (s : Proc) :
  let e := environ s in
  let ty := Getenv e "DATABASE_TYPE" in
  match New_db_error W e with
  | None =>
      fst (New_db W s) = Normal tt /\
      this (snd (New_db W s)) =
        (if negb (String.eqb ty "")
         then grv.set_DB {| DataBaseType := ty;
                            Pool := fst (OpenDB W ty (BuildDSN_of e)) |} (this s)
         else this s) /\
      trace (snd (New_db W s)) = trace s ++ New_db_calls e
  | Some err =>
      New_db W s =
        match grv.ErrorLog (this s) with
        | Some l =>
            (Exit 1,
             with_calls [CallOpenDB ty (BuildDSN_of e); CallLogOutput l (Error err);
                         CallExit 1] s)
        | None => (Panic nil_deref, with_calls [CallOpenDB ty (BuildDSN_of e)] s)
        end
  end.
Proof.
  cbv zeta. unfold New_db_error, New_db, New_db_calls, OpenDB_, Logger_Println. go_run.
  destruct (negb _); go_run.
  2: { rewrite app_nil_r. repeat split; reflexivity. }
  destruct (OpenDB W _ _) as [db [err |]]; go_run.
  - destruct (grv.ErrorLog (this s)); go_run; unfold with_calls; cbn;
      rewrite <- ?app_assoc; reflexivity.
  - repeat split; reflexivity.
Qed.

(** The block of the loggers, the mailer and the configuration, field by
    field. *)
Lemma New_app_fields (W : World) (r : string) (s : Proc) :
  let e := environ s in
  let g' := this (snd (New_app W r s)) in
  (grv.RootPath g' = r /\
   grv.Debug g' = fst (strconv.ParseBool (Getenv e "DEBUG")) /\
   grv.Version g' = version /\
   grv.Routes g' = Some chi.Router) /\
  (grv.InfoLog g' = Some (log.New ("INFO" +:+ tab) (Z.lor log.Ldate log.Ltime)) /\
   grv.ErrorLog g' =
     Some (log.New ("ERROR" +:+ tab)
                   (Z.lor (Z.lor log.Ldate log.Ltime) log.Lshortfile))) /\
  grv.Mail g' = New_Mail r e /\
  grv.config g' = New_config e /\
  grv.Server g' = New_Server W e /\
  trace (snd (New_app W r s)) = trace s ++ New_app_calls.
Proof.
  cbv zeta. repeat apply conj; try reflexivity.
  transitivity (((((trace s ++ [CallLogNew ("INFO" +:+ tab)])
                    ++ [CallLogNew ("ERROR" +:+ tab)])
                   ++ [CallMakeChan 20]) ++ [CallMakeChan 20]) ++ [CallRoutes]);
    [reflexivity |].
  unfold New_app_calls. rewrite <- !app_assoc. reflexivity.
Qed.

(** The session block, when it does not panic. *)
Lemma New_session_run (s : Proc) :
  fst (New_session s) = Normal tt ->
  let c := grv.config (this s) in
  let st := sessionType c in
  let g' := this (snd (New_session s)) in
  grv.Session g' =
    Some (session.InitSession
            {| session.CookieLifeTime := lifetime (cookie c);
               session.CookiePersist := persist (cookie c);
               session.CookieName := name (cookie c);
               session.CookieDomain := domain (cookie c);
               session.SessionType := st;
               session.DBPool :=
                 (if String.eqb st "redis" then None
                  else if sql_session st then Pool (grv.DB (this s)) else None);
               session.RedisPool :=
                 (if String.eqb st "redis"
                  then match myRedisCache (pkg s) with
                       | Some rc => cache.rConn rc
                       | None => None
                       end
                  else None) |}) /\
  grv.EncryptionKey g' = Getenv (environ s) "KEY" /\
  trace (snd (New_session s)) = trace s ++ [CallInitSession].
Proof.
  cbv zeta. unfold New_session, InitSession, sql_session. go_run.
  destruct (String.eqb (sessionType (grv.config (this s))) "redis").
  - destruct (myRedisCache (pkg s)); go_run; [| discriminate].
    intros _. repeat split; reflexivity.
  - destruct (_ || _); go_run; intros _; repeat split; reflexivity.
Qed.

(** The template block. *)
Lemma New_views_run (r : string) (s : Proc) :
  let g' := this (snd (New_views r s)) in
  let views := Some (jet.NewSet (r +:+ "/views") (grv.Debug (this s))) in
  grv.JetViews g' = views /\
  grv.Render g' =
    Some {| render.Renderer := renderer (grv.config (this s));
            render.RootPath := grv.RootPath (this s);
            render.Port := port (grv.config (this s));
            render.JetViews := views;
            render.Session := grv.Session (this s) |} /\
  trace (snd (New_views r s)) = trace s ++ [CallJetNewSet (r +:+ "/views")].
Proof.
  cbv zeta. unfold New_views, jet_NewSet, createRenderer. go_run.
  destruct (grv.Debug (this s)); go_run; repeat split; reflexivity.
Qed.

(** What each block leaves alone in the receiver. *)
Lemma New_env_this (W : World) (r : string) :
  keeps (same_grv (fun g => g)) (New_env W r).
Proof. apply keeps_New_env; [apply _ | intros e; atom_same]. Qed.

Lemma New_cache_rest (W : World) :
  keeps (same_grv (fun g => (grv.DB g, grv.AppName g))) (New_cache W).
Proof. keeps_go atom_same. Qed.

Lemma New_app_rest (W : World) (r : string) :
  keeps (same_grv (fun g => (grv.DB g, grv.AppName g))) (New_app W r).
Proof. keeps_go atom_same. Qed.

Lemma New_session_rest :
  keeps (same_grv (fun g =>
           (grv.RootPath g, grv.Debug g, grv.Version g, grv.Routes g, grv.Mail g,
            grv.config g, grv.Server g, grv.DB g, grv.AppName g,
            grv.InfoLog g, grv.ErrorLog g)))
        New_session.
Proof. keeps_go atom_same. Qed.

Lemma New_views_rest (r : string) :
  keeps (same_grv (fun g =>
           (grv.RootPath g, grv.Debug g, grv.Version g, grv.Routes g, grv.Mail g,
            grv.config g, grv.Server g, grv.DB g, grv.AppName g,
            grv.InfoLog g, grv.ErrorLog g, grv.Session g, grv.EncryptionKey g)))
        (New_views r).
Proof. keeps_go atom_same. Qed.

(** Instantiate a frame lemma [L] at the run [H : m s = (o, s')]. *)
Ltac frame_of L s0 H X :=
  pose proof (L s0) as X; rewrite H in X; cbn [snd] in X; red in X.

Lemma sql_session_not_redis (st : string) :
  String.eqb st "redis" = true -> sql_session st = false.
Proof. intros H. apply String.eqb_eq in H. subst st. reflexivity. Qed.

(** What a successful [New] leaves behind, continued: its calls in order and
    the fields of the receiver. *)
Lemma New_success_more (W : World) (r : string) (s s' : Proc) :
  New W r s = (Normal None, s') ->
  let e := loaded W r (environ s) in
  let ty := Getenv e "DATABASE_TYPE" in
  let st := Getenv e "SESSION_TYPE" in
  let g' := this s' in
  trace s' =
    trace s ++ dir_calls r New_folderNames ++ checkDotEnv_calls W r
      ++ [CallLoadEnv (r +:+ "/.env")] ++ New_db_calls e
      ++ New_cache_calls e (this s) ++ New_app_calls
      ++ [CallInitSession; CallJetNewSet (r +:+ "/views"); CallGoListenForMail] /\
  grv.DB g' =
    (if negb (String.eqb ty "")
     then {| DataBaseType := ty; Pool := fst (OpenDB W ty (BuildDSN_of e)) |}
     else grv.DB (this s)) /\
  (grv.RootPath g' = r /\
   grv.Debug g' = fst (strconv.ParseBool (Getenv e "DEBUG")) /\
   grv.Version g' = version /\
   grv.Routes g' = Some chi.Router /\
   grv.AppName g' = grv.AppName (this s)) /\
  (grv.InfoLog g' = Some (log.New ("INFO" +:+ tab) (Z.lor log.Ldate log.Ltime)) /\
   grv.ErrorLog g' =
     Some (log.New ("ERROR" +:+ tab)
                   (Z.lor (Z.lor log.Ldate log.Ltime) log.Lshortfile))) /\
  (grv.Mail g' = New_Mail r e /\
   grv.config g' = New_config e /\
   grv.Server g' = New_Server W e) /\
  (grv.Session g' =
     Some (session.InitSession
             {| session.CookieLifeTime := Getenv e "COOKIE_LIFETIME";
                session.CookiePersist := Getenv e "COOKIE_PERSISTS";
                session.CookieName := Getenv e "COOKIE_NAME";
                session.CookieDomain := Getenv e "COOKIE_DOMAIN";
                session.SessionType := st;
                session.DBPool := (if sql_session st then Pool (grv.DB g') else None);
                session.RedisPool :=
                  (if String.eqb st "redis" then Some createRedisPool_literal
                   else None) |}) /\
   grv.EncryptionKey g' = Getenv e "KEY") /\
  (grv.JetViews g' = Some (jet.NewSet (r +:+ "/views") (grv.Debug g')) /\
   grv.Render g' =
     Some {| render.Renderer := Getenv e "RENDERER";
             render.RootPath := r;
             render.Port := Getenv e "PORT";
             render.JetViews := grv.JetViews g';
             render.Session := grv.Session g' |}).
Proof.
  intros H. cbv zeta.
  destruct (New_success W r s s' H) as (_ & _ & (PA & _) & _).
  apply New_inv in H as (s1 & s2 & s3 & s4 & s5 & s6 & H1 & H2 & H3 & H4 & H5 & H6 & ->).
  cbn [emit snd this pkg trace] in *.
  (* the first block *)
  destruct (New_env_run_full W r s) as (F1 & G1 & _ & _ & T1).
  destruct (New_env_run W r s) as [_ V1].
  rewrite H1 in F1, G1, T1, V1. cbn [fst snd] in F1, G1, T1, V1.
  injection F1 as F1. symmetry in F1. specialize (V1 F1).
  rewrite (New_env_calls_ok W r _ F1) in T1.
  (* the environment of the later blocks *)
  frame_of (New_db_environ W) s1 H2 V2.
  frame_of (New_cache_environ W) s2 H3 V3.
  frame_of (New_app_environ W r) s3 H4 V4.
  assert (environ s2 = loaded W r (environ s)) as E2 by congruence.
  assert (environ s3 = loaded W r (environ s)) as E3 by congruence.
  assert (environ s4 = loaded W r (environ s)) as E4 by congruence.
  (* the database block *)
  pose proof (New_db_run W s1) as D2. cbv zeta in D2. rewrite V1 in D2.
  destruct (New_db_error W (loaded W r (environ s))) as [err |].
  { rewrite H2 in D2. destruct (grv.ErrorLog (this s1)); discriminate D2. }
  destruct D2 as (_ & G2 & T2). rewrite H2 in G2, T2. cbn [snd] in G2, T2.
  rewrite G1 in G2.
  (* the cache block *)
  destruct (New_cache_run W s2) as (_ & _ & _ & _ & _ & _ & _ & T3).
  rewrite H3 in T3. cbn [snd] in T3. rewrite E2 in T3.
  frame_of (New_env_RootPath W r) s H1 R1. frame_of (New_db_RootPath W) s1 H2 R2.
  rewrite R2, R1 in T3.
  frame_of (New_cache_rest W) s2 H3 K3. injection K3 as K3a K3b.
  (* the block of the loggers and the configuration *)
  destruct (New_app_fields W r s3) as ((A1 & A2 & A3 & A4) & (A5 & A6) & A7 & A8 & A9 & T4).
  rewrite H4 in A1, A2, A3, A4, A5, A6, A7, A8, A9, T4.
  cbn [snd] in A1, A2, A3, A4, A5, A6, A7, A8, A9, T4.
  rewrite E3 in A2, A7, A8, A9.
  frame_of (New_app_rest W r) s3 H4 K4. injection K4 as K4a K4b.
  frame_of (New_app_pkg W r) s3 H4 P4.
  (* the session block *)
  assert (fst (New_session s4) = Normal tt) as F5 by (rewrite H5; reflexivity).
  destruct (New_session_run s4 F5) as (S5 & Y5 & T5).
  rewrite H5 in S5, Y5, T5. cbn [snd] in S5, Y5, T5.
  frame_of New_session_rest s4 H5 K5.
  injection K5 as K5a K5b K5c K5d K5e K5f K5g K5h K5i K5j K5k.
  frame_of New_session_pkg s4 H5 P5.
  (* the template block *)
  destruct (New_views_run r s5) as (J6 & N6 & T6).
  rewrite H6 in J6, N6, T6. cbn [snd] in J6, N6, T6.
  frame_of (New_views_rest r) s5 H6 K6.
  injection K6 as K6a K6b K6c K6d K6e K6f K6g K6h K6i K6j K6k K6l K6m.
  frame_of (New_views_pkg r) s5 H6 P6.
  assert (grv.DB (this s6) =
          (if negb (String.eqb (Getenv (loaded W r (environ s)) "DATABASE_TYPE") "")
           then {| DataBaseType := Getenv (loaded W r (environ s)) "DATABASE_TYPE";
                   Pool := fst (OpenDB W (Getenv (loaded W r (environ s)) "DATABASE_TYPE")
                                       (BuildDSN_of (loaded W r (environ s)))) |}
           else grv.DB (this s))) as HDB.
  { rewrite K6h, K5h, K4a, K3a, G2. destruct (negb _); reflexivity. }
  assert (grv.Debug (this s6) =
          fst (strconv.ParseBool (Getenv (loaded W r (environ s)) "DEBUG"))) as HDebug
    by congruence.
  assert (grv.config (this s4) = New_config (loaded W r (environ s))) as HC by exact A8.
  repeat apply conj.
  - rewrite T6, T5, T4, T3, T2, T1. unfold New_cache_calls.
    rewrite <- !app_assoc. reflexivity.
  - exact HDB.
  - congruence.
  - exact HDebug.
  - congruence.
  - congruence.
  - rewrite K6i, K5i, K4b, K3b, G2. destruct (negb _); reflexivity.
  - congruence.
  - congruence.
  - congruence.
  - congruence.
  - congruence.
  - rewrite K6l, S5, HC. cbn [New_config sessionType cookie lifetime persist name domain].
    do 2 f_equal.
    assert (grv.DB (this s4) = grv.DB (this s6)) as -> by congruence.
    assert (pkg s4 = pkg s6) as -> by congruence.
    rewrite PA.
    destruct (String.eqb (Getenv (loaded W r (environ s)) "SESSION_TYPE") "redis") eqn:Hst.
    + rewrite (sql_session_not_redis _ Hst).
      rewrite (wants_redis_session _ (proj1 (String.eqb_eq _ _) Hst)). reflexivity.
    + reflexivity.
  - rewrite K6m, Y5, E4. reflexivity.
  - rewrite J6. congruence.
  - rewrite N6, J6, K5f, HC, K5a, A1, K6l. reflexivity.
Qed.

(** ** When [New] succeeds and what its failures leave *)

Lemma New_env_error_None (W : World) (r : string) (e : gmap string string) :
  New_env_error W r e = None <->
  (forall path, In path New_folderNames ->
                CreateDirIfNotExist W (r +:+ "/" +:+ path) = None) /\
  (stat_IsNotExist W (r +:+ "/.env") = true -> os_Create W (r +:+ "/.env") = None) /\
  snd (godotenv_Load W (r +:+ "/.env") e) = None.
Proof.
  unfold New_env_error, checkDotEnv_error, Load_error.
  rewrite <- (Init_error_None W r New_folderNames).
  destruct (Init_error W r New_folderNames).
  { split; [discriminate | intros (H & _); discriminate H]. }
  destruct (stat_IsNotExist W (r +:+ "/.env")).
  - destruct (os_Create W (r +:+ "/.env")).
    + split; [discriminate | intros (_ & H & _); discriminate (H eq_refl)].
    + split; [intros H; repeat split; auto | intros (_ & _ & H); exact H].
  - split; [intros H; repeat split; auto; discriminate | intros (_ & _ & H); exact H].
Qed.

Lemma New_db_error_None (W : World) (e : gmap string string) :
  New_db_error W e = None <->
  (Getenv e "DATABASE_TYPE" <> "" ->
   snd (OpenDB W (Getenv e "DATABASE_TYPE") (BuildDSN_of e)) = None).
Proof.
  unfold New_db_error.
  destruct (String.eqb_spec (Getenv e "DATABASE_TYPE") "") as [H | H]; cbn [negb].
  - split; [intros _ Hne; contradiction | reflexivity].
  - split; [intros Hn _; exact Hn | intros Hn; exact (Hn H)].
Qed.

Lemma New_cache_error_None (W : World) (e : gmap string string) :
  New_cache_error W e = None <->
  (Getenv e "CACHE" = "badger" -> cron_Parse W "@daily" = None).
Proof.
  unfold New_cache_error, wants_badger.
  destruct (String.eqb_spec (Getenv e "CACHE") "badger") as [H | H].
  - split; [intros Hn _; exact Hn | intros Hn; exact (Hn H)].
  - split; [intros _ Hb; contradiction | reflexivity].
Qed.

(** X6.  [New] returns nil exactly when every application folder can be
    created, the [.env] file is there or can be created, the file loads,
    the database opens if DATABASE_TYPE names one, and the daily job is
    accepted if the embedded store is the cache.  Nothing else can make it
    fail: not the SMTP port, not the embedded store, not the session
    setup. *)
Theorem New_returns_nil_iff (W : World) (r : string) (s : Proc) :
  fst (New W r s) = Normal None <->
  (forall path, In path New_folderNames ->
                CreateDirIfNotExist W (r +:+ "/" +:+ path) = None) /\
  (stat_IsNotExist W (r +:+ "/.env") = true -> os_Create W (r +:+ "/.env") = None) /\
  snd (godotenv_Load W (r +:+ "/.env") (environ s)) = None /\
  (Getenv (loaded W r (environ s)) "DATABASE_TYPE" <> "" ->
   snd (OpenDB W (Getenv (loaded W r (environ s)) "DATABASE_TYPE")
               (BuildDSN_of (loaded W r (environ s)))) = None) /\
  (Getenv (loaded W r (environ s)) "CACHE" = "badger" -> cron_Parse W "@daily" = None).
Proof.
  rewrite New_fst. unfold New_outcome, New_db_abort.
  pose proof (New_env_error_None W r (environ s)) as H1.
  pose proof (New_db_error_None W (loaded W r (environ s))) as H2.
  pose proof (New_cache_error_None W (loaded W r (environ s))) as H3.
  destruct (New_env_error W r (environ s)).
  { split; [discriminate |]. intros (A & B & C & _).
    destruct H1 as [_ H1]. discriminate (H1 (conj A (conj B C))). }
  destruct (New_db_error W (loaded W r (environ s))).
  { split; [destruct (grv.ErrorLog (this s)); discriminate |].
    intros (_ & _ & _ & D & _). destruct H2 as [_ H2]. discriminate (H2 D). }
  destruct (New_cache_error W (loaded W r (environ s))).
  { split; [discriminate |].
    intros (_ & _ & _ & _ & E). destruct H3 as [_ H3]. discriminate (H3 E). }
  split; [| reflexivity]. intros _.
  destruct (proj1 H1 eq_refl) as (A & B & C).
  repeat split; try assumption; [apply H2 | apply H3]; reflexivity.
Qed.

(** X7.  When a folder, the [.env] file or its loading fails, [New] returns
    that error, and the receiver, the package variables and the pending
    deferred calls are as they were; the calls made are folder, file and
    loading calls only, so no database was opened and nothing was built. *)
Theorem New_early_error_changes_nothing (W : World) (r : string) (s : Proc) :
  (exists path, In path New_folderNames /\
                CreateDirIfNotExist W (r +:+ "/" +:+ path) <> None) \/
  (stat_IsNotExist W (r +:+ "/.env") = true /\ os_Create W (r +:+ "/.env") <> None) \/
  snd (godotenv_Load W (r +:+ "/.env") (environ s)) <> None ->
  exists err calls,
    fst (New W r s) = Normal (Some err) /\
    this (snd (New W r s)) = this s /\
    pkg (snd (New W r s)) = pkg s /\
    defers (snd (New W r s)) = defers s /\
    trace (snd (New W r s)) = trace s ++ calls /\
    Forall (fun c => is_setup_call c = true) calls.
Proof.
  intros Hfail.
  assert (New_env_error W r (environ s) <> None) as Hne.
  { intros Hn. apply New_env_error_None in Hn as (A & B & C).
    destruct Hfail as [(path & Hin & Hp) | [(Hst & Hc) | Hl]].
    - exact (Hp (A path Hin)).
    - exact (Hc (B Hst)).
    - exact (Hl C). }
  destruct (New_env_run_full W r s) as (F & G & P & D & T).
  destruct (New_env_error W r (environ s)) as [err |]; [| contradiction Hne; reflexivity].
  exists err, (New_env_calls W r).
  unfold New. rewrite bind_unfold.
  destruct (New_env W r s) as [o s1]. cbn [fst snd] in F, G, P, D, T. subst o.
  cbn. repeat split; try assumption. apply New_env_calls_setup.
Qed.

Lemma New_early_error_changes_nothing_witness :
  exists err calls,
    fst (New demo_world_views_readonly "/app" fresh) = Normal (Some err) /\
    this (snd (New demo_world_views_readonly "/app" fresh)) = this fresh /\
    pkg (snd (New demo_world_views_readonly "/app" fresh)) = pkg fresh /\
    defers (snd (New demo_world_views_readonly "/app" fresh)) = defers fresh /\
    trace (snd (New demo_world_views_readonly "/app" fresh)) = trace fresh ++ calls /\
    Forall (fun c => is_setup_call c = true) calls.
Proof.
  apply (New_early_error_changes_nothing demo_world_views_readonly "/app" fresh).
  left. exists "views". split.
  - vm_compute. tauto.
  - vm_compute. discriminate.
Defined.

(** X8.  When the folders and the [.env] file are fine and the database
    named by DATABASE_TYPE cannot be opened, the receiver and the package
    variables are left as they were and the last calls of the process are
    the attempt to open the database with the DSN of [BuildDSN] and, if the
    receiver came with an error logger, one log line with the error and the
    exit with status 1.  A receiver without error logger panics right after
    the attempt, and the error is never reported. *)
Theorem New_database_failure (W : World) (r : string) (s : Proc) (err : error) :
  New_env_error W r (environ s) = None ->
  Getenv (loaded W r (environ s)) "DATABASE_TYPE" <> "" ->
  snd (OpenDB W (Getenv (loaded W r (environ s)) "DATABASE_TYPE")
              (BuildDSN_of (loaded W r (environ s)))) = Some err ->
  let open :=
    CallOpenDB (Getenv (loaded W r (environ s)) "DATABASE_TYPE")
               (BuildDSN_of (loaded W r (environ s))) in
  let setup :=
    dir_calls r New_folderNames ++ checkDotEnv_calls W r
      ++ [CallLoadEnv (r +:+ "/.env")] in
  this (snd (New W r s)) = this s /\
  pkg (snd (New W r s)) = pkg s /\
  match grv.ErrorLog (this s) with
  | Some l =>
      fst (New W r s) = Exit 1 /\
      trace (snd (New W r s)) =
        trace s ++ setup ++ [open; CallLogOutput l (Error err); CallExit 1]
  | None =>
      fst (New W r s) = Panic nil_deref /\
      trace (snd (New W r s)) = trace s ++ setup ++ [open]
  end.
Proof.
  intros He Hty Hopen. cbv zeta.
  destruct (New_env_run_full W r s) as (F & G & P & _ & T).
  destruct (New_env_run W r s) as [_ V]. specialize (V He).
  rewrite He in F. rewrite (New_env_calls_ok W r _ He) in T.
  unfold New. rewrite bind_unfold.
  destruct (New_env W r s) as [o s1]. cbn [fst snd] in F, G, P, T, V. subst o.
  rewrite bind_unfold.
  pose proof (New_db_run W s1) as D. cbv zeta in D. rewrite V in D.
  assert (New_db_error W (loaded W r (environ s)) = Some err) as Hd.
  { unfold New_db_error. apply String.eqb_neq in Hty. rewrite Hty. exact Hopen. }
  rewrite Hd in D. rewrite D, G.
  destruct (grv.ErrorLog (this s)); cbn [fst snd with_calls this pkg trace];
    rewrite T, <- !app_assoc; repeat split; assumption.
Qed.

Lemma New_database_failure_witness :
  this (snd (New demo_world_db_down "/app" fresh)) = this fresh /\
  pkg (snd (New demo_world_db_down "/app" fresh)) = pkg fresh /\
  fst (New demo_world_db_down "/app" fresh) = Panic nil_deref /\
  trace (snd (New demo_world_db_down "/app" fresh)) =
    trace fresh
      ++ (dir_calls "/app" New_folderNames ++ checkDotEnv_calls demo_world_db_down "/app"
            ++ [CallLoadEnv ("/app" +:+ "/.env")])
      ++ [CallOpenDB (Getenv (loaded demo_world_db_down "/app" (environ fresh))
                             "DATABASE_TYPE")
                     (BuildDSN_of (loaded demo_world_db_down "/app" (environ fresh)))].
Proof.
  apply (New_database_failure demo_world_db_down "/app" fresh (Err "connection refused")).
  - vm_compute. reflexivity.
  - vm_compute. discriminate.
  - vm_compute. reflexivity.
Defined.

(** ** The failures [New] checks for *)

Lemma Init_error_Some (W : World) (root : string) (names : list string) (err : error) :
  Init_error W root names = Some err ->
  exists path, In path names /\ CreateDirIfNotExist W (root +:+ "/" +:+ path) = Some err.
Proof.
  induction names as [| p rest IH]; simpl; [discriminate |].
  destruct (CreateDirIfNotExist W (root +:+ "/" +:+ p)) as [e |] eqn:E.
  - intros [= <-]. exists p. split; [left; reflexivity | exact E].
  - intros H. destruct (IH H) as (path & Hin & Hp).
    exists path. split; [right; exact Hin | exact Hp].
Qed.

Lemma New_env_error_Some (W : World) (r : string) (e : gmap string string) (err : error) :
  New_env_error W r e = Some err ->
  (exists path, In path New_folderNames /\
                CreateDirIfNotExist W (r +:+ "/" +:+ path) = Some err) \/
  (stat_IsNotExist W (r +:+ "/.env") = true /\ os_Create W (r +:+ "/.env") = Some err) \/
  snd (godotenv_Load W (r +:+ "/.env") e) = Some err.
Proof.
  unfold New_env_error, checkDotEnv_error, Load_error.
  destruct (Init_error W r New_folderNames) as [e1 |] eqn:I.
  { intros [= <-]. left. exact (Init_error_Some W r New_folderNames e1 I). }
  destruct (stat_IsNotExist W (r +:+ "/.env")).
  - destruct (os_Create W (r +:+ "/.env")) as [e2 |].
    + intros [= <-]. right. left. split; reflexivity.
    + intros H. right. right. exact H.
  - intros H. right. right. exact H.
Qed.

(** A database that cannot be opened, on a receiver that holds an error
    logger: the error is printed and the process exits. *)
Lemma New_db_failure_logged
    (W : World) (r : string) (s : Proc) (l : log.Logger) (err : error) :
  New_env_error W r (environ s) = None ->
  New_db_error W (loaded W r (environ s)) = Some err ->
  grv.ErrorLog (this s) = Some l ->
  fst (New W r s) = Exit 1 /\
  trace (snd (New W r s)) =
    trace s
      ++ (dir_calls r New_folderNames ++ checkDotEnv_calls W r
            ++ [CallLoadEnv (r +:+ "/.env")])
      ++ [CallOpenDB (Getenv (loaded W r (environ s)) "DATABASE_TYPE")
                     (BuildDSN_of (loaded W r (environ s)));
          CallLogOutput l (Error err);
          CallExit 1].
Proof.
  intros He Hd Hl.
  destruct (New_env_run_full W r s) as (F & G & _ & _ & T).
  destruct (New_env_run W r s) as [_ V]. specialize (V He).
  rewrite He in F. rewrite (New_env_calls_ok W r _ He) in T.
  unfold New. rewrite bind_unfold.
  destruct (New_env W r s) as [o s1]. cbn [fst snd] in F, G, T, V. subst o.
  rewrite bind_unfold.
  pose proof (New_db_run W s1) as D. cbv zeta in D. rewrite V in D.
  rewrite Hd in D. rewrite D, G, Hl.
  cbn [fst snd with_calls trace]. rewrite T, <- !app_assoc. split; reflexivity.
Qed.

(** C3 (as amended).  For the settings [New] checks, startup is fatal and
    the error is reported.  When an application folder or the [.env] file
    cannot be created, or the [.env] file cannot be loaded, [New] returns
    the error of one of these operations.  When these steps succeed and the
    database named by DATABASE_TYPE cannot be opened, [New], on a receiver
    that holds an error logger, prints the error of the opening with that
    logger and exits with status 1.  When these steps succeed, no database
    fails and the daily job of the embedded store is refused, [New] returns
    the error of the scheduler.  In none of these cases does [New] return
    nil or start the mail worker. *)
Theorem New_fatal_on_startup_failure (W : World) (r : string) (s : Proc) :
  startup_failure W r (environ s) ->
  let e := loaded W r (environ s) in
  let setup_ok :=
    (forall path, In path New_folderNames ->
                  CreateDirIfNotExist W (r +:+ "/" +:+ path) = None) /\
    (stat_IsNotExist W (r +:+ "/.env") = true -> os_Create W (r +:+ "/.env") = None) /\
    snd (godotenv_Load W (r +:+ "/.env") (environ s)) = None in
  fst (New W r s) <> Normal None /\
  (exists calls,
     trace (snd (New W r s)) = trace s ++ calls /\ ~ In CallGoListenForMail calls) /\
  ((exists path, In path New_folderNames /\
                 CreateDirIfNotExist W (r +:+ "/" +:+ path) <> None) \/
   (stat_IsNotExist W (r +:+ "/.env") = true /\ os_Create W (r +:+ "/.env") <> None) \/
   snd (godotenv_Load W (r +:+ "/.env") (environ s)) <> None ->
   exists err,
     fst (New W r s) = Normal (Some err) /\
     ((exists path, In path New_folderNames /\
                    CreateDirIfNotExist W (r +:+ "/" +:+ path) = Some err) \/
      (stat_IsNotExist W (r +:+ "/.env") = true /\
       os_Create W (r +:+ "/.env") = Some err) \/
      snd (godotenv_Load W (r +:+ "/.env") (environ s)) = Some err)) /\
  (forall (l : log.Logger) (err : error),
     setup_ok ->
     Getenv e "DATABASE_TYPE" <> "" ->
     snd (OpenDB W (Getenv e "DATABASE_TYPE") (BuildDSN_of e)) = Some err ->
     grv.ErrorLog (this s) = Some l ->
     fst (New W r s) = Exit 1 /\
     exists calls,
       trace (snd (New W r s)) =
         trace s ++ calls
           ++ [CallOpenDB (Getenv e "DATABASE_TYPE") (BuildDSN_of e);
               CallLogOutput l (Error err);
               CallExit 1]) /\
  (forall err : error,
     setup_ok ->
     (Getenv e "DATABASE_TYPE" <> "" ->
      snd (OpenDB W (Getenv e "DATABASE_TYPE") (BuildDSN_of e)) = None) ->
     Getenv e "CACHE" = "badger" ->
     cron_Parse W "@daily" = Some err ->
     fst (New W r s) = Normal (Some err)).
Proof.
  intros Hfail. cbv zeta.
  pose proof (startup_failure_outcome W r s Hfail) as Hout.
  rewrite <- New_fst in Hout.
  split; [exact Hout |]. split; [| split; [| split]].
  - destruct (New_failure_quietly W r s Hout) as (calls & T & F).
    exists calls. split; [exact T |].
    intros Hin. rewrite Forall_forall in F.
    specialize (F _ (proj2 (list_elem_of_In _ _) Hin)). discriminate F.
  - intros Henv. rewrite New_fst. unfold New_outcome.
    destruct (New_env_error W r (environ s)) as [err |] eqn:He.
    + exists err. split; [reflexivity |]. exact (New_env_error_Some W r _ err He).
    + apply New_env_error_None in He as (A & B & C).
      destruct Henv as [(path & Hin & Hp) | [(Hst & Hc) | Hl]].
      * contradiction (Hp (A path Hin)).
      * contradiction (Hc (B Hst)).
      * contradiction (Hl C).
  - intros l err Hok Hty Hopen Hl.
    apply New_env_error_None in Hok.
    assert (New_db_error W (loaded W r (environ s)) = Some err) as Hd.
    { unfold New_db_error. apply String.eqb_neq in Hty. rewrite Hty. exact Hopen. }
    destruct (New_db_failure_logged W r s l err Hok Hd Hl) as (F & T).
    split; [exact F |]. eexists. exact T.
  - intros err Hok Hdb Hb Hcron.
    apply New_env_error_None in Hok. apply New_db_error_None in Hdb.
    rewrite New_fst. unfold New_outcome. rewrite Hok, Hdb.
    unfold New_cache_error. apply wants_badger_true in Hb. rewrite Hb, Hcron.
    reflexivity.
Qed.

Lemma New_fatal_on_startup_failure_witness :
  fst (New demo_world_db_down "/app" fresh_with_ErrorLog) = Exit 1 /\
  exists calls,
    trace (snd (New demo_world_db_down "/app" fresh_with_ErrorLog)) =
      trace fresh_with_ErrorLog ++ calls
        ++ [CallOpenDB "postgres" (BuildDSN_of demo_env);
            CallLogOutput (log.New ("ERROR" +:+ tab) 19) "connection refused";
            CallExit 1].
Proof.
  destruct (New_fatal_on_startup_failure demo_world_db_down "/app" fresh_with_ErrorLog)
    as (_ & _ & _ & Hdb & _).
  { right. right. right. left. split.
    - vm_compute. discriminate.
    - vm_compute. discriminate. }
  apply (Hdb (log.New ("ERROR" +:+ tab) 19) (Err "connection refused")).
  - split; [intros path _; reflexivity |]. split; [discriminate | reflexivity].
  - vm_compute. discriminate.
  - vm_compute. reflexivity.
  - vm_compute. reflexivity.
Defined.

(** ** What a successful [New] has done, in order *)

Lemma New_trace (W : World) (r : string) (s s' : Proc) :
  New W r s = (Normal None, s') ->
  trace s' =
    trace s ++ dir_calls r New_folderNames ++ checkDotEnv_calls W r
      ++ [CallLoadEnv (r +:+ "/.env")]
      ++ New_db_calls (environ s')
      ++ New_cache_calls (environ s') (this s)
      ++ [CallLogNew ("INFO" +:+ tab); CallLogNew ("ERROR" +:+ tab);
          CallMakeChan 20; CallMakeChan 20; CallRoutes;
          CallInitSession; CallJetNewSet (r +:+ "/views"); CallGoListenForMail].
Proof.
  intros H.
  destruct (New_success W r s s' H) as ((E & _) & _).
  destruct (New_success_more W r s s' H) as (T & _).
  rewrite E, T. reflexivity.
Qed.

(** X9.  The calls of a successful [New], in order: one per application
    folder, the look-up of the [.env] file (with its creation and closing
    when it was missing), the loading of the file, the opening of the
    database if one is named, the creation of the scheduler, the
    construction of the network cache and of the embedded store as
    selected, the two loggers, the two mail channels, the routes, the
    session manager, the template set, and last the start of the mail
    worker.  In particular the database is opened before the loggers
    exist. *)
Theorem New_call_sequence (W : World) (r : string) (s s' : Proc) :
  New W r s = (Normal None, s') ->
  trace s' =
    trace s ++ dir_calls r New_folderNames ++ checkDotEnv_calls W r
      ++ [CallLoadEnv (r +:+ "/.env")]
      ++ New_db_calls (environ s')
      ++ New_cache_calls (environ s') (this s)
      ++ [CallLogNew ("INFO" +:+ tab); CallLogNew ("ERROR" +:+ tab);
          CallMakeChan 20; CallMakeChan 20; CallRoutes;
          CallInitSession; CallJetNewSet (r +:+ "/views"); CallGoListenForMail].
Proof.
  exact (New_trace W r s s').
Qed.

Lemma New_call_sequence_witness :
  trace demo_started =
    trace fresh ++ dir_calls "/app" New_folderNames ++ checkDotEnv_calls demo_world "/app"
      ++ [CallLoadEnv ("/app" +:+ "/.env")]
      ++ New_db_calls (environ demo_started)
      ++ New_cache_calls (environ demo_started) (this fresh)
      ++ [CallLogNew ("INFO" +:+ tab); CallLogNew ("ERROR" +:+ tab);
          CallMakeChan 20; CallMakeChan 20; CallRoutes;
          CallInitSession; CallJetNewSet ("/app" +:+ "/views"); CallGoListenForMail].
Proof.
  apply (New_call_sequence demo_world "/app" fresh demo_started).
  vm_compute. reflexivity.
Defined.

(** X10.  After a successful [New r] the paths of the application hang off
    [r]: [grv.RootPath] is [r], the mail templates are read from [r/mail]
    and the views from [r/views]. *)
Theorem New_paths_under_root (W : World) (r : string) (s s' : Proc) :
  New W r s = (Normal None, s') ->
  grv.RootPath (this s') = r /\
  mailer.Templates (grv.Mail (this s')) = r +:+ "/mail" /\
  exists views,
    grv.JetViews (this s') = Some views /\ jet.loaderDir views = r +:+ "/views".
Proof.
  intros H.
  destruct (New_success_more W r s s' H)
    as (_ & _ & (R & _) & _ & (M & _) & _ & (J & _)).
  split; [exact R |]. split; [rewrite M; reflexivity |].
  eexists. split; [exact J | reflexivity].
Qed.

Lemma New_paths_under_root_witness :
  grv.RootPath (this demo_started) = "/app" /\
  mailer.Templates (grv.Mail (this demo_started)) = "/app" +:+ "/mail" /\
  exists views,
    grv.JetViews (this demo_started) = Some views /\
    jet.loaderDir views = "/app" +:+ "/views".
Proof.
  apply (New_paths_under_root demo_world "/app" fresh demo_started).
  vm_compute. reflexivity.
Defined.

Lemma In_dir_calls (root : string) (names : list string) (c : Call) :
  In c (dir_calls root names) -> is_setup_call c = true.
Proof.
  unfold dir_calls. rewrite in_map_iff. intros (path & <- & _). reflexivity.
Qed.

Lemma In_checkDotEnv_calls (W : World) (r : string) (c : Call) :
  In c (checkDotEnv_calls W r) -> is_setup_call c = true.
Proof.
  unfold checkDotEnv_calls.
  destruct (stat_IsNotExist W _); [destruct (os_Create W _) |]; simpl;
    intuition (subst; reflexivity).
Qed.

(** X11.  The embedded store is not opened under the root passed to [New]:
    when the embedded store is the selected cache, the one directory a
    successful [New] opens a store in is [/tmp/badger] under the
    [RootPath] the receiver held when [New] was entered, and the handle in
    the package variable is the one that opening gave, or nil if it
    failed. *)
Theorem New_opens_store_under_old_root (W : World) (r : string) (s s' : Proc) :
  New W r s = (Normal None, s') ->
  Getenv (environ s') "CACHE" = "badger" ->
  exists calls,
    trace s' = trace s ++ calls /\
    (forall dir, In (CallBadgerOpen dir) calls <->
                 dir = grv.RootPath (this s) +:+ "/tmp/badger") /\
    badgerConn (pkg s') =
      match badger_Open W (grv.RootPath (this s) +:+ "/tmp/badger") with
      | (_, Some _) => None
      | (db, None) => db
      end.
Proof.
  intros H Hb.
  destruct (New_success W r s s' H) as ((E & _) & _ & (_ & _ & _ & J) & _).
  pose proof (New_trace W r s s' H) as T.
  rewrite <- E in J. apply wants_badger_true in Hb. rewrite Hb in J.
  eexists. split; [exact T |]. split; [| exact J].
  intros dir. unfold New_cache_calls, New_db_calls. rewrite Hb.
  rewrite !in_app_iff. split.
  - intros [Hin | [Hin | [Hin | [Hin | [Hin | Hin]]]]].
    + apply In_dir_calls in Hin. discriminate Hin.
    + apply In_checkDotEnv_calls in Hin. discriminate Hin.
    + destruct Hin as [Hin | []]. discriminate Hin.
    + destruct (negb _); simpl in Hin; intuition discriminate.
    + destruct Hin as [Hin | [Hin | Hin]].
      * destruct Hin as [Hin | []]. discriminate Hin.
      * destruct (wants_redis (environ s')); simpl in Hin; intuition discriminate.
      * simpl in Hin. destruct Hin as [Hin | Hin]; [| intuition discriminate].
        injection Hin as <-. reflexivity.
    + simpl in Hin. intuition discriminate.
  - intros ->. right. right. right. right. left. right. right. left. reflexivity.
Qed.

Lemma New_opens_store_under_old_root_witness :
  exists calls,
    trace demo_started = trace fresh ++ calls /\
    (forall dir, In (CallBadgerOpen dir) calls <->
                 dir = grv.RootPath (this fresh) +:+ "/tmp/badger") /\
    badgerConn (pkg demo_started) =
      match badger_Open demo_world (grv.RootPath (this fresh) +:+ "/tmp/badger") with
      | (_, Some _) => None
      | (db, None) => db
      end.
Proof.
  apply (New_opens_store_under_old_root demo_world "/app" fresh demo_started).
  - vm_compute. reflexivity.
  - vm_compute. reflexivity.
Defined.

(** For a freshly allocated receiver that directory is [/tmp/badger],
    whatever root is passed. *)
Example demo_store_directory :
  grv.RootPath (this fresh) +:+ "/tmp/badger" = "/tmp/badger" /\
  In (CallBadgerOpen "/tmp/badger") (trace demo_started) /\
  ~ In (CallBadgerOpen "/app/tmp/badger") (trace demo_started).
Proof.
  split; [reflexivity |]. split.
  - vm_compute. tauto.
  - vm_compute. intuition discriminate.
Qed.

(** ** The fields of the receiver after a successful [New] *)

Lemma ParseBool_true (str : string) :
  fst (strconv.ParseBool str) = true <->
  In str ["1"; "t"; "T"; "TRUE"; "true"; "True"].
Proof.
  unfold strconv.ParseBool.
  destruct (String.eqb_spec str "1"); [subst; simpl; tauto |].
  destruct (String.eqb_spec str "t"); [subst; simpl; tauto |].
  destruct (String.eqb_spec str "T"); [subst; simpl; tauto |].
  destruct (String.eqb_spec str "TRUE"); [subst; simpl; tauto |].
  destruct (String.eqb_spec str "true"); [subst; simpl; tauto |].
  destruct (String.eqb_spec str "True"); [subst; simpl; tauto |].
  cbn [orb]. split.
  - destruct (_ || _); cbn [fst]; discriminate.
  - simpl. intros [H | [H | [H | [H | [H | [H | []]]]]]]; congruence.
Qed.

(** X12.  After a successful [New], [grv.Debug] is true exactly when DEBUG
    is one of 1, t, T, TRUE, true, True; every other value, unset and
    unparseable ones included, gives false without an error.  The template
    set is in development mode exactly when [grv.Debug] is true. *)
Theorem New_Debug_and_development_mode (W : World) (r : string) (s s' : Proc) :
  New W r s = (Normal None, s') ->
  (grv.Debug (this s') = true <->
   In (Getenv (environ s') "DEBUG") ["1"; "t"; "T"; "TRUE"; "true"; "True"]) /\
  exists views,
    grv.JetViews (this s') = Some views /\
    jet.developmentMode views = grv.Debug (this s').
Proof.
  intros H.
  destruct (New_success W r s s' H) as ((E & _) & _).
  destruct (New_success_more W r s s' H) as (_ & _ & (_ & D & _) & _ & _ & _ & (J & _)).
  rewrite <- E in D. split.
  - rewrite D. apply ParseBool_true.
  - eexists. split; [exact J | reflexivity].
Qed.

Lemma New_Debug_and_development_mode_witness :
  (grv.Debug (this demo_started) = true <->
   In (Getenv (environ demo_started) "DEBUG") ["1"; "t"; "T"; "TRUE"; "true"; "True"]) /\
  exists views,
    grv.JetViews (this demo_started) = Some views /\
    jet.developmentMode views = grv.Debug (this demo_started).
Proof.
  apply (New_Debug_and_development_mode demo_world "/app" fresh demo_started).
  vm_compute. reflexivity.
Defined.

(** X13.  After a successful [New] the renderer is wired to what the
    receiver holds: the same template set and the same session manager,
    the root path of the receiver, and the RENDERER and PORT settings. *)
Theorem New_renderer_shares_receiver (W : World) (r : string) (s s' : Proc) :
  New W r s = (Normal None, s') ->
  exists rd,
    grv.Render (this s') = Some rd /\
    render.JetViews rd = grv.JetViews (this s') /\
    render.Session rd = grv.Session (this s') /\
    render.RootPath rd = grv.RootPath (this s') /\
    render.Renderer rd = Getenv (environ s') "RENDERER" /\
    render.Port rd = Getenv (environ s') "PORT".
Proof.
  intros H.
  destruct (New_success W r s s' H) as ((E & _) & _).
  destruct (New_success_more W r s s' H) as (_ & _ & (R & _) & _ & _ & _ & (_ & N)).
  eexists. split; [exact N |]. cbn. rewrite E, R. repeat split; reflexivity.
Qed.

Lemma New_renderer_shares_receiver_witness :
  exists rd,
    grv.Render (this demo_started) = Some rd /\
    render.JetViews rd = grv.JetViews (this demo_started) /\
    render.Session rd = grv.Session (this demo_started) /\
    render.RootPath rd = grv.RootPath (this demo_started) /\
    render.Renderer rd = Getenv (environ demo_started) "RENDERER" /\
    render.Port rd = Getenv (environ demo_started) "PORT".
Proof.
  apply (New_renderer_shares_receiver demo_world "/app" fresh demo_started).
  vm_compute. reflexivity.
Defined.

Lemma sql_session_true (st : string) :
  sql_session st = true <-> In st ["mysql"; "postgres"; "mariadb"; "postgresql"].
Proof.
  unfold sql_session. rewrite !orb_true_iff, !String.eqb_eq. simpl.
  intuition (subst; auto).
Qed.

(** X14.  The session manager a successful [New] builds takes its cookie
    name, lifetime, persistence and domain from the COOKIE settings and its
    store from SESSION_TYPE: for [redis] the pool of the package variable
    [redisPool], which is then not nil, and no database; for [mysql],
    [postgres], [mariadb] and [postgresql] the pool of [grv.DB], which is
    nil when no database was opened, and no cache pool; for every other
    value neither. *)
Theorem New_session_store (W : World) (r : string) (s s' : Proc) :
  New W r s = (Normal None, s') ->
  let e := environ s' in
  let st := Getenv e "SESSION_TYPE" in
  exists sess,
    grv.Session (this s') = Some (session.InitSession sess) /\
    (session.CookieName sess = Getenv e "COOKIE_NAME" /\
     session.CookieLifeTime sess = Getenv e "COOKIE_LIFETIME" /\
     session.CookiePersist sess = Getenv e "COOKIE_PERSISTS" /\
     session.CookieDomain sess = Getenv e "COOKIE_DOMAIN" /\
     session.SessionType sess = st) /\
    (st = "redis" ->
     session.RedisPool sess = redisPool (pkg s') /\
     session.RedisPool sess <> None /\ session.DBPool sess = None) /\
    (In st ["mysql"; "postgres"; "mariadb"; "postgresql"] ->
     session.DBPool sess = Pool (grv.DB (this s')) /\ session.RedisPool sess = None) /\
    (st <> "redis" -> ~ In st ["mysql"; "postgres"; "mariadb"; "postgresql"] ->
     session.DBPool sess = None /\ session.RedisPool sess = None).
Proof.
  intros H. cbv zeta.
  destruct (New_success W r s s' H) as ((E & _) & _ & (_ & B & _) & _).
  destruct (New_success_more W r s s' H) as (_ & _ & _ & _ & _ & (S & _) & _).
  rewrite <- E in S, B.
  eexists. split; [exact S |]. cbn.
  split; [repeat split; reflexivity |]. split; [| split].
  - intros Hst. rewrite B, (wants_redis_session _ Hst), Hst. cbn.
    repeat split; [discriminate].
  - intros Hsql. apply sql_session_true in Hsql. rewrite Hsql.
    split; [reflexivity |].
    destruct (String.eqb_spec (Getenv (environ s') "SESSION_TYPE") "redis") as [Hr | _];
      [| reflexivity].
    rewrite Hr in Hsql. discriminate Hsql.
  - intros Hr Hsql. apply String.eqb_neq in Hr. rewrite Hr.
    destruct (sql_session (Getenv (environ s') "SESSION_TYPE")) eqn:Hq;
      [| split; reflexivity].
    apply sql_session_true in Hq. contradiction.
Qed.

Lemma New_session_store_witness :
  exists sess,
    grv.Session (this demo_started) = Some (session.InitSession sess) /\
    (session.CookieName sess = Getenv (environ demo_started) "COOKIE_NAME" /\
     session.CookieLifeTime sess = Getenv (environ demo_started) "COOKIE_LIFETIME" /\
     session.CookiePersist sess = Getenv (environ demo_started) "COOKIE_PERSISTS" /\
     session.CookieDomain sess = Getenv (environ demo_started) "COOKIE_DOMAIN" /\
     session.SessionType sess = Getenv (environ demo_started) "SESSION_TYPE") /\
    (Getenv (environ demo_started) "SESSION_TYPE" = "redis" ->
     session.RedisPool sess = redisPool (pkg demo_started) /\
     session.RedisPool sess <> None /\ session.DBPool sess = None) /\
    (In (Getenv (environ demo_started) "SESSION_TYPE")
        ["mysql"; "postgres"; "mariadb"; "postgresql"] ->
     session.DBPool sess = Pool (grv.DB (this demo_started)) /\
     session.RedisPool sess = None) /\
    (Getenv (environ demo_started) "SESSION_TYPE" <> "redis" ->
     ~ In (Getenv (environ demo_started) "SESSION_TYPE")
          ["mysql"; "postgres"; "mariadb"; "postgresql"] ->
     session.DBPool sess = None /\ session.RedisPool sess = None).
Proof.
  apply (New_session_store demo_world "/app" fresh demo_started).
  vm_compute. reflexivity.
Defined.

(** X15.  A successful [New] opens the database exactly when DATABASE_TYPE
    is not empty, once, with the DSN of [BuildDSN]; [grv.DB] then holds
    that type and the pool that was returned, and [grv.config] records the
    same type and DSN.  With DATABASE_TYPE empty no database call is made
    and [grv.DB] is left as it was. *)
Theorem New_database (W : World) (r : string) (s s' : Proc) :
  New W r s = (Normal None, s') ->
  let e := environ s' in
  let ty := Getenv e "DATABASE_TYPE" in
  exists calls,
    trace s' = trace s ++ calls /\
    database (database_ (grv.config (this s'))) = ty /\
    dsn (database_ (grv.config (this s'))) = BuildDSN_of e /\
    (ty <> "" ->
     grv.DB (this s') =
       {| DataBaseType := ty; Pool := fst (OpenDB W ty (BuildDSN_of e)) |} /\
     List.filter (fun c => match c with CallOpenDB _ _ => true | _ => false end) calls
       = [CallOpenDB ty (BuildDSN_of e)]) /\
    (ty = "" ->
     grv.DB (this s') = grv.DB (this s) /\
     List.filter (fun c => match c with CallOpenDB _ _ => true | _ => false end) calls
       = []).
Proof.
  intros H. cbv zeta.
  destruct (New_success W r s s' H) as ((E & _) & _).
  pose proof (New_trace W r s s' H) as T.
  destruct (New_success_more W r s s' H) as (_ & D & _ & _ & (_ & C & _) & _).
  rewrite <- E in D, C.
  assert (forall l, Forall (fun c => is_setup_call c = true) l ->
            List.filter (fun c => match c with CallOpenDB _ _ => true | _ => false end) l
            = []) as Hsetup.
  { induction 1 as [| c l Hc _ IH]; [reflexivity |].
    cbn [List.filter]. rewrite IH. destruct c; try discriminate Hc; reflexivity. }
  assert (List.filter (fun c => match c with CallOpenDB _ _ => true | _ => false end)
            (New_cache_calls (environ s') (this s)) = []) as Hcache.
  { unfold New_cache_calls.
    destruct (wants_redis (environ s')); destruct (wants_badger (environ s'));
      reflexivity. }
  eexists. split; [exact T |].
  split; [rewrite C; reflexivity |]. split; [rewrite C; reflexivity |].
  rewrite !List.filter_app.
  rewrite (Hsetup (dir_calls r New_folderNames))
    by (apply Forall_forall; intros c Hc; apply list_elem_of_In in Hc;
        exact (In_dir_calls _ _ _ Hc)).
  rewrite (Hsetup (checkDotEnv_calls W r))
    by (apply Forall_forall; intros c Hc; apply list_elem_of_In in Hc;
        exact (In_checkDotEnv_calls _ _ _ Hc)).
  rewrite Hcache. unfold New_db_calls. split.
  - intros Hty. apply String.eqb_neq in Hty. rewrite Hty in D |- *.
    split; [exact D | reflexivity].
  - intros Hty. rewrite Hty in D |- *. split; [exact D | reflexivity].
Qed.

Lemma New_database_witness :
  exists calls,
    trace demo_started = trace fresh ++ calls /\
    database (database_ (grv.config (this demo_started))) =
      Getenv (environ demo_started) "DATABASE_TYPE" /\
    dsn (database_ (grv.config (this demo_started))) = BuildDSN_of (environ demo_started) /\
    (Getenv (environ demo_started) "DATABASE_TYPE" <> "" ->
     grv.DB (this demo_started) =
       {| DataBaseType := Getenv (environ demo_started) "DATABASE_TYPE";
          Pool := fst (OpenDB demo_world (Getenv (environ demo_started) "DATABASE_TYPE")
                              (BuildDSN_of (environ demo_started))) |} /\
     List.filter (fun c => match c with CallOpenDB _ _ => true | _ => false end) calls
       = [CallOpenDB (Getenv (environ demo_started) "DATABASE_TYPE")
                     (BuildDSN_of (environ demo_started))]) /\
    (Getenv (environ demo_started) "DATABASE_TYPE" = "" ->
     grv.DB (this demo_started) = grv.DB (this fresh) /\
     List.filter (fun c => match c with CallOpenDB _ _ => true | _ => false end) calls
       = []).
Proof.
  apply (New_database demo_world "/app" fresh demo_started).
  vm_compute. reflexivity.
Defined.

(** X16.  After a successful [New] the package variables name the same
    objects as the facade: with the embedded store selected, [grv.Cache] is
    the client in [myBadgerCache] and [badgerConn] is its handle; whenever
    the network cache was built, [redisPool] is the pool of the client in
    [myRedisCache], and that client is [grv.Cache] unless the embedded store
    took its place. *)
Theorem New_package_variables_alias_facade (W : World) (r : string) (s s' : Proc) :
  New W r s = (Normal None, s') ->
  (Getenv (environ s') "CACHE" = "badger" ->
   exists bc,
     grv.Cache (this s') = Some (cache.OfBadger bc) /\
     myBadgerCache (pkg s') = Some bc /\
     badgerConn (pkg s') = cache.bConn bc) /\
  (Getenv (environ s') "CACHE" = "redis" \/ Getenv (environ s') "SESSION_TYPE" = "redis" ->
   exists rc,
     myRedisCache (pkg s') = Some rc /\
     redisPool (pkg s') = cache.rConn rc /\
     (Getenv (environ s') "CACHE" <> "badger" ->
      grv.Cache (this s') = Some (cache.OfRedis rc))).
Proof.
  intros H.
  destruct (New_success W r s s' H) as ((E & _) & (K & _) & (A & B & D & J) & _).
  rewrite <- E in K, A, B, D, J. split.
  - intros Hb. apply wants_badger_true in Hb. rewrite Hb in K, D, J.
    eexists. split; [exact K |]. split; [exact D | exact J].
  - intros Hr. apply wants_redis_true in Hr. rewrite Hr in K, A, B.
    eexists. split; [exact A |]. split; [exact B |].
    intros Hb. apply wants_badger_false in Hb. rewrite Hb in K. exact K.
Qed.

Lemma New_package_variables_alias_facade_witness :
  (Getenv (environ demo_started) "CACHE" = "badger" ->
   exists bc,
     grv.Cache (this demo_started) = Some (cache.OfBadger bc) /\
     myBadgerCache (pkg demo_started) = Some bc /\
     badgerConn (pkg demo_started) = cache.bConn bc) /\
  (Getenv (environ demo_started) "CACHE" = "redis" \/
   Getenv (environ demo_started) "SESSION_TYPE" = "redis" ->
   exists rc,
     myRedisCache (pkg demo_started) = Some rc /\
     redisPool (pkg demo_started) = cache.rConn rc /\
     (Getenv (environ demo_started) "CACHE" <> "badger" ->
      grv.Cache (this demo_started) = Some (cache.OfRedis rc))).
Proof.
  apply (New_package_variables_alias_facade demo_world "/app" fresh demo_started).
  vm_compute. reflexivity.
Defined.

(** X17.  The session setting reaches the cache facade.  With SESSION_TYPE
    set to [redis] and a CACHE setting other than [badger], the unset one
    included, a successful [New] installs the network cache as
    [grv.Cache].  When CACHE names neither backend and SESSION_TYPE is not
    [redis], [grv.Cache] and the four package variables are left as they
    were. *)
Theorem New_session_type_selects_cache (W : World) (r : string) (s s' : Proc) :
  New W r s = (Normal None, s') ->
  (Getenv (environ s') "SESSION_TYPE" = "redis" ->
   Getenv (environ s') "CACHE" <> "badger" ->
   exists rc, grv.Cache (this s') = Some (cache.OfRedis rc)) /\
  (Getenv (environ s') "SESSION_TYPE" <> "redis" ->
   Getenv (environ s') "CACHE" <> "redis" ->
   Getenv (environ s') "CACHE" <> "badger" ->
   grv.Cache (this s') = grv.Cache (this s) /\
   myRedisCache (pkg s') = myRedisCache (pkg s) /\
   redisPool (pkg s') = redisPool (pkg s) /\
   myBadgerCache (pkg s') = myBadgerCache (pkg s) /\
   badgerConn (pkg s') = badgerConn (pkg s)).
Proof.
  intros H.
  destruct (New_success W r s s' H) as ((E & _) & (K & _) & (A & B & D & J) & _).
  rewrite <- E in K, A, B, D, J. split.
  - intros Hs Hb. apply wants_badger_false in Hb.
    rewrite Hb, (wants_redis_session _ Hs) in K. eexists. exact K.
  - intros Hs Hr Hb. apply wants_badger_false in Hb.
    assert (wants_redis (environ s') = false) as Hw.
    { unfold wants_redis. apply orb_false_iff. rewrite !String.eqb_neq. tauto. }
    rewrite Hb, Hw in K. rewrite Hw in A, B. rewrite Hb in D, J.
    repeat split; assumption.
Qed.

Lemma New_session_type_selects_cache_witness :
  Getenv (environ (snd (New demo_world_session_only "/app" fresh))) "CACHE" = "" /\
  exists rc,
    grv.Cache (this (snd (New demo_world_session_only "/app" fresh))) =
      Some (cache.OfRedis rc).
Proof.
  split; [vm_compute; reflexivity |].
  apply (proj1 (New_session_type_selects_cache demo_world_session_only "/app" fresh
                  (snd (New demo_world_session_only "/app" fresh))
                  ltac:(vm_compute; reflexivity))).
  - vm_compute. reflexivity.
  - vm_compute. discriminate.
Defined.

(** ** Startup followed by shutdown *)

(** X18.  Every application that [New] started successfully ends
    [ListenAndServe] the same way, whatever error the server stops with:
    two log lines around the serving, then exit status 1, and no [Close]
    call at all.  The handles it deferred the closing of stay on the defer
    stack; the pool of the network cache is among them whenever it was
    built. *)
Theorem New_then_ListenAndServe_leaks (W W2 : World) (r : string) (s s' : Proc) :
  New W r s = (Normal None, s') ->
  exists infoLog errorLog,
    fst (ListenAndServe W2 s') = Exit 1 /\
    trace (snd (ListenAndServe W2 s')) =
      trace s' ++
        [CallLogOutput infoLog ("Listening on port " +:+ Getenv (environ s') "PORT");
         CallServe (ListenAndServe_srv s');
         CallLogOutput errorLog (Error (http_ListenAndServe W2 (ListenAndServe_srv s')));
         CallExit 1] /\
    defers (snd (ListenAndServe W2 s')) = ListenAndServe_deferred s' /\
    (Getenv (environ s') "CACHE" = "redis" \/ Getenv (environ s') "SESSION_TYPE" = "redis" ->
     In (HRedisPool createRedisPool_literal) (ListenAndServe_deferred s')).
Proof.
  intros H.
  destruct (New_success W r s s' H) as ((E & _) & _ & (_ & B & _) & _).
  destruct (New_success_more W r s s' H) as (_ & _ & _ & (I & L) & _).
  destruct (ListenAndServe_run W2 s' _ _ I L) as (F & T & D).
  eexists. eexists. split; [exact F |]. split; [exact T |]. split; [exact D |].
  intros Hr. rewrite <- E in B. apply wants_redis_true in Hr. rewrite Hr in B.
  unfold ListenAndServe_deferred. rewrite B.
  apply in_or_app. right. apply in_or_app. left. left. reflexivity.
Qed.

Lemma New_then_ListenAndServe_leaks_witness :
  exists infoLog errorLog,
    fst (ListenAndServe demo_world_db_down demo_started) = Exit 1 /\
    trace (snd (ListenAndServe demo_world_db_down demo_started)) =
      trace demo_started ++
        [CallLogOutput infoLog
           ("Listening on port " +:+ Getenv (environ demo_started) "PORT");
         CallServe (ListenAndServe_srv demo_started);
         CallLogOutput errorLog
           (Error (http_ListenAndServe demo_world_db_down
                     (ListenAndServe_srv demo_started)));
         CallExit 1] /\
    defers (snd (ListenAndServe demo_world_db_down demo_started)) =
      ListenAndServe_deferred demo_started /\
    (Getenv (environ demo_started) "CACHE" = "redis" \/
     Getenv (environ demo_started) "SESSION_TYPE" = "redis" ->
     In (HRedisPool createRedisPool_literal) (ListenAndServe_deferred demo_started)).
Proof.
  apply (New_then_ListenAndServe_leaks demo_world demo_world_db_down "/app" fresh
           demo_started).
  vm_compute. reflexivity.
Defined.

(** X19.  On a receiver without info logger, one [New] never ran on,
    [ListenAndServe] panics at its first log line: the server is never
    started, and the deferred calls run, closing the embedded store, then
    the network cache pool, then the database pool, each if it is not
    nil. *)
Theorem ListenAndServe_without_info_logger (W : World) (s : Proc) :
  grv.InfoLog (this s) = None ->
  fst (ListenAndServe W s) = Panic nil_deref /\
  trace (snd (ListenAndServe W s)) =
    trace s
      ++ match badgerConn (pkg s) with Some db => [CallClose (HBadger db)] | None => [] end
      ++ match redisPool (pkg s) with Some p => [CallClose (HRedisPool p)] | None => [] end
      ++ match Pool (grv.DB (this s)) with Some db => [CallClose (HSql db)] | None => [] end.
Proof.
  intros Hi. destruct (ListenAndServe_panic W s Hi) as (F & T).
  split; [exact F |]. rewrite T. unfold ListenAndServe_deferred.
  destruct (badgerConn (pkg s)); destruct (redisPool (pkg s));
    destruct (Pool (grv.DB (this s))); reflexivity.
Qed.

Lemma ListenAndServe_without_info_logger_witness :
  let s := {| this := grv.set_InfoLog None (this demo_started);
              pkg := pkg demo_started; environ := environ demo_started;
              defers := []; trace := [] |} in
  fst (ListenAndServe demo_world s) = Panic nil_deref /\
  trace (snd (ListenAndServe demo_world s)) =
    [CallClose (HRedisPool createRedisPool_literal);
     CallClose (HSql (SqlDB "postgres" (BuildDSN_of demo_env)))].
Proof.
  cbv zeta.
  refine (let H := ListenAndServe_without_info_logger demo_world
                     {| this := grv.set_InfoLog None (this demo_started);
                        pkg := pkg demo_started; environ := environ demo_started;
                        defers := []; trace := [] |} _ in _).
  destruct H as (F & T). split; [exact F |]. rewrite T. vm_compute. reflexivity.
  Unshelve. vm_compute. reflexivity.
Defined.

(** X20.  On a receiver with an info logger and no error logger
    [ListenAndServe] serves, and when the server stops it panics in
    [Fatal]; this time the deferred calls run, after the serving, and the
    handles are closed. *)
Theorem ListenAndServe_without_error_logger
    (W : World) (s : Proc) (infoLog : log.Logger) :
  grv.InfoLog (this s) = Some infoLog ->
  grv.ErrorLog (this s) = None ->
  fst (ListenAndServe W s) = Panic nil_deref /\
  trace (snd (ListenAndServe W s)) =
    trace s
      ++ [CallLogOutput infoLog ("Listening on port " +:+ Getenv (environ s) "PORT");
          CallServe (ListenAndServe_srv s)]
      ++ map CallClose (ListenAndServe_deferred s).
Proof.
  intros Hi He.
  unfold ListenAndServe, func, ListenAndServe_deferred, ListenAndServe_srv,
    Logger_Printf, Logger_Fatal.
  go_run. rewrite Hi, He.
  destruct (Pool (grv.DB (this s))); go_run;
    destruct (redisPool (pkg s)); go_run;
    destruct (badgerConn (pkg s)); go_run;
    rewrite <- ?app_assoc; repeat split; reflexivity.
Qed.

Lemma ListenAndServe_without_error_logger_witness :
  let s := {| this := grv.set_ErrorLog None (this demo_started);
              pkg := pkg demo_started; environ := environ demo_started;
              defers := []; trace := [] |} in
  fst (ListenAndServe demo_world s) = Panic nil_deref /\
  trace (snd (ListenAndServe demo_world s)) =
    trace s
      ++ [CallLogOutput (log.New ("INFO" +:+ tab) 3)
            ("Listening on port " +:+ Getenv (environ s) "PORT");
          CallServe (ListenAndServe_srv s)]
      ++ map CallClose (ListenAndServe_deferred s).
Proof.
  cbv zeta. apply ListenAndServe_without_error_logger.
  - vm_compute. reflexivity.
  - vm_compute. reflexivity.
Defined.

(** X21.  After a successful [New] the PORT setting is recorded three times
    and the three agree: in [grv.Server], in [grv.config] and in the
    renderer.  The server name is read from the variable SEVER_NAME, so a
    SERVER_NAME variable is never looked at, and the URL from APP_URL. *)
Theorem New_server_settings (W : World) (r : string) (s s' : Proc) :
  New W r s = (Normal None, s') ->
  Port (grv.Server (this s')) = Getenv (environ s') "PORT" /\
  port (grv.config (this s')) = Port (grv.Server (this s')) /\
  (render.Port <$> grv.Render (this s')) = Some (Port (grv.Server (this s'))) /\
  ServerName (grv.Server (this s')) = Getenv (environ s') "SEVER_NAME" /\
  URL (grv.Server (this s')) = Getenv (environ s') "APP_URL".
Proof.
  intros H.
  destruct (New_success W r s s' H) as ((E & _) & _).
  destruct (New_success_more W r s s' H) as (_ & _ & _ & _ & (_ & C & S) & _ & (_ & N)).
  rewrite N, C, S, E. cbn. repeat split; reflexivity.
Qed.

Lemma New_server_settings_witness :
  Port (grv.Server (this demo_started)) = Getenv (environ demo_started) "PORT" /\
  port (grv.config (this demo_started)) = Port (grv.Server (this demo_started)) /\
  (render.Port <$> grv.Render (this demo_started)) =
    Some (Port (grv.Server (this demo_started))) /\
  ServerName (grv.Server (this demo_started)) = Getenv (environ demo_started) "SEVER_NAME" /\
  URL (grv.Server (this demo_started)) = Getenv (environ demo_started) "APP_URL".
Proof.
  apply (New_server_settings demo_world "/app" fresh demo_started).
  vm_compute. reflexivity.
Defined.
